(** * Admissions form: validation schema, submission hook and persistence

    A shallow embedding of the application-form validation schema
    (zod), of the Firebase-backed submission hook and of the
    Supabase-backed persistence functions, with the properties the
    specification states about them. *)

From Stdlib Require Import ZArith NArith List Bool String Ascii Lia.
Import ListNotations.

Set Implicit Arguments.

(** ** JavaScript strings

    A JavaScript string is a sequence of UTF-16 code units; [.length]
    counts code units and regular expressions without the [u] flag match
    code unit by code unit. *)

Definition codeunit := N.
Definition jsstring := list codeunit.

Definition js (s : string) : jsstring :=
  List.map N_of_ascii (list_ascii_of_string s).
Arguments js : simpl never.

(** [a === b] on strings. *)
Fixpoint str_eqb (a b : jsstring) : bool :=
  match a, b with
  | [], [] => true
  | x :: a', y :: b' => N.eqb x y && str_eqb a' b'
  | _, _ => false
  end.

(** Truthiness of a string value: only the empty string is falsy. *)
Definition truthy (s : jsstring) : bool :=
  match s with [] => false | _ :: _ => true end.

(** *** Character classes *)

Definition in_range (lo hi c : codeunit) : bool :=
  (N.leb lo c && N.leb c hi)%bool.

(** [[a-z]], [[A-Z]], [[a-zA-Z]] *)
Definition is_lower (c : codeunit) : bool := in_range 97%N 122%N c.
Definition is_upper (c : codeunit) : bool := in_range 65%N 90%N c.
Definition is_ascii_letter (c : codeunit) : bool := is_lower c || is_upper c.

(** [\d] and [[1-9]] *)
Definition is_digit (c : codeunit) : bool := in_range 48%N 57%N c.
Definition is_nonzero_digit (c : codeunit) : bool := in_range 49%N 57%N c.

(** [\s]: the WhiteSpace and LineTerminator code points of ECMAScript:
    TAB LF VT FF CR SP NBSP U+1680 U+2000..U+200A U+2028 U+2029 U+202F
    U+205F U+3000 U+FEFF. *)
Definition is_js_whitespace (c : codeunit) : bool :=
  existsb (N.eqb c)
    [9; 10; 11; 12; 13; 32; 160; 5760; 8232; 8233; 8239; 8287; 12288; 65279]%N
  || in_range 8192%N 8202%N c.

(** The space character U+0020 alone. *)
Definition is_space (c : codeunit) : bool := N.eqb c 32%N.

Definition is_char (a : ascii) (c : codeunit) : bool := N.eqb c (N_of_ascii a).

(** ** Regular expressions

    The patterns of the source are all of the form [^...$] without
    flags, groups or look-around, so [RegExp.prototype.test] decides
    membership of the whole string in a regular language.  Matching is
    by derivatives. *)

Inductive regex : Type :=
| RNone : regex
| REps : regex
| RCls (p : codeunit -> bool) : regex
| RSeq (r1 r2 : regex) : regex
| RAlt (r1 r2 : regex) : regex
| RStar (r : regex) : regex.

Fixpoint nullable (r : regex) : bool :=
  match r with
  | RNone => false
  | REps => true
  | RCls _ => false
  | RSeq r1 r2 => nullable r1 && nullable r2
  | RAlt r1 r2 => nullable r1 || nullable r2
  | RStar _ => true
  end.

Fixpoint deriv (c : codeunit) (r : regex) : regex :=
  match r with
  | RNone => RNone
  | REps => RNone
  | RCls p => if p c then REps else RNone
  | RSeq r1 r2 =>
      RAlt (RSeq (deriv c r1) r2) (if nullable r1 then deriv c r2 else RNone)
  | RAlt r1 r2 => RAlt (deriv c r1) (deriv c r2)
  | RStar r1 => RSeq (deriv c r1) (RStar r1)
  end.

Fixpoint matches (r : regex) (s : jsstring) : bool :=
  match s with
  | [] => nullable r
  | c :: s' => matches (deriv c r) s'
  end.

(** [r+], [r{n}], [r{0,n}] and [r{lo,hi}] *)
Definition RPlus (r : regex) : regex := RSeq r (RStar r).

Fixpoint RTimes (n : nat) (r : regex) : regex :=
  match n with
  | O => REps
  | S n' => RSeq r (RTimes n' r)
  end.

Fixpoint RUpTo (n : nat) (r : regex) : regex :=
  match n with
  | O => REps
  | S n' => RAlt REps (RSeq r (RUpTo n' r))
  end.

Definition RRange (lo hi : nat) (r : regex) : regex :=
  RSeq (RTimes lo r) (RUpTo (hi - lo) r).

(** [/^r$/.test(s)] *)
Definition regex_test (r : regex) (s : jsstring) : bool := matches r s.

(** The language a pattern denotes, against which [matches] is checked. *)
Inductive lang : regex -> jsstring -> Prop :=
| L_eps : lang REps []
| L_cls p c : p c = true -> lang (RCls p) [c]
| L_seq r1 r2 s1 s2 : lang r1 s1 -> lang r2 s2 -> lang (RSeq r1 r2) (s1 ++ s2)
| L_alt_l r1 r2 s : lang r1 s -> lang (RAlt r1 r2) s
| L_alt_r r1 r2 s : lang r2 s -> lang (RAlt r1 r2) s
| L_star_nil r : lang (RStar r) []
| L_star_cons r c s1 s2 :
    lang r (c :: s1) -> lang (RStar r) s2 -> lang (RStar r) (c :: s1 ++ s2).

(** ** Dates

    Time values are milliseconds since 1970-01-01T00:00:00Z; [None]
    stands for the time value NaN of an invalid [Date].  Day numbers and
    the calendar follow the Date algorithms of ECMAScript (proleptic
    Gregorian calendar). *)

Section Calendar.
Local Open Scope Z_scope.

Definition msPerDay : Z := 86400000.
Definition msPerMinute : Z := 60000.

Definition Day (t : Z) : Z := t / msPerDay.
Definition TimeWithinDay (t : Z) : Z := t mod msPerDay.

Definition DaysInYear (y : Z) : Z :=
  if negb (y mod 4 =? 0) then 365
  else if negb (y mod 100 =? 0) then 366
  else if negb (y mod 400 =? 0) then 365
  else 366.

Definition InLeapYear (y : Z) : bool := DaysInYear y =? 366.

Definition DayFromYear (y : Z) : Z :=
  365 * (y - 1970) + (y - 1969) / 4 - (y - 1901) / 100 + (y - 1601) / 400.

(** Day within the year on which month [m] (0 = January) starts. *)
Definition monthStart (leap : bool) (m : Z) : Z :=
  let l := if leap then 1 else 0 in
  match m with
  | 0 => 0
  | 1 => 31
  | 2 => 59 + l
  | 3 => 90 + l
  | 4 => 120 + l
  | 5 => 151 + l
  | 6 => 181 + l
  | 7 => 212 + l
  | 8 => 243 + l
  | 9 => 273 + l
  | 10 => 304 + l
  | _ => 334 + l
  end.

(** Number of days of month [m] (1 = January) of year [y]. *)
Definition daysInMonth (y m : Z) : Z :=
  match m with
  | 2 => if InLeapYear y then 29 else 28
  | 4 | 6 | 9 | 11 => 30
  | _ => 31
  end.

(** [MakeDay(year, month, date)], [month] counted from 0. *)
Definition MakeDay (year month date : Z) : Z :=
  let ym := year + month / 12 in
  let mn := month mod 12 in
  DayFromYear ym + monthStart (InLeapYear ym) mn + date - 1.

Definition MakeDate (day time : Z) : Z := day * msPerDay + time.

(** Year, month (from 0) and day of the month of a day number. *)
Definition civilFromDays (z : Z) : Z * Z * Z :=
  let z := z + 719468 in
  let era := z / 146097 in
  let doe := z - era * 146097 in
  let yoe := (doe - doe / 1460 + doe / 36524 - doe / 146096) / 365 in
  let doy := doe - (365 * yoe + yoe / 4 - yoe / 100) in
  let mp := (5 * doy + 2) / 153 in
  let d := doy - (153 * mp + 2) / 5 + 1 in
  let m := if mp <? 10 then mp + 3 else mp - 9 in
  let y := yoe + era * 400 + (if m <=? 2 then 1 else 0) in
  (y, m - 1, d).

Definition YearFromTime (t : Z) : Z := fst (fst (civilFromDays (Day t))).
Definition MonthFromTime (t : Z) : Z := snd (fst (civilFromDays (Day t))).
Definition DateFromTime (t : Z) : Z := snd (civilFromDays (Day t)).

(** The time zone of the host: its offset from UTC in milliseconds at an
    instant given in UTC, and at a time given in local time
    ([LocalTZA(t, true)] and [LocalTZA(t, false)]).  The offset of a
    zone may differ from one date to another. *)
Record TimeZone : Type := mkZone {
  offsetAtUTC : Z -> Z;
  offsetAtLocal : Z -> Z
}.

Definition LocalTime (zone : TimeZone) (t : Z) : Z := t + offsetAtUTC zone t.
Definition UTC (zone : TimeZone) (t : Z) : Z := t - offsetAtLocal zone t.

(** A zone that is always [minutes] east of UTC. *)
Definition fixedOffset (minutes : Z) : TimeZone :=
  mkZone (fun _ => minutes * msPerMinute) (fun _ => minutes * msPerMinute).

(** A zone that is [before] minutes east of UTC until the instant
    [switch] and [after] minutes east of UTC from then on. *)
Definition twoPeriodZone (before after switch : Z) : TimeZone :=
  mkZone
    (fun t => (if t <? switch then before else after) * msPerMinute)
    (fun t => (if t <? switch + before * msPerMinute then before else after)
              * msPerMinute).

(** [d.getFullYear()] and the time value after [d.setFullYear(y)]: both
    work on the local-time fields of [d]. *)
Definition Date_getFullYear (zone : TimeZone) (t : Z) : Z :=
  YearFromTime (LocalTime zone t).

Definition Date_setFullYear (zone : TimeZone) (t y : Z) : Z :=
  let lt := LocalTime zone t in
  UTC zone (MakeDate (MakeDay y (MonthFromTime lt) (DateFromTime lt))
                     (TimeWithinDay lt)).

(** Time value of the date-only form [YYYY-MM-DD]: midnight UTC of that
    day ([m] counted from 1). *)
Definition dateOnlyTime (y m d : Z) : Z := MakeDate (MakeDay y (m - 1) d) 0.

Definition validDate (y m d : Z) : bool :=
  (0 <=? y) && (y <=? 9999) && (1 <=? m) && (m <=? 12) &&
  (1 <=? d) && (d <=? daysInMonth y m).

Definition digitValue (c : codeunit) : option Z :=
  if is_digit c then Some (Z.of_N c - 48) else None.

Fixpoint digitsValue (acc : Z) (s : jsstring) : option Z :=
  match s with
  | [] => Some acc
  | c :: s' =>
      match digitValue c with
      | Some v => digitsValue (10 * acc + v) s'
      | None => None
      end
  end.

(** The date-only form of the ECMAScript date-time string format. *)
Definition parseDateOnly (s : jsstring) : option Z :=
  match s with
  | [y1; y2; y3; y4; h1; m1; m2; h2; d1; d2] =>
      if is_char "-" h1 && is_char "-" h2 then
        match digitsValue 0 [y1; y2; y3; y4],
              digitsValue 0 [m1; m2], digitsValue 0 [d1; d2] with
        | Some y, Some m, Some d =>
            if validDate y m d then Some (dateOnlyTime y m d) else None
        | _, _, _ => None
        end
      else None
  | _ => None
  end.

(** [new Date(s).getTime()].  Strings that are not a valid date-only
    form are parsed as the host implements it ([other]). *)
Definition Date_parse (other : jsstring -> option Z) (s : jsstring) : option Z :=
  match parseDateOnly s with
  | Some t => Some t
  | None => other s
  end.

Definition digitChar (v : Z) : codeunit := Z.to_N (48 + v).

(** The string [YYYY-MM-DD] of a date. *)
Definition isoDate (y m d : Z) : jsstring :=
  [ digitChar (y / 1000); digitChar (y / 100 mod 10);
    digitChar (y / 10 mod 10); digitChar (y mod 10); N_of_ascii "-";
    digitChar (m / 10); digitChar (m mod 10); N_of_ascii "-";
    digitChar (d / 10); digitChar (d mod 10) ].

(** [const minBirthDate = new Date('2025-02-27');
     minBirthDate.setFullYear(minBirthDate.getFullYear() - 18);] *)
Definition minBirthDate (zone : TimeZone) : Z :=
  let d0 := dateOnlyTime 2025 2 27 in
  Date_setFullYear zone d0 (Date_getFullYear zone d0 - 18).

(** The offset of the host at the instant [2025-02-27T00:00Z], and at
    the local time that [setFullYear] arrives at in 2007. *)
Definition offsetIn2025 (zone : TimeZone) : Z :=
  offsetAtUTC zone (dateOnlyTime 2025 2 27).

Definition offsetIn2007 (zone : TimeZone) : Z :=
  offsetAtLocal zone (dateOnlyTime 2007 2 27 + offsetIn2025 zone).

(** Two hosts whose offset is not the same in 2007 and in 2025: UTC-2
    until 11 March 2007 and UTC-3 after it, as America/Montevideo is on
    the two dates; UTC-11 until 30 December 2011 and UTC+13 after it, as
    Pacific/Apia is. *)
Definition zoneLikeMontevideo : TimeZone :=
  twoPeriodZone (-120) (-180) (dateOnlyTime 2007 3 11).

Definition zoneLikeApia : TimeZone :=
  twoPeriodZone (-660) 780 (dateOnlyTime 2011 12 30).

(** [dob <= minBirthDate]; a comparison with NaN is false. *)
Definition Date_le (dob : option Z) (t : Z) : bool :=
  match dob with
  | Some v => v <=? t
  | None => false
  end.

(** Calendar order on (year, month, day). *)
Definition onOrBefore (y m d y0 m0 d0 : Z) : Prop :=
  y < y0 \/ (y = y0 /\ (m < m0 \/ (m = m0 /\ d <= d0))).

End Calendar.

(** ** Field validation schema (zod)

    A [z.string()] carries a chain of checks.  Parsing a string runs
    every check of the chain in order and collects one issue per failed
    check; nothing is thrown. *)

Inductive path_elem : Type :=
| Key (k : string)
| Idx (i : nat).

Definition path := list path_elem.

Record issue : Type := mkIssue { issue_path : path; issue_message : string }.

(** ** Form data model

    The record types inferred from the schemas ([z.infer]). *)

Inductive Gender : Type := male | female | other.

Inductive EducationLevel : Type :=
| el_none | el_primary | el_js | el_jsse | el_ssce | el_tertiary.

Inductive TertiaryEducation : Type :=
| te_none | te_certificate | te_national_diploma | te_degree | te_other.

Inductive StudyMode : Type := full_time | part_time | weekend.

Inductive SponsorshipType : Type := self | organization | guardian.

Module Disability.
Record t : Type := mk { hasDisability : bool; details : option jsstring }.
End Disability.

Module PersonalInfo.
Record t : Type := mk {
  firstName : jsstring;
  lastName : jsstring;
  email : jsstring;
  phone : jsstring;
  dateOfBirth : jsstring;
  gender : Gender;
  address : jsstring;
  nationality : jsstring;
  stateOfOrigin : jsstring;
  religion : option jsstring;
  disability : Disability.t
}.
End PersonalInfo.

Module Certificate.
Record t : Type := mk { type : jsstring; grade : jsstring; year : jsstring }.
End Certificate.

Module AcademicBackground.
Record t : Type := mk {
  educationLevel : EducationLevel;
  tertiaryEducation : option TertiaryEducation;
  certificates : list Certificate.t
}.
End AcademicBackground.

Module ProgramSelection.
Record t : Type := mk {
  program : jsstring;
  course : jsstring;
  startDate : jsstring;
  studyMode : StudyMode;
  previousExperience : option jsstring;
  careerGoals : jsstring
}.
End ProgramSelection.

Module SponsorDetails.
Record t : Type := mk {
  name : jsstring;
  relationship : jsstring;
  contact : jsstring
}.
End SponsorDetails.

Module Accommodation.
Record t : Type := mk {
  needsAccommodation : bool;
  sponsorshipType : SponsorshipType;
  sponsorDetails : SponsorDetails.t
}.
End Accommodation.

Module Referee.
Record t : Type := mk {
  name : jsstring;
  email : jsstring;
  phone : jsstring;
  relationship : jsstring;
  organization : jsstring;
  position : jsstring
}.
End Referee.

Module ApplicationFormData.
Record t : Type := mk {
  personalInfo : PersonalInfo.t;
  academicBackground : AcademicBackground.t;
  programSelection : ProgramSelection.t;
  accommodation : Accommodation.t;
  referee : Referee.t
}.
End ApplicationFormData.

Inductive string_check : Type :=
| Min (n : nat) (msg : string)
| Max (n : nat) (msg : string)
| Regex (r : regex) (msg : string)
| Email (msg : string)
| Refine (p : jsstring -> bool) (msg : string).

Definition check_message (c : string_check) : string :=
  match c with
  | Min _ m | Max _ m | Regex _ m | Email m | Refine _ m => m
  end.

(** An issue of a field, and the issues of a nested schema, seen from
    the enclosing object. *)
Definition at_key (k : path_elem) (i : issue) : issue :=
  mkIssue (k :: issue_path i) (issue_message i).

Definition field (k : string) (msgs : list string) : list issue :=
  List.map (fun m => mkIssue [Key k] m) msgs.

Definition nested (k : path_elem) (iss : list issue) : list issue :=
  List.map (at_key k) iss.

(** [safeParse(...).success] *)
Definition success (iss : list issue) : bool :=
  match iss with [] => true | _ :: _ => false end.

(** [[a-zA-Z\s]] and [/^[a-zA-Z\s]*$/] *)
Definition name_char (c : codeunit) : bool :=
  is_ascii_letter c || is_js_whitespace c.

Definition nameRegex : regex := RStar (RCls name_char).

(** [/^\+[1-9]\d{1,14}$/] *)
Definition phonePattern : regex :=
  RSeq (RCls (is_char "+"))
       (RSeq (RCls is_nonzero_digit) (RRange 1 14 (RCls is_digit))).

(** [/^\d{4}$/] *)
Definition yearRegex : regex := RTimes 4 (RCls is_digit).

(** *** Values

    What is handed to a schema is any JavaScript value.  Of the values
    that are neither strings, booleans, arrays nor plain objects only
    the name of the type matters. *)

#[warnings="-register-all"] Inductive value : Type :=
| VUndefined : value
| VNull : value
| VBool (b : bool) : value
| VString (s : jsstring) : value
| VArray (l : list value) : value
| VObject (fields : list (string * value)) : value
| VOther (type : string) : value.

(** [fields[k]], [undefined] for a missing key. *)
Fixpoint lookup (k : string) (fields : list (string * value)) : value :=
  match fields with
  | [] => VUndefined
  | (k', v) :: rest => if String.eqb k' k then v else lookup k rest
  end.

(** [v.k] *)
Definition member (k : string) (v : value) : value :=
  match v with
  | VObject fields => lookup k fields
  | _ => VUndefined
  end.

(** [a === b] on the values that are compared in the schema. *)
Definition strict_eq (a b : value) : bool :=
  match a, b with
  | VString x, VString y => str_eqb x y
  | VBool x, VBool y => Bool.eqb x y
  | VUndefined, VUndefined => true
  | VNull, VNull => true
  | _, _ => false
  end.

(** The outcome of parsing a value: the issues raised, and whether
    parsing was aborted (the value has the wrong type, or is not among
    the values of an enumeration) or went on. *)
Record parsed : Type := mkParsed { aborted : bool; issues : list issue }.

Definition schema : Type := value -> parsed.

Definition valid : parsed := mkParsed false [].

Definition invalid (m : string) : parsed := mkParsed true [mkIssue [] m].

Definition under (k : path_elem) (r : parsed) : parsed :=
  mkParsed (aborted r) (nested k (issues r)).

Definition merge (r1 r2 : parsed) : parsed :=
  mkParsed (aborted r1 || aborted r2) (issues r1 ++ issues r2).

Definition merge_all (l : list parsed) : parsed := fold_right merge valid l.

(** The values of the inferred types as JavaScript values. *)
Definition encodeOptional (o : option jsstring) : value :=
  match o with
  | Some s => VString s
  | None => VUndefined
  end.

Definition encodeGender (g : Gender) : value :=
  VString (js match g with
              | male => "male" | female => "female" | other => "other"
              end).

Definition encodeEducationLevel (e : EducationLevel) : value :=
  VString (js match e with
              | el_none => "none" | el_primary => "primary" | el_js => "js"
              | el_jsse => "jsse" | el_ssce => "ssce" | el_tertiary => "tertiary"
              end).

Definition encodeTertiaryEducation (e : option TertiaryEducation) : value :=
  match e with
  | None => VUndefined
  | Some e =>
      VString (js match e with
                  | te_none => "none" | te_certificate => "certificate"
                  | te_national_diploma => "national_diploma"
                  | te_degree => "degree" | te_other => "other"
                  end)
  end.

Definition encodeStudyMode (m : StudyMode) : value :=
  VString (js match m with
              | full_time => "full-time" | part_time => "part-time"
              | weekend => "weekend"
              end).

Definition encodeSponsorshipType (t : SponsorshipType) : value :=
  VString (js match t with
              | self => "self" | organization => "organization"
              | guardian => "guardian"
              end).

Definition encodePersonalInfo (p : PersonalInfo.t) : value :=
  VObject
    [ ("firstName", VString (PersonalInfo.firstName p));
      ("lastName", VString (PersonalInfo.lastName p));
      ("email", VString (PersonalInfo.email p));
      ("phone", VString (PersonalInfo.phone p));
      ("dateOfBirth", VString (PersonalInfo.dateOfBirth p));
      ("gender", encodeGender (PersonalInfo.gender p));
      ("address", VString (PersonalInfo.address p));
      ("nationality", VString (PersonalInfo.nationality p));
      ("stateOfOrigin", VString (PersonalInfo.stateOfOrigin p));
      ("religion", encodeOptional (PersonalInfo.religion p));
      ("disability",
       VObject
         [ ("hasDisability",
            VBool (Disability.hasDisability (PersonalInfo.disability p)));
           ("details",
            encodeOptional (Disability.details (PersonalInfo.disability p))) ])
    ]%string.

Definition encodeCertificate (c : Certificate.t) : value :=
  VObject
    [ ("type", VString (Certificate.type c));
      ("grade", VString (Certificate.grade c));
      ("year", VString (Certificate.year c)) ]%string.

Definition encodeAcademicBackground (a : AcademicBackground.t) : value :=
  VObject
    [ ("educationLevel",
       encodeEducationLevel (AcademicBackground.educationLevel a));
      ("tertiaryEducation",
       encodeTertiaryEducation (AcademicBackground.tertiaryEducation a));
      ("certificates",
       VArray (List.map encodeCertificate (AcademicBackground.certificates a)))
    ]%string.

Definition encodeProgramSelection (p : ProgramSelection.t) : value :=
  VObject
    [ ("program", VString (ProgramSelection.program p));
      ("course", VString (ProgramSelection.course p));
      ("startDate", VString (ProgramSelection.startDate p));
      ("studyMode", encodeStudyMode (ProgramSelection.studyMode p));
      ("previousExperience",
       encodeOptional (ProgramSelection.previousExperience p));
      ("careerGoals", VString (ProgramSelection.careerGoals p)) ]%string.

Definition encodeSponsorDetails (d : SponsorDetails.t) : value :=
  VObject
    [ ("name", VString (SponsorDetails.name d));
      ("relationship", VString (SponsorDetails.relationship d));
      ("contact", VString (SponsorDetails.contact d)) ]%string.

Definition encodeAccommodation (a : Accommodation.t) : value :=
  VObject
    [ ("needsAccommodation", VBool (Accommodation.needsAccommodation a));
      ("sponsorshipType",
       encodeSponsorshipType (Accommodation.sponsorshipType a));
      ("sponsorDetails",
       encodeSponsorDetails (Accommodation.sponsorDetails a)) ]%string.

Definition encodeReferee (r : Referee.t) : value :=
  VObject
    [ ("name", VString (Referee.name r));
      ("email", VString (Referee.email r));
      ("phone", VString (Referee.phone r));
      ("relationship", VString (Referee.relationship r));
      ("organization", VString (Referee.organization r));
      ("position", VString (Referee.position r)) ]%string.

Definition encodeApplication (data : ApplicationFormData.t) : value :=
  VObject
    [ ("personalInfo",
       encodePersonalInfo (ApplicationFormData.personalInfo data));
      ("academicBackground",
       encodeAcademicBackground (ApplicationFormData.academicBackground data));
      ("programSelection",
       encodeProgramSelection (ApplicationFormData.programSelection data));
      ("accommodation",
       encodeAccommodation (ApplicationFormData.accommodation data));
      ("referee", encodeReferee (ApplicationFormData.referee data)) ]%string.

Section Schema.

(** zod's [.email()] pattern and its default messages for a value of the
    wrong type and for a value outside an enumeration are the library's
    own; the schema is parametric in them, in the time zone of the host
    and in the host's parsing of strings that are not a date-only
    form. *)
Variable isEmail : jsstring -> bool.
Variable zone : TimeZone.
Variable parseOther : jsstring -> option Z.
Variable typeMessage : string -> value -> string.
Variable enumMessage : list string -> value -> string.

Definition check_ok (c : string_check) (s : jsstring) : bool :=
  match c with
  | Min n _ => Nat.leb n (List.length s)
  | Max n _ => Nat.leb (List.length s) n
  | Regex r _ => regex_test r s
  | Email _ => isEmail s
  | Refine p _ => p s
  end.

(** [z.string().c1().c2()...] applied to [s]: the messages of the failed
    checks. *)
Definition zstring (checks : list string_check) (s : jsstring) : list string :=
  flat_map (fun c => if check_ok c s then [] else [check_message c]) checks.

(** [z.string()...]: a value that is not a string aborts; on a string
    every check runs. *)
Definition zString (checks : list string_check) : schema :=
  fun v =>
    match v with
    | VString s => mkParsed false (List.map (mkIssue []) (zstring checks s))
    | _ => invalid (typeMessage "string" v)
    end.

(** [z.boolean()] *)
Definition zBoolean : schema :=
  fun v =>
    match v with
    | VBool _ => valid
    | _ => invalid (typeMessage "boolean" v)
    end.

(** [z.enum(options, { errorMap })]: a value that is not one of the
    options aborts, with the message of the error map when there is
    one. *)
Definition zEnum (options : list string) (errorMap : option string) : schema :=
  fun v =>
    let message :=
      match errorMap with
      | Some m => m
      | None => enumMessage options v
      end in
    match v with
    | VString s =>
        if existsb (str_eqb s) (List.map js options) then valid
        else invalid message
    | _ => invalid message
    end.

(** [inner.optional()] *)
Definition zOptional (inner : schema) : schema :=
  fun v =>
    match v with
    | VUndefined => valid
    | _ => inner v
    end.

(** The elements of an array, each under its index. *)
Fixpoint elements (elem : schema) (i : nat) (l : list value) : parsed :=
  match l with
  | [] => valid
  | x :: l' => merge (under (Idx i) (elem x)) (elements elem (S i) l')
  end.

(** [z.array(elem)] *)
Definition zArray (elem : schema) : schema :=
  fun v =>
    match v with
    | VArray l => elements elem 0 l
    | _ => invalid (typeMessage "array" v)
    end.

(** [z.object(shape)]: every key of the shape is parsed, in order, on the
    field of that name; keys outside the shape are dropped. *)
Definition zObject (shape : list (string * schema)) : schema :=
  fun v =>
    match v with
    | VObject fields =>
        merge_all
          (List.map (fun ks => under (Key (fst ks)) (snd ks (lookup (fst ks) fields)))
             shape)
    | _ => invalid (typeMessage "object" v)
    end.

(** [inner.refine(check, { message, path })]: the check runs unless
    parsing the inner schema was aborted. *)
Definition zRefine (inner : schema) (check : value -> bool) (i : issue) : schema :=
  fun v =>
    let r := inner v in
    if aborted r then r
    else if check v then r
    else mkParsed false (issues r ++ [i]).

Definition firstNameSchema : list string_check :=
  [ Min 2 "First name must be at least 2 characters";
    Max 50 "First name must not exceed 50 characters";
    Regex nameRegex "First name can only contain letters and spaces" ].

Definition lastNameSchema : list string_check :=
  [ Min 2 "Last name must be at least 2 characters";
    Max 50 "Last name must not exceed 50 characters";
    Regex nameRegex "Last name can only contain letters and spaces" ].

(** [date => { const dob = new Date(date); return dob <= minBirthDate; }] *)
Definition dateOfBirthRefine (date : jsstring) : bool :=
  Date_le (Date_parse parseOther date) (minBirthDate zone).

Definition dateOfBirthSchema : list string_check :=
  [ Refine dateOfBirthRefine
      "You must be at least 18 years old by February 27, 2025" ].

Definition personalInfoSchema : schema :=
  zObject
    [ ("firstName", zString firstNameSchema);
      ("lastName", zString lastNameSchema);
      ("email", zString [Email "Invalid email address"]);
      ("phone",
       zString [Regex phonePattern
                  "Please enter a valid phone number (e.g., +234...)"]);
      ("dateOfBirth", zString dateOfBirthSchema);
      ("gender",
       zEnum ["male"; "female"; "other"] (Some "Please select your gender"));
      ("address",
       zString [Min 10 "Please provide a complete address";
                Max 200 "Address is too long"]);
      ("nationality", zString [Min 2 "Please specify your nationality"]);
      ("stateOfOrigin", zString [Min 2 "Please specify your state of origin"]);
      ("religion", zOptional (zString []));
      ("disability",
       zObject [ ("hasDisability", zBoolean);
                 ("details", zOptional (zString [])) ]) ]%string.

Definition certificateSchema : schema :=
  zObject
    [ ("type", zString [Min 2 "Certificate type is required"]);
      ("grade", zString [Min 1 "Grade is required"]);
      ("year", zString [Regex yearRegex "Please enter a valid year"]) ]%string.

Definition academicBackgroundSchema : schema :=
  zObject
    [ ("educationLevel",
       zEnum ["none"; "primary"; "js"; "jsse"; "ssce"; "tertiary"]
         (Some "Please select your education level"));
      ("tertiaryEducation",
       zOptional
         (zEnum ["none"; "certificate"; "national_diploma"; "degree"; "other"]
            None));
      ("certificates", zArray certificateSchema) ]%string.

Definition programSelectionSchema : schema :=
  zObject
    [ ("program", zString [Min 1 "Please select a program"]);
      ("course", zString [Min 1 "Please select a course"]);
      ("startDate", zString [Min 1 "Please select a start date"]);
      ("studyMode",
       zEnum ["full-time"; "part-time"; "weekend"]
         (Some "Please select a study mode"));
      ("previousExperience", zOptional (zString []));
      ("careerGoals",
       zString [Min 10 "Please describe your career goals";
                Max 500 "Career goals must not exceed 500 characters"]) ]%string.

Definition sponsorDetailsSchema : schema :=
  zObject
    [ ("name", zString [Min 2 "Sponsor name is required"]);
      ("relationship", zString [Min 2 "Please specify the relationship"]);
      ("contact", zString [Min 5 "Please provide contact information"]) ]%string.

Definition accommodationSchema : schema :=
  zObject
    [ ("needsAccommodation", zBoolean);
      ("sponsorshipType",
       zEnum ["self"; "organization"; "guardian"]
         (Some "Please select a sponsorship type"));
      ("sponsorDetails", sponsorDetailsSchema) ]%string.

(** The checks of [refereeSchema] on a record whose fields are
    strings. *)
Definition refereeSchema (r : Referee.t) : list issue :=
  field "name"
    (zstring [Min 2 "Referee name is required"; Max 100 "Referee name is too long"]
       (Referee.name r)) ++
  field "email"
    (zstring [Email "Invalid email address";
              Refine (fun email => negb (str_eqb email []))
                "Referee email is required"] (Referee.email r)) ++
  field "phone"
    (zstring [Regex phonePattern "Please enter a valid phone number"]
       (Referee.phone r)) ++
  field "relationship"
    (zstring [Min 2 "Please specify the relationship"] (Referee.relationship r)) ++
  field "organization"
    (zstring [Min 2 "Organization name is required"] (Referee.organization r)) ++
  field "position"
    (zstring [Min 2 "Position is required"] (Referee.position r)).

(** [refereeSchema] on any value. *)
Definition refereeObjectSchema : schema :=
  zObject
    [ ("name",
       zString [Min 2 "Referee name is required";
                Max 100 "Referee name is too long"]);
      ("email",
       zString [Email "Invalid email address";
                Refine (fun email => negb (str_eqb email []))
                  "Referee email is required"]);
      ("phone", zString [Regex phonePattern "Please enter a valid phone number"]);
      ("relationship", zString [Min 2 "Please specify the relationship"]);
      ("organization", zString [Min 2 "Organization name is required"]);
      ("position", zString [Min 2 "Position is required"]) ]%string.

(** The object of the five sections, before the refinement. *)
Definition applicationObject : schema :=
  zObject
    [ ("personalInfo", personalInfoSchema);
      ("academicBackground", academicBackgroundSchema);
      ("programSelection", programSelectionSchema);
      ("accommodation", accommodationSchema);
      ("referee", refereeObjectSchema) ]%string.

(** [data => data.referee.email !== data.personalInfo.email] *)
Definition emailsDiffer (data : value) : bool :=
  negb (strict_eq (member "email" (member "referee" data))
                  (member "email" (member "personalInfo" data))).

Definition refereeEmailIssue : issue :=
  mkIssue [Key "referee"; Key "email"]
          "Referee's email must be different from your email".

(** [z.object({...}).refine(..., {message, path: ['referee','email']})] *)
Definition applicationSchema : schema :=
  zRefine applicationObject emailsDiffer refereeEmailIssue.

End Schema.

(** ** Identities, documents and results *)

(** A thrown value: an [Error] with its message, or anything else. *)
Inductive thrown : Type :=
| ErrorObj (message : jsstring)
| OtherValue (v : jsstring).

(** [err instanceof Error ? err.message : fallback] *)
Definition messageOr (fallback : jsstring) (err : thrown) : jsstring :=
  match err with
  | ErrorObj m => m
  | OtherValue _ => fallback
  end.

Module FirebaseUser.
Record t : Type := mk {
  uid : jsstring;
  email : option jsstring;
  displayName : option jsstring
}.
End FirebaseUser.

Module SupabaseUser.
Record t : Type := mk { id : jsstring }.
End SupabaseUser.

(** [{ success, message, applicationId? }] *)
Module SubmissionResult.
Record t : Type := mk {
  success : bool;
  message : jsstring;
  applicationId : option jsstring
}.
End SubmissionResult.

(** The error object of a Supabase reply. *)
Module PostgrestError.
Record t : Type := mk { code : jsstring; message : jsstring }.
End PostgrestError.

Inductive any : Type :=
| AnyString (s : jsstring)
| AnyThrown (e : thrown)
| AnyPostgrestError (e : PostgrestError.t).

(** [{ success, message, applicationId?, error? }] *)
Module ApplicationResponse.
Record t : Type := mk {
  success : bool;
  message : jsstring;
  applicationId : option jsstring;
  error : option any
}.
End ApplicationResponse.

Module DraftResult.
Record t : Type := mk { success : bool; draftId : jsstring }.
End DraftResult.

(** [Partial<ApplicationFormData>] *)
Module PartialFormData.
Record t : Type := mk {
  personalInfo : option PersonalInfo.t;
  academicBackground : option AcademicBackground.t;
  programSelection : option ProgramSelection.t;
  accommodation : option Accommodation.t;
  referee : option Referee.t
}.
End PartialFormData.

(** *** Firestore documents *)

Inductive FieldValue : Type := serverTimestamp.

Module Metadata.
Record t : Type := mk {
  userEmail : option jsstring;
  userName : option jsstring;
  submissionDate : jsstring;
  lastModified : jsstring
}.
End Metadata.

(** [{ ...formData, userId, status, submittedAt, metadata }] *)
Module ApplicationData.
Record t : Type := mk {
  formData : ApplicationFormData.t;
  userId : jsstring;
  status : jsstring;
  submittedAt : FieldValue;
  metadata : Metadata.t
}.
End ApplicationData.

(** [{ applicationId, programId, courseId, status, submittedAt }] *)
Module UserApplicationLink.
Record t : Type := mk {
  applicationId : jsstring;
  programId : jsstring;
  courseId : jsstring;
  status : jsstring;
  submittedAt : FieldValue
}.
End UserApplicationLink.

Inductive firestore_doc : Type :=
| ApplicationDoc (d : ApplicationData.t)
| LinkDoc (d : UserApplicationLink.t).

(** *** Supabase rows *)

(** A section value, or the empty object [{}]. *)
Inductive obj_or_empty (A : Type) : Type :=
| Obj (a : A)
| EmptyObject.
Arguments EmptyObject {A}.

(** [x || {}] on an optional object. *)
Definition or_empty {A : Type} (x : option A) : obj_or_empty A :=
  match x with
  | Some a => Obj a
  | None => EmptyObject
  end.

(** The columns written by [submitApplication] and [saveDraft]. *)
Module Columns.
Record t : Type := mk {
  user_id : jsstring;
  personal_info : obj_or_empty PersonalInfo.t;
  academic_background : obj_or_empty AcademicBackground.t;
  program_selection : obj_or_empty ProgramSelection.t;
  accommodation : obj_or_empty Accommodation.t;
  referee : obj_or_empty Referee.t;
  status : jsstring;
  created_at : option jsstring;
  updated_at : jsstring
}.
End Columns.

(** [{ firstName, lastName, email, phone }] after sanitization. *)
Module SanitizedPersonalInfo.
Record t : Type := mk {
  firstName : jsstring;
  lastName : jsstring;
  email : jsstring;
  phone : jsstring
}.
End SanitizedPersonalInfo.

(** [{ ...formData, personal_info, status }] *)
Module FormInsert.
Record t : Type := mk {
  formData : ApplicationFormData.t;
  personal_info : SanitizedPersonalInfo.t;
  status : jsstring
}.
End FormInsert.

Inductive supabase_doc : Type :=
| FormDoc (d : FormInsert.t)
| ColumnsDoc (d : Columns.t).

(** A stored row of the [applications] table. *)
Module Row.
Record t : Type := mk { id : jsstring; columns : Columns.t }.
End Row.

(** [.eq(column, value)] *)
Definition eq_filter : Type := (jsstring * jsstring)%type.

(** [{ data, error }] of a query. *)
Inductive reply (A : Type) : Type :=
| Data (data : A)
| Error (error : PostgrestError.t).
Arguments Error {A}.

(** ** Effects

    What the functions ask of their environment.  The index of an effect
    is the type of its answer; an awaited promise may be rejected, so
    the answer of a remote call is [thrown + _]. *)

Inductive eff : Type -> Type :=
(* React state of the hook *)
| SetIsSubmitting (b : bool) : eff unit
| SetError (e : option thrown) : eff unit
(* notifications and logging *)
| ToastSuccess (m : jsstring) : eff unit
| ToastError (m : jsstring) : eff unit
| ConsoleError (label : jsstring) (v : any) : eff unit
(* [new Date().toISOString()] *)
| Now : eff jsstring
(* [addDoc(collection(db, path), doc)], resolving to [docRef.id] *)
| AddDoc (path : jsstring) (doc : firestore_doc) : eff (thrown + jsstring)
(* [supabase.auth.getUser()] *)
| GetUser : eff (option SupabaseUser.t)
(* [.from(table).insert(doc).select('id').single()] *)
| Insert (table : jsstring) (doc : supabase_doc)
    : eff (thrown + reply jsstring)
(* [.from(table).update(doc).eq(..)...select('id').single()] *)
| Update (table : jsstring) (doc : Columns.t) (filters : list eq_filter)
    : eff (thrown + reply jsstring)
(* [.from(table).select('*').eq(..).order(column, { ascending })] *)
| SelectOrdered (table : jsstring) (filters : list eq_filter)
    (column : jsstring) (ascending : bool)
    : eff (thrown + reply (list Row.t))
(* [.from(table).select('*').eq(..)...single()] *)
| SelectSingle (table : jsstring) (filters : list eq_filter)
    : eff (thrown + reply Row.t).

(** An async function body: it returns, throws (the promise is
    rejected), or performs an effect and goes on with the answer. *)
Inductive Async (A : Type) : Type :=
| Ret (a : A)
| Throw (e : thrown)
| Vis (X : Type) (e : eff X) (k : X -> Async A).
Arguments Throw {A}.

Fixpoint bind {A B : Type} (p : Async A) (f : A -> Async B) : Async B :=
  match p with
  | Ret a => f a
  | Throw e => Throw e
  | Vis e k => Vis e (fun x => bind (k x) f)
  end.

Notation "x <- p ;; q" := (bind p (fun x => q))
  (at level 61, p at next level, right associativity).
Notation "p ;; q" := (bind p (fun _ => q))
  (at level 61, right associativity).

Definition perform {X : Type} (e : eff X) : Async X := Vis e (fun x => Ret x).

(** [await] of a promise that may be rejected. *)
Definition await {X : Type} (e : eff (thrown + X)) : Async X :=
  Vis e (fun r => match r with inl err => Throw err | inr x => Ret x end).

(** [try { p } catch (err) { h err }] *)
Fixpoint try_catch {A : Type} (p : Async A) (h : thrown -> Async A) : Async A :=
  match p with
  | Ret a => Ret a
  | Throw e => h e
  | Vis e k => Vis e (fun x => try_catch (k x) h)
  end.

(** [try { p } finally { f }] *)
Fixpoint try_finally {A : Type} (p : Async A) (f : Async unit) : Async A :=
  match p with
  | Ret a => f ;; Ret a
  | Throw e => f ;; Throw e
  | Vis e k => Vis e (fun x => try_finally (k x) f)
  end.

(** *** Running against an environment *)

(** A call made, with the answer it got. *)
Inductive call : Type :=
| Call (X : Type) (e : eff X) (answer : X).

Inductive outcome (A : Type) : Type :=
| Returned (a : A)
| Rejected (e : thrown).
Arguments Rejected {A}.

(** An environment with state [S] answers every effect. *)
Definition handler (S : Type) : Type := forall X : Type, eff X -> S -> X * S.

(** The calls made, in order, the outcome and the final state. *)
Fixpoint run {S A : Type} (h : handler S) (p : Async A) (s : S)
  : list call * outcome A * S :=
  match p with
  | Ret a => ([], Returned a, s)
  | Throw e => ([], Rejected e, s)
  | Vis e k =>
      let '(x, s1) := h _ e s in
      let '(tr, o, s2) := run h (k x) s1 in
      (Call e x :: tr, o, s2)
  end.

Definition trace_of {S A : Type} (h : handler S) (p : Async A) (s : S)
  : list call := fst (fst (run h p s)).

Definition outcome_of {S A : Type} (h : handler S) (p : Async A) (s : S)
  : outcome A := snd (fst (run h p s)).

(** Remote writes and reads among the calls. *)
Definition is_insert_eff (X : Type) (e : eff X) : bool :=
  match e with
  | AddDoc _ _ | Insert _ _ => true
  | _ => false
  end.

Definition is_store_eff (X : Type) (e : eff X) : bool :=
  match e with
  | AddDoc _ _ | Insert _ _ | Update _ _ _
  | SelectOrdered _ _ _ _ | SelectSingle _ _ => true
  | _ => false
  end.

Definition is_insert (c : call) : bool :=
  match c with Call e _ => is_insert_eff e end.

Definition is_store_call (c : call) : bool :=
  match c with Call e _ => is_store_eff e end.

(** ** The Firebase-backed hook: [useApplicationSubmit] *)

Definition notSignedInSubmit : jsstring :=
  js "You must be signed in to submit an application".

(** [`users/${user.uid}/applications`] *)
Definition userApplicationsPath (uid : jsstring) : jsstring :=
  js "users/" ++ uid ++ js "/applications".

(** [handleSubmit], with [user] the value of [useAuth()] at the render
    that created the closure. *)
Definition handleSubmit (user : option FirebaseUser.t)
    (formData : ApplicationFormData.t) : Async SubmissionResult.t :=
  match user with
  | None => Throw (ErrorObj notSignedInSubmit)
  | Some user =>
      perform (SetIsSubmitting true) ;;
      perform (SetError None) ;;
      try_finally
        (try_catch
           (submissionDate <- perform Now ;;
            lastModified <- perform Now ;;
            let applicationData :=
              ApplicationData.mk formData (FirebaseUser.uid user)
                (js "pending") serverTimestamp
                (Metadata.mk (FirebaseUser.email user)
                   (FirebaseUser.displayName user)
                   submissionDate lastModified) in
            docRef_id <-
              await (AddDoc (js "applications") (ApplicationDoc applicationData)) ;;
            await (AddDoc (userApplicationsPath (FirebaseUser.uid user))
                     (LinkDoc
                        (UserApplicationLink.mk docRef_id
                           (ProgramSelection.program
                              (ApplicationFormData.programSelection formData))
                           (ProgramSelection.course
                              (ApplicationFormData.programSelection formData))
                           (js "pending") serverTimestamp))) ;;
            perform (ToastSuccess (js "Application submitted successfully!")) ;;
            Ret (SubmissionResult.mk true
                   (js "Application submitted successfully") (Some docRef_id)))
           (fun err =>
              perform (ConsoleError (js "Application submission error:")
                         (AnyThrown err)) ;;
              let errorMessage :=
                messageOr (js "Failed to submit application") err in
              perform (ToastError errorMessage) ;;
              perform (SetError (Some (ErrorObj errorMessage))) ;;
              Ret (SubmissionResult.mk false errorMessage None)))
        (perform (SetIsSubmitting false))
  end.

(** [resetForm] *)
Definition resetForm : Async unit :=
  perform (SetError None) ;;
  perform (SetIsSubmitting false).

(** *** The hook in the event loop

    A call of [handleSubmit] runs until its next [await] of a remote
    call, where it is suspended; it resumes when that call settles.
    Other calls may start in between. *)

Inductive suspended (A : Type) : Type :=
| Suspended (X : Type) (e : eff (thrown + X)) (k : thrown + X -> Async A).

Module Hook.
Record t : Type := mk {
  isSubmitting : bool;
  error : option thrown;
  (* calls of handleSubmit waiting for a remote call to settle *)
  pending : list (suspended SubmissionResult.t);
  (* results delivered to the callers so far *)
  settled : list (outcome SubmissionResult.t);
  (* readings of the clock so far *)
  ticks : nat
}.
End Hook.

Definition initialHook : Hook.t := Hook.mk false None [] [] 0.

Definition with_state (h : Hook.t) (b : bool) (e : option thrown) : Hook.t :=
  Hook.mk b e (Hook.pending h) (Hook.settled h) (Hook.ticks h).

(** The answer to an effect that completes at once, and the hook after
    it; [None] for a remote call. *)
Definition immediate (clock : nat -> jsstring) (X : Type) (e : eff X) (h : Hook.t)
  : option (X * Hook.t) :=
  match e in eff T return option (T * Hook.t) with
  | SetIsSubmitting b => Some (tt, with_state h b (Hook.error h))
  | SetError err => Some (tt, with_state h (Hook.isSubmitting h) err)
  | ToastSuccess _ => Some (tt, h)
  | ToastError _ => Some (tt, h)
  | ConsoleError _ _ => Some (tt, h)
  | Now =>
      Some (clock (Hook.ticks h),
            Hook.mk (Hook.isSubmitting h) (Hook.error h) (Hook.pending h)
              (Hook.settled h) (S (Hook.ticks h)))
  | _ => None
  end.

(** What a remote call awaits, if the effect is one. *)
Definition as_remote (A : Type) (X : Type) (e : eff X)
  : (X -> Async A) -> option (suspended A) :=
  match e in eff T return (T -> Async A) -> option (suspended A) with
  | AddDoc p d => fun k => Some (Suspended (AddDoc p d) k)
  | Insert t d => fun k => Some (Suspended (Insert t d) k)
  | Update t d f => fun k => Some (Suspended (Update t d f) k)
  | SelectOrdered t f c a => fun k => Some (Suspended (SelectOrdered t f c a) k)
  | SelectSingle t f => fun k => Some (Suspended (SelectSingle t f) k)
  | _ => fun _ => None
  end.

Inductive progress (A : Type) : Type :=
| Waiting (s : suspended A)
| Finished (o : outcome A)
| Stuck.
Arguments Stuck {A}.

(** Run a call up to its next remote call. *)
Fixpoint advance (clock : nat -> jsstring) (A : Type) (p : Async A) (h : Hook.t)
  : Hook.t * progress A :=
  match p with
  | Ret a => (h, Finished (Returned a))
  | Throw e => (h, Finished (Rejected e))
  | Vis e k =>
      match immediate clock e h with
      | Some (x, h') => advance clock (k x) h'
      | None =>
          match as_remote e k with
          | Some s => (h, Waiting s)
          | None => (h, Stuck)
          end
      end
  end.

Definition with_pending (h : Hook.t) (l : list (suspended SubmissionResult.t))
  : Hook.t :=
  Hook.mk (Hook.isSubmitting h) (Hook.error h) l (Hook.settled h) (Hook.ticks h).

(** After a call ran up to [r], with [rest] the other pending calls. *)
Definition resume (h : Hook.t) (rest : list (suspended SubmissionResult.t))
    (r : progress SubmissionResult.t) : Hook.t :=
  match r with
  | Waiting s => with_pending h (rest ++ [s])
  | Finished o =>
      Hook.mk (Hook.isSubmitting h) (Hook.error h) rest
        (Hook.settled h ++ [o]) (Hook.ticks h)
  | Stuck => with_pending h rest
  end.

Section EventLoop.

Variable clock : nat -> jsstring.

(** A submit request: [handleSubmit(formData)] is called. *)
Definition submit (user : option FirebaseUser.t) (formData : ApplicationFormData.t)
    (h : Hook.t) : Hook.t :=
  let '(h', r) := advance clock (handleSubmit user formData) h in
  resume h' (Hook.pending h) r.

(** [resetForm()] is called. *)
Definition reset (h : Hook.t) : Hook.t :=
  fst (advance clock resetForm h).

(** The steps of the hook: a submit request, a reset, or the remote call
    of one pending submission settling with some answer. *)
Inductive step : Hook.t -> Hook.t -> Prop :=
| step_submit user formData h :
    step h (submit user formData h)
| step_reset h :
    step h (reset h)
| step_settle h before X (e : eff (thrown + X)) k after (answer : thrown + X) :
    Hook.pending h = before ++ Suspended e k :: after ->
    step h (let '(h', r) := advance clock (k answer) h in
            resume h' (before ++ after) r).

(** The same, for a caller that issues a submit request only while
    [isSubmitting] is false and does not reset a submission in flight. *)
Inductive guarded_step : Hook.t -> Hook.t -> Prop :=
| guarded_submit user formData h :
    Hook.isSubmitting h = false ->
    guarded_step h (submit user formData h)
| guarded_reset h :
    Hook.pending h = [] ->
    guarded_step h (reset h)
| guarded_settle h before X (e : eff (thrown + X)) k after (answer : thrown + X) :
    Hook.pending h = before ++ Suspended e k :: after ->
    guarded_step h (let '(h', r) := advance clock (k answer) h in
                    resume h' (before ++ after) r).

Inductive reachable (R : Hook.t -> Hook.t -> Prop) : Hook.t -> Prop :=
| reach_init : reachable R initialHook
| reach_step h h' : reachable R h -> R h h' -> reachable R h'.

(** Remote inserts in flight. *)
Definition awaits_insert (s : suspended SubmissionResult.t) : bool :=
  match s with
  | Suspended e _ => is_insert_eff e
  end.

Definition inserts_in_flight (h : Hook.t) : nat :=
  List.length (List.filter awaits_insert (Hook.pending h)).

(** A suspended call that, once its remote call settles, ends with
    [isSubmitting] false after at most [n] further remote calls, and
    keeps the flag as it is until then. *)
Fixpoint settles_within (n : nat) (s : suspended SubmissionResult.t) : Prop :=
  match s with
  | Suspended _ k =>
      forall answer h,
        match advance clock (k answer) h with
        | (h', Finished _) => Hook.isSubmitting h' = false
        | (h', Waiting s') =>
            match n with
            | O => False
            | S n' =>
                Hook.isSubmitting h' = Hook.isSubmitting h /\
                settles_within n' s'
            end
        | (_, Stuck) => False
        end
  end.

(** Either nothing is pending, or one call is and the flag is set. *)
Definition one_in_flight (h : Hook.t) : Prop :=
  Hook.pending h = [] \/
  (Hook.isSubmitting h = true /\
   exists s n, Hook.pending h = [s] /\ settles_within n s).

End EventLoop.

(** ** The Supabase-backed functions *)

(** [String.prototype.trim]: white space and line terminators are
    removed at both ends. *)
Fixpoint trimStart (s : jsstring) : jsstring :=
  match s with
  | [] => []
  | c :: s' => if is_js_whitespace c then trimStart s' else s
  end.

Definition trimEnd (s : jsstring) : jsstring := rev (trimStart (rev s)).

Definition trim (s : jsstring) : jsstring := trimEnd (trimStart s).

(** [/^[^\s@]+@[^\s@]+\.[^\s@]+$/] *)
Definition emailRegex : regex :=
  let part := RCls (fun c => negb (is_js_whitespace c || is_char "@" c)) in
  RSeq (RPlus part)
    (RSeq (RCls (is_char "@"))
       (RSeq (RPlus part) (RSeq (RCls (is_char ".")) (RPlus part)))).

(** [/^[0-9+]+$/] *)
Definition phoneRegex : regex :=
  RPlus (RCls (fun c => is_digit c || is_char "+" c)).

Definition applications : jsstring := js "applications".

Section Supabase.

(** [String.prototype.toLowerCase] is the host's Unicode case mapping. *)
Variable toLowerCase : jsstring -> jsstring.

(** The checks [submitApplicationForm] makes before it sanitizes. *)
Definition missingRequired (p : PersonalInfo.t) : bool :=
  negb (truthy (PersonalInfo.firstName p)) ||
  negb (truthy (PersonalInfo.lastName p)) ||
  negb (truthy (PersonalInfo.email p)) ||
  negb (truthy (PersonalInfo.phone p)).

Definition validationError (m : string) : ApplicationResponse.t :=
  ApplicationResponse.mk false (js m) None (Some (AnyString (js "Validation Error"))).

Definition sanitize (personalInfo : PersonalInfo.t) : SanitizedPersonalInfo.t :=
  SanitizedPersonalInfo.mk
    (trim (PersonalInfo.firstName personalInfo))
    (trim (PersonalInfo.lastName personalInfo))
    (toLowerCase (trim (PersonalInfo.email personalInfo)))
    (trim (PersonalInfo.phone personalInfo)).

Definition submitApplicationForm (formData : ApplicationFormData.t)
  : Async ApplicationResponse.t :=
  try_catch
    (let personalInfo := ApplicationFormData.personalInfo formData in
     if missingRequired personalInfo then
       Ret (validationError "Missing required fields in personal information.")
     else if negb (regex_test emailRegex (PersonalInfo.email personalInfo)) then
       Ret (validationError "Invalid email format.")
     else if negb (regex_test phoneRegex (PersonalInfo.phone personalInfo)) then
       Ret (validationError "Invalid phone number format.")
     else
       let sanitizedPersonalInfo := sanitize personalInfo in
       r <- await (Insert applications
                     (FormDoc (FormInsert.mk formData sanitizedPersonalInfo
                                 (js "pending")))) ;;
       match r with
       | Error error =>
           perform (ConsoleError (js "Supabase error:") (AnyPostgrestError error)) ;;
           if str_eqb (PostgrestError.code error) (js "23505") then
             Ret (ApplicationResponse.mk false
                    (js "Duplicate submission detected.") None
                    (Some (AnyString (PostgrestError.message error))))
           else
             Ret (ApplicationResponse.mk false
                    (js "Supabase error: " ++ PostgrestError.message error) None
                    (Some (AnyString (PostgrestError.message error))))
       | Data id =>
           Ret (ApplicationResponse.mk true
                  (js "Application submitted successfully!") (Some id) None)
       end)
    (fun error =>
       perform (ConsoleError (js "Unexpected error submitting application:")
                  (AnyThrown error)) ;;
       Ret (ApplicationResponse.mk false
              (js "Unexpected error: " ++
               messageOr (js "An unknown error occurred.") error)
              None (Some (AnyThrown error)))).

Definition submitApplication (formData : ApplicationFormData.t)
  : Async SubmissionResult.t :=
  try_catch
    (user <- perform GetUser ;;
     match user with
     | None => Throw (ErrorObj notSignedInSubmit)
     | Some user =>
         created_at <- perform Now ;;
         updated_at <- perform Now ;;
         let applicationData :=
           Columns.mk (SupabaseUser.id user)
             (Obj (ApplicationFormData.personalInfo formData))
             (Obj (ApplicationFormData.academicBackground formData))
             (Obj (ApplicationFormData.programSelection formData))
             (Obj (ApplicationFormData.accommodation formData))
             (Obj (ApplicationFormData.referee formData))
             (js "pending") (Some created_at) updated_at in
         r <- await (Insert applications (ColumnsDoc applicationData)) ;;
         match r with
         | Error error =>
             perform (ConsoleError (js "Supabase error:") (AnyPostgrestError error)) ;;
             Throw (ErrorObj (PostgrestError.message error))
         | Data id =>
             perform (ToastSuccess (js "Application submitted successfully!")) ;;
             Ret (SubmissionResult.mk true
                    (js "Application submitted successfully") (Some id))
         end
     end)
    (fun error =>
       perform (ConsoleError (js "Error submitting application:")
                  (AnyThrown error)) ;;
       perform (ToastError (messageOr (js "Failed to submit application") error)) ;;
       Ret (SubmissionResult.mk false
              (messageOr (js "Failed to submit application") error) None)).

(** [if (draftId)]: an absent or empty id is falsy. *)
Definition given (draftId : option jsstring) : option jsstring :=
  match draftId with
  | Some d => if truthy d then Some d else None
  | None => None
  end.

Definition with_created_at (d : Columns.t) (t : jsstring) : Columns.t :=
  Columns.mk (Columns.user_id d) (Columns.personal_info d)
    (Columns.academic_background d) (Columns.program_selection d)
    (Columns.accommodation d) (Columns.referee d) (Columns.status d)
    (Some t) (Columns.updated_at d).

Definition saveDraft (formData : PartialFormData.t) (draftId : option jsstring)
  : Async DraftResult.t :=
  try_catch
    (user <- perform GetUser ;;
     match user with
     | None => Throw (ErrorObj (js "You must be signed in to save a draft"))
     | Some user =>
         updated_at <- perform Now ;;
         let draftData :=
           Columns.mk (SupabaseUser.id user)
             (or_empty (PartialFormData.personalInfo formData))
             (or_empty (PartialFormData.academicBackground formData))
             (or_empty (PartialFormData.programSelection formData))
             (or_empty (PartialFormData.accommodation formData))
             (or_empty (PartialFormData.referee formData))
             (js "draft") None updated_at in
         result <-
           match given draftId with
           | Some draftId =>
               await (Update applications draftData
                        [(js "id", draftId); (js "user_id", SupabaseUser.id user)])
           | None =>
               created_at <- perform Now ;;
               await (Insert applications
                        (ColumnsDoc (with_created_at draftData created_at)))
           end ;;
         match result with
         | Error error => Throw (ErrorObj (PostgrestError.message error))
         | Data id => Ret (DraftResult.mk true id)
         end
     end)
    (fun error =>
       perform (ConsoleError (js "Error saving draft:") (AnyThrown error)) ;;
       Throw error).

Definition getUserApplications : Async (list Row.t) :=
  try_catch
    (user <- perform GetUser ;;
     match user with
     | None => Throw (ErrorObj (js "You must be signed in to view applications"))
     | Some user =>
         r <- await (SelectOrdered applications
                       [(js "user_id", SupabaseUser.id user)]
                       (js "created_at") false) ;;
         match r with
         | Error error => Throw (ErrorObj (PostgrestError.message error))
         | Data data => Ret data
         end
     end)
    (fun error =>
       perform (ConsoleError (js "Error fetching applications:") (AnyThrown error)) ;;
       Throw error).

Definition getApplicationById (applicationId : jsstring) : Async Row.t :=
  try_catch
    (user <- perform GetUser ;;
     match user with
     | None => Throw (ErrorObj (js "You must be signed in to view applications"))
     | Some user =>
         r <- await (SelectSingle applications
                       [(js "id", applicationId);
                        (js "user_id", SupabaseUser.id user)]) ;;
         match r with
         | Error error => Throw (ErrorObj (PostgrestError.message error))
         | Data data => Ret data
         end
     end)
    (fun error =>
       perform (ConsoleError (js "Error fetching application:") (AnyThrown error)) ;;
       Throw error).

End Supabase.

(** What it means for [t] to be [s] with the surrounding white space
    removed. *)
Definition starts_clean (t : jsstring) : Prop :=
  match t with
  | [] => True
  | c :: _ => is_js_whitespace c = false
  end.

Definition trimmed_of (s t : jsstring) : Prop :=
  exists pre post,
    s = pre ++ t ++ post /\
    forallb is_js_whitespace pre = true /\
    forallb is_js_whitespace post = true /\
    starts_clean t /\ starts_clean (rev t).

(** The input passes the three checks of [submitApplicationForm]. *)
Definition passesChecks (formData : ApplicationFormData.t) : Prop :=
  let p := ApplicationFormData.personalInfo formData in
  missingRequired p = false /\
  regex_test emailRegex (PersonalInfo.email p) = true /\
  regex_test phoneRegex (PersonalInfo.phone p) = true.

(** ** A reference environment

    The hosted stores are outside the repository.  This environment
    gives the calls their documented meaning: [addDoc] appends a
    document under a fresh id; a Supabase query works on the rows of the
    [applications] table that satisfy every [.eq] filter; [.single()]
    fails unless exactly one row is concerned. *)

Module World.
Record t : Type := mk {
  user : option SupabaseUser.t;
  rows : list Row.t;
  docs : list (jsstring * jsstring * firestore_doc);
  allocated : nat;
  clock : nat
}.
End World.

Definition fresh_id (n : nat) : jsstring := js "id-" ++ List.repeat 49%N (S n).

Definition timestamp (n : nat) : jsstring := js "T" ++ List.repeat 48%N n.

(** [.eq(column, value)] on a row. *)
Definition satisfies (r : Row.t) (f : eq_filter) : bool :=
  let '(column, value) := f in
  if str_eqb column (js "id") then str_eqb (Row.id r) value
  else if str_eqb column (js "user_id") then
    str_eqb (Columns.user_id (Row.columns r)) value
  else if str_eqb column (js "status") then
    str_eqb (Columns.status (Row.columns r)) value
  else false.

Definition selected (filters : list eq_filter) (r : Row.t) : bool :=
  forallb (satisfies r) filters.

(** An update writes the keys of the document; [created_at] is written
    only when the document has it. *)
Definition patch (doc old : Columns.t) : Columns.t :=
  Columns.mk (Columns.user_id doc) (Columns.personal_info doc)
    (Columns.academic_background doc) (Columns.program_selection doc)
    (Columns.accommodation doc) (Columns.referee doc) (Columns.status doc)
    (match Columns.created_at doc with
     | Some t => Some t
     | None => Columns.created_at old
     end)
    (Columns.updated_at doc).

Definition update_row (doc : Columns.t) (filters : list eq_filter) (r : Row.t)
  : Row.t :=
  if selected filters r then Row.mk (Row.id r) (patch doc (Row.columns r)) else r.

Fixpoint lex_leb (a b : jsstring) : bool :=
  match a, b with
  | [], _ => true
  | _ :: _, [] => false
  | x :: a', y :: b' => N.ltb x y || (N.eqb x y && lex_leb a' b')
  end.

(** Descending [created_at], rows without one first. *)
Definition newer_or_equal (r1 r2 : Row.t) : bool :=
  match Columns.created_at (Row.columns r1), Columns.created_at (Row.columns r2) with
  | None, _ => true
  | Some _, None => false
  | Some t1, Some t2 => lex_leb t2 t1
  end.

Fixpoint insert_sorted (r : Row.t) (l : list Row.t) : list Row.t :=
  match l with
  | [] => [r]
  | x :: l' => if newer_or_equal r x then r :: l else x :: insert_sorted r l'
  end.

Definition newest_first (l : list Row.t) : list Row.t :=
  fold_right insert_sorted [] l.

Definition not_single : PostgrestError.t :=
  PostgrestError.mk (js "PGRST116")
    (js "JSON object requested, multiple (or no) rows returned").

Definition no_such_table : PostgrestError.t :=
  PostgrestError.mk (js "42P01") (js "relation does not exist").

Definition no_such_column : PostgrestError.t :=
  PostgrestError.mk (js "PGRST204") (js "Could not find the column").

Definition tick (w : World.t) : World.t :=
  World.mk (World.user w) (World.rows w) (World.docs w) (World.allocated w)
    (S (World.clock w)).

Definition with_rows (w : World.t) (rows : list Row.t) (allocated : nat) : World.t :=
  World.mk (World.user w) rows (World.docs w) allocated (World.clock w).

Definition world : handler World.t :=
  fun X e =>
    match e in eff T return World.t -> T * World.t with
    | SetIsSubmitting _ | SetError _ | ToastSuccess _ | ToastError _
    | ConsoleError _ _ => fun w => (tt, w)
    | Now => fun w => (timestamp (World.clock w), tick w)
    | AddDoc path doc => fun w =>
        let id := fresh_id (World.allocated w) in
        (inr id,
         World.mk (World.user w) (World.rows w)
           (World.docs w ++ [(path, id, doc)]) (S (World.allocated w))
           (World.clock w))
    | GetUser => fun w => (World.user w, w)
    | Insert table doc => fun w =>
        if str_eqb table applications then
          match doc with
          | ColumnsDoc c =>
              let id := fresh_id (World.allocated w) in
              (inr (Data id),
               with_rows w (World.rows w ++ [Row.mk id c]) (S (World.allocated w)))
          | FormDoc _ => (inr (Error no_such_column), w)
          end
        else (inr (Error no_such_table), w)
    | Update table doc filters => fun w =>
        if str_eqb table applications then
          match List.filter (selected filters) (World.rows w) with
          | [r] =>
              (inr (Data (Row.id r)),
               with_rows w (List.map (update_row doc filters) (World.rows w))
                 (World.allocated w))
          | _ => (inr (Error not_single), w)
          end
        else (inr (Error no_such_table), w)
    | SelectOrdered table filters column ascending => fun w =>
        if str_eqb table applications then
          (inr (Data (newest_first (List.filter (selected filters) (World.rows w)))), w)
        else (inr (Error no_such_table), w)
    | SelectSingle table filters => fun w =>
        if str_eqb table applications then
          match List.filter (selected filters) (World.rows w) with
          | [r] => (inr (Data r), w)
          | _ => (inr (Error not_single), w)
          end
        else (inr (Error no_such_table), w)
    end.

(** An environment that answers every remote call the same way. *)
Module Script.
Record t : Type := mk {
  user : option SupabaseUser.t;
  now : jsstring;
  addDoc : jsstring -> firestore_doc -> thrown + jsstring;
  insert : supabase_doc -> thrown + reply jsstring;
  update : Columns.t -> list eq_filter -> thrown + reply jsstring
}.
End Script.

Definition scripted (sc : Script.t) : handler unit :=
  fun X e =>
    match e in eff T return unit -> T * unit with
    | SetIsSubmitting _ | SetError _ | ToastSuccess _ | ToastError _
    | ConsoleError _ _ => fun u => (tt, u)
    | Now => fun u => (Script.now sc, u)
    | AddDoc path doc => fun u => (Script.addDoc sc path doc, u)
    | GetUser => fun u => (Script.user sc, u)
    | Insert _ doc => fun u => (Script.insert sc doc, u)
    | Update _ doc filters => fun u => (Script.update sc doc filters, u)
    | SelectOrdered _ _ _ _ => fun u => (inr (Data []), u)
    | SelectSingle _ _ => fun u => (inr (Error not_single), u)
    end.

(** The row belongs to [owner]. *)
Definition owned_by (owner : jsstring) (r : Row.t) : bool :=
  str_eqb (Columns.user_id (Row.columns r)) owner.

Definition foreign_to (owner : jsstring) (r : Row.t) : bool :=
  negb (owned_by owner r).

(** ** Sample values *)

Definition samplePersonalInfo : PersonalInfo.t :=
  PersonalInfo.mk (js " Ada ") (js "Lovelace") (js "Ada@Example.org")
    (js "+234802") (js "2000-01-01") female (js "12 Analytical Street")
    (js "Nigeria") (js "Lagos") None (Disability.mk false None).

Definition sampleAcademicBackground : AcademicBackground.t :=
  AcademicBackground.mk el_ssce None
    [Certificate.mk (js "WAEC") (js "A") (js "2018")].

Definition sampleProgramSelection : ProgramSelection.t :=
  ProgramSelection.mk (js "software") (js "web") (js "2025-09-01") full_time
    None (js "Become an engineer").

Definition sampleAccommodation : Accommodation.t :=
  Accommodation.mk false self
    (SponsorDetails.mk (js "Ada") (js "self") (js "+234802")).

Definition sampleReferee : Referee.t :=
  Referee.mk (js "Charles Babbage") (js "charles@example.org") (js "+441234")
    (js "Mentor") (js "Society") (js "Fellow").

Definition sampleForm : ApplicationFormData.t :=
  ApplicationFormData.mk samplePersonalInfo sampleAcademicBackground
    sampleProgramSelection sampleAccommodation sampleReferee.

(** The sample form with the referee's email set to the applicant's. *)
Definition sampleFormSameEmail : ApplicationFormData.t :=
  ApplicationFormData.mk samplePersonalInfo sampleAcademicBackground
    sampleProgramSelection sampleAccommodation
    (Referee.mk (js "Charles Babbage") (js "Ada@Example.org") (js "+441234")
       (js "Mentor") (js "Society") (js "Fellow")).

Definition samplePartial : PartialFormData.t :=
  PartialFormData.mk (Some samplePersonalInfo) None None None None.

Definition sampleFirebaseUser : FirebaseUser.t :=
  FirebaseUser.mk (js "u1") (Some (js "ada@example.org")) None.

Definition sampleUser : SupabaseUser.t := SupabaseUser.mk (js "u1").

Definition otherUser : SupabaseUser.t := SupabaseUser.mk (js "u2").

(** Case mapping restricted to the ASCII letters. *)
Definition asciiLower (s : jsstring) : jsstring :=
  List.map (fun c => if is_upper c then (c + 32)%N else c) s.

(** A store that accepts every write and assigns the id [new-id]. *)
Definition accepting : Script.t :=
  Script.mk (Some sampleUser) (js "2025-02-27T00:00:00.000Z")
    (fun _ _ => inr (js "new-id"))
    (fun _ => inr (Data (js "new-id")))
    (fun _ _ => inr (Data (js "new-id"))).

(** A store whose unique constraint rejects every insert. *)
Definition duplicateKey : PostgrestError.t :=
  PostgrestError.mk (js "23505")
    (js "duplicate key value violates unique constraint").

Definition rejecting : Script.t :=
  Script.mk (Some sampleUser) (js "2025-02-27T00:00:00.000Z")
    (fun _ _ => inl (ErrorObj (js "permission-denied")))
    (fun _ => inr (Error duplicateKey))
    (fun _ _ => inr (Error not_single)).

Definition sampleColumns (owner : jsstring) : Columns.t :=
  Columns.mk owner (Obj samplePersonalInfo) EmptyObject EmptyObject EmptyObject
    EmptyObject (js "draft") (Some (js "T")) (js "T").

(** A table with one row of [sampleUser] and one of [otherUser]. *)
Definition sampleWorld : World.t :=
  World.mk (Some sampleUser)
    [Row.mk (js "row-1") (sampleColumns (js "u1"));
     Row.mk (js "row-2") (sampleColumns (js "u2"))]
    [] 0 0.

(** ** Further notions used in the properties *)

(** [[^\s@]] *)
Definition email_part (c : codeunit) : bool :=
  negb (is_js_whitespace c || is_char "@" c).

(** [[0-9+]] *)
Definition phone_char (c : codeunit) : bool := is_digit c || is_char "+" c.

(** Notifications among the calls. *)
Definition is_toast (c : call) : bool :=
  match c with
  | Call (ToastSuccess _) _ | Call (ToastError _) _ => true
  | _ => false
  end.

(** The flag is set exactly while one call is pending. *)
Definition flag_tracks_flight (clock : nat -> jsstring) (h : Hook.t) : Prop :=
  (Hook.pending h = [] /\ Hook.isSubmitting h = false) \/
  (Hook.isSubmitting h = true /\
   exists s n, Hook.pending h = [s] /\ settles_within clock n s).

(** The conditions of the personal-information schema, field by field. *)
Definition phone_shape (s : jsstring) : Prop :=
  exists d rest,
    s = N_of_ascii "+" :: d :: rest /\
    is_nonzero_digit d = true /\
    forallb is_digit rest = true /\
    (1 <= List.length rest <= 14)%nat.

(** The sample form with an email that has no at sign. *)
Definition sampleFormBadEmail : ApplicationFormData.t :=
  ApplicationFormData.mk
    (PersonalInfo.mk (js "Ada") (js "Lovelace") (js "ada.example.org")
       (js "+234802") (js "2000-01-01") female (js "12 Analytical Street")
       (js "Nigeria") (js "Lagos") None (Disability.mk false None))
    sampleAcademicBackground sampleProgramSelection sampleAccommodation
    sampleReferee.

(** The sample form with the referee's email set to the applicant's, as
    it reaches the schema while no gender is selected: the field holds
    the empty string. *)
Definition sampleInputNoGender : value :=
  VObject
    [ ("personalInfo",
       VObject
         [ ("firstName", VString (js " Ada "));
           ("lastName", VString (js "Lovelace"));
           ("email", VString (js "Ada@Example.org"));
           ("phone", VString (js "+234802"));
           ("dateOfBirth", VString (js "2000-01-01"));
           ("gender", VString []);
           ("address", VString (js "12 Analytical Street"));
           ("nationality", VString (js "Nigeria"));
           ("stateOfOrigin", VString (js "Lagos"));
           ("disability", VObject [("hasDisability", VBool false)]) ]);
      ("academicBackground", encodeAcademicBackground sampleAcademicBackground);
      ("programSelection", encodeProgramSelection sampleProgramSelection);
      ("accommodation", encodeAccommodation sampleAccommodation);
      ("referee",
       encodeReferee (ApplicationFormData.referee sampleFormSameEmail))
    ]%string.

(** An environment with nobody signed in. *)
Definition signedOut : Script.t :=
  Script.mk None (js "2025-02-27T00:00:00.000Z")
    (fun _ _ => inr (js "new-id"))
    (fun _ => inr (Data (js "new-id")))
    (fun _ _ => inr (Data (js "new-id"))).

(** * Properties *)

(** ** Tactics *)

Ltac inv H := inversion H; subst; clear H.

Ltac split_cases :=
  repeat match goal with H : _ \/ _ |- _ => destruct H as [H | H] end.

(** Name the answer of the environment to the next call of a run. *)
Ltac ask_as h x :=
  match goal with
  | |- context [h ?X ?e ?s] =>
      let s' := fresh "s" in
      destruct (h X e s) as [x s'] eqn:?; simpl
  end.

Ltac ask h := let x := fresh "x" in ask_as h x.

(** ** Strings *)

Lemma str_eqb_eq (a b : jsstring) : str_eqb a b = true <-> a = b.
Proof.
  revert b. induction a as [| x a IH]; intros [| y b]; simpl;
    try (split; [discriminate | discriminate]); [tauto |].
  rewrite andb_true_iff, N.eqb_eq, IH. split.
  - intros [-> ->]. reflexivity.
  - intro H. injection H as -> ->. split; reflexivity.
Qed.

Lemma str_eqb_refl (a : jsstring) : str_eqb a a = true.
Proof. apply str_eqb_eq. reflexivity. Qed.

(** ** Regular expressions: matching decides the language *)

Lemma nullable_lang (r : regex) : nullable r = true <-> lang r [].
Proof.
  induction r; simpl; split; intro H; try discriminate.
  - inv H.
  - constructor.
  - reflexivity.
  - inv H.
  - apply andb_true_iff in H as [H1 H2].
    change (@nil codeunit) with (@nil codeunit ++ []).
    constructor; [apply IHr1 | apply IHr2]; assumption.
  - inv H.
    match goal with E : _ ++ _ = [] |- _ => apply app_eq_nil in E as [-> ->] end.
    apply andb_true_iff; split; [apply IHr1 | apply IHr2]; assumption.
  - apply orb_true_iff in H as [H | H];
      [apply L_alt_l, IHr1 | apply L_alt_r, IHr2]; assumption.
  - apply orb_true_iff.
    inv H; [left; apply IHr1 | right; apply IHr2]; assumption.
  - constructor.
  - reflexivity.
Qed.

Lemma lang_seq_cons (r1 r2 : regex) (c : codeunit) (s : jsstring) :
  lang (RSeq r1 r2) (c :: s) <->
  (exists s1 s2, s = s1 ++ s2 /\ lang r1 (c :: s1) /\ lang r2 s2) \/
  (lang r1 [] /\ lang r2 (c :: s)).
Proof.
  split.
  - intro H. inversion H as [| | a b s1 s2 H1 H2 | | | |]. subst a b.
    destruct s1 as [| c1 s1]; simpl in *.
    + subst s2. right. split; assumption.
    + match goal with E : _ :: _ = _ :: _ |- _ => injection E as -> <- end.
      left. exists s1, s2. repeat split; assumption.
  - intros [(s1 & s2 & -> & H1 & H2) | [H1 H2]].
    + change (c :: s1 ++ s2) with ((c :: s1) ++ s2). constructor; assumption.
    + change (c :: s) with ([] ++ c :: s). constructor; assumption.
Qed.

Lemma lang_star_cons (r : regex) (c : codeunit) (s : jsstring) :
  lang (RStar r) (c :: s) <->
  exists s1 s2, s = s1 ++ s2 /\ lang r (c :: s1) /\ lang (RStar r) s2.
Proof.
  split.
  - intro H. inversion H as [| | | | | | a c1 s1 s2 H1 H2]. subst.
    exists s1, s2. repeat split; assumption.
  - intros (s1 & s2 & -> & H1 & H2). constructor; assumption.
Qed.

Lemma deriv_lang (c : codeunit) (r : regex) :
  forall s, lang (deriv c r) s <-> lang r (c :: s).
Proof.
  induction r; intro s; simpl.
  - split; intro H; inv H.
  - split; intro H; inv H.
  - destruct (p c) eqn:Hp; split; intro H.
    + inv H. constructor; assumption.
    + inv H. constructor.
    + inv H.
    + inv H. congruence.
  - rewrite lang_seq_cons. split; intro H.
    + inv H.
      * match goal with H : lang (RSeq _ _) _ |- _ => inv H end.
        left. eexists _, _. split; [reflexivity |]. split; [apply IHr1 |]; assumption.
      * destruct (nullable r1) eqn:Hn;
          [| match goal with H : lang RNone _ |- _ => inv H end].
        right. split; [apply nullable_lang | apply IHr2]; assumption.
    + destruct H as [(s1 & s2 & -> & H1 & H2) | [H1 H2]].
      * apply L_alt_l. constructor; [apply IHr1 |]; assumption.
      * apply L_alt_r. apply nullable_lang in H1. rewrite H1. apply IHr2; assumption.
  - split; intro H; inv H;
      solve [apply L_alt_l, IHr1; assumption | apply L_alt_r, IHr2; assumption].
  - rewrite lang_star_cons. split; intro H.
    + inv H. eexists _, _. split; [reflexivity |]. split; [apply IHr |]; assumption.
    + destruct H as (s1 & s2 & -> & H1 & H2).
      constructor; [apply IHr |]; assumption.
Qed.

Lemma matches_lang (s : jsstring) :
  forall r, matches r s = true <-> lang r s.
Proof.
  induction s as [| c s IH]; intro r; simpl.
  - apply nullable_lang.
  - rewrite IH. apply deriv_lang.
Qed.

Lemma lang_star_cls (p : codeunit -> bool) (s : jsstring) :
  lang (RStar (RCls p)) s <-> forallb p s = true.
Proof.
  induction s as [| c s IH]; simpl.
  - split; [reflexivity | constructor].
  - rewrite lang_star_cons, andb_true_iff. split.
    + intros (s1 & s2 & -> & H1 & H2). inv H1. simpl. split; [assumption |].
      apply IH. exact H2.
    + intros [Hc Hs]. exists [], s. repeat split.
      * constructor. exact Hc.
      * apply IH. exact Hs.
Qed.

Lemma regex_test_star_cls (p : codeunit -> bool) (s : jsstring) :
  regex_test (RStar (RCls p)) s = forallb p s.
Proof.
  apply eq_true_iff_eq. unfold regex_test.
  rewrite matches_lang. apply lang_star_cls.
Qed.

(** ** Name fields *)

Lemma name_schema_accepts (isEmail : jsstring -> bool) (m1 m2 m3 : string)
    (s : jsstring) :
  zstring isEmail [Min 2 m1; Max 50 m2; Regex nameRegex m3] s = [] <->
  (2 <= List.length s <= 50)%nat /\ forallb name_char s = true.
Proof.
  unfold zstring, flat_map, check_ok, check_message, nameRegex.
  rewrite regex_test_star_cls. split.
  - intro H.
    destruct (Nat.leb 2 (List.length s)) eqn:H2; [| discriminate H].
    destruct (Nat.leb (List.length s) 50) eqn:H50; [| discriminate H].
    destruct (forallb name_char s); [| discriminate H].
    apply Nat.leb_le in H2, H50. split; [lia | reflexivity].
  - intros [[Ha Hb] Hc]. rewrite Hc.
    apply Nat.leb_le in Ha, Hb. rewrite Ha, Hb. reflexivity.
Qed.

(** C4 (as amended): a name is accepted exactly when its length is
    between 2 and 50 code units and each of them is an ASCII letter or a
    white-space character of the [\s] class (tab, line feed, no-break
    space and the like, not only the space); the empty string matches
    the pattern and is rejected by the minimum-length check alone. *)
Theorem name_fields_accept_iff (isEmail : jsstring -> bool) (s : jsstring) :
  (zstring isEmail firstNameSchema s = [] <->
     (2 <= List.length s <= 50)%nat /\
     forallb name_char s = true) /\
  (zstring isEmail lastNameSchema s = [] <->
     (2 <= List.length s <= 50)%nat /\
     forallb name_char s = true) /\
  regex_test nameRegex [] = true /\
  zstring isEmail firstNameSchema [] =
    ["First name must be at least 2 characters"%string] /\
  zstring isEmail lastNameSchema [] =
    ["Last name must be at least 2 characters"%string].
Proof.
  split; [apply name_schema_accepts |].
  split; [apply name_schema_accepts |].
  repeat split; reflexivity.
Qed.

(** C4, counterexample: the three code units [a], TAB, [b] contain a
    character that is neither a letter nor a space, and both name fields
    accept them. *)
Lemma name_fields_accept_tab :
  let s := [97; 9; 98]%N in
  (exists c, In c s /\ is_ascii_letter c = false /\ is_space c = false) /\
  zstring (fun _ => false) firstNameSchema s = [] /\
  zstring (fun _ => false) lastNameSchema s = [].
Proof.
  simpl. split.
  - exists 9%N. repeat split. right; left; reflexivity.
  - split; reflexivity.
Qed.

(** ** Date of birth *)

Section CalendarFacts.
Local Open Scope Z_scope.

Lemma div4_succ (y : Z) :
  (y + 1 - 1969) / 4 = (y - 1969) / 4 + (if y mod 4 =? 0 then 1 else 0).
Proof.
  destruct (y mod 4 =? 0) eqn:H; [apply Z.eqb_eq in H | apply Z.eqb_neq in H];
    Z.div_mod_to_equations; lia.
Qed.

Lemma div100_succ (y : Z) :
  (y + 1 - 1901) / 100 = (y - 1901) / 100 + (if y mod 100 =? 0 then 1 else 0).
Proof.
  destruct (y mod 100 =? 0) eqn:H; [apply Z.eqb_eq in H | apply Z.eqb_neq in H];
    Z.div_mod_to_equations; lia.
Qed.

Lemma div400_succ (y : Z) :
  (y + 1 - 1601) / 400 = (y - 1601) / 400 + (if y mod 400 =? 0 then 1 else 0).
Proof.
  destruct (y mod 400 =? 0) eqn:H; [apply Z.eqb_eq in H | apply Z.eqb_neq in H];
    Z.div_mod_to_equations; lia.
Qed.

Lemma mod100_mod4 (y : Z) : y mod 100 = 0 -> y mod 4 = 0.
Proof. intro H. Z.div_mod_to_equations. lia. Qed.

Lemma mod400_mod100 (y : Z) : y mod 400 = 0 -> y mod 100 = 0.
Proof. intro H. Z.div_mod_to_equations. lia. Qed.

Lemma DayFromYear_succ (y : Z) : DayFromYear (y + 1) = DayFromYear y + DaysInYear y.
Proof.
  unfold DayFromYear, DaysInYear.
  rewrite div4_succ, div100_succ, div400_succ.
  destruct (Z.eqb_spec (y mod 4) 0) as [H4 | H4];
    destruct (Z.eqb_spec (y mod 100) 0) as [H100 | H100];
    destruct (Z.eqb_spec (y mod 400) 0) as [H400 | H400];
    cbv [negb]; try lia;
    solve [ pose proof (mod400_mod100 _ H400); contradiction
          | pose proof (mod100_mod4 _ H100); contradiction ].
Qed.

Lemma DaysInYear_pos (y : Z) : 365 <= DaysInYear y <= 366.
Proof.
  unfold DaysInYear.
  destruct (y mod 4 =? 0), (y mod 100 =? 0), (y mod 400 =? 0); cbv [negb]; lia.
Qed.

Lemma DayFromYear_mono (y1 y2 : Z) : y1 <= y2 -> DayFromYear y1 <= DayFromYear y2.
Proof.
  intro H. replace y2 with (y1 + (y2 - y1)) by lia.
  assert (Hn : 0 <= y2 - y1) by lia. revert Hn.
  generalize (y2 - y1). clear H y2. intros n Hn.
  pattern n. apply natlike_ind; [| | exact Hn].
  - rewrite Z.add_0_r. lia.
  - intros x Hx IH. replace (y1 + Z.succ x) with ((y1 + x) + 1) by lia.
    rewrite DayFromYear_succ. pose proof (DaysInYear_pos (y1 + x)). lia.
Qed.
Lemma validDate_iff (y m d : Z) :
  validDate y m d = true <->
  0 <= y <= 9999 /\ 1 <= m <= 12 /\ 1 <= d <= daysInMonth y m.
Proof.
  unfold validDate. rewrite !andb_true_iff, !Z.leb_le. tauto.
Qed.

Lemma InLeapYear_days (y : Z) :
  DaysInYear y = if InLeapYear y then 366 else 365.
Proof.
  unfold InLeapYear. pose proof (DaysInYear_pos y).
  destruct (Z.eqb_spec (DaysInYear y) 366); lia.
Qed.

Lemma MakeDay_valid (y m d : Z) :
  validDate y m d = true ->
  exists k, MakeDay y (m - 1) d = DayFromYear y + k /\ 0 <= k < DaysInYear y.
Proof.
  rewrite validDate_iff. intros (_ & Hm & Hd).
  unfold MakeDay.
  replace ((m - 1) / 12) with 0 by (Z.div_mod_to_equations; lia).
  replace ((m - 1) mod 12) with (m - 1) by (Z.div_mod_to_equations; lia).
  rewrite Z.add_0_r.
  exists (monthStart (InLeapYear y) (m - 1) + d - 1). split; [lia |].
  rewrite InLeapYear_days. unfold daysInMonth in Hd.
  assert (Hc : m = 1 \/ m = 2 \/ m = 3 \/ m = 4 \/ m = 5 \/ m = 6 \/ m = 7 \/
               m = 8 \/ m = 9 \/ m = 10 \/ m = 11 \/ m = 12) by lia.
  remember (monthStart (InLeapYear y) (m - 1)) as ms eqn:Ems.
  destruct (InLeapYear y);
    split_cases; subst m; vm_compute in Ems; cbn in Hd; cbv beta iota; lia.
Qed.

Lemma dateOnlyTime_order (y m d : Z) :
  validDate y m d = true ->
  (dateOnlyTime y m d <= dateOnlyTime 2007 2 27 <-> onOrBefore y m d 2007 2 27).
Proof.
  intro Hv. destruct (MakeDay_valid _ _ _ Hv) as (k & Hk & Hb).
  assert (E0 : dateOnlyTime 2007 2 27 = 13571 * msPerDay) by reflexivity.
  rewrite E0. unfold dateOnlyTime, MakeDate. rewrite Z.add_0_r.
  assert (Hms : 0 < msPerDay) by reflexivity.
  rewrite <- Z.mul_le_mono_pos_r by exact Hms.
  unfold onOrBefore.
  destruct (Z.lt_trichotomy y 2007) as [Hlt | [Heq | Hgt]].
  - assert (H1 : DayFromYear (y + 1) <= DayFromYear 2007)
      by (apply DayFromYear_mono; lia).
    rewrite DayFromYear_succ in H1.
    assert (H2 : DayFromYear 2007 = 13514) by reflexivity.
    split; [left; exact Hlt | lia].
  - subst y. clear k Hk Hb.
    apply validDate_iff in Hv as (_ & Hm & Hd).
    unfold MakeDay.
    replace ((m - 1) / 12) with 0 by (Z.div_mod_to_equations; lia).
    replace ((m - 1) mod 12) with (m - 1) by (Z.div_mod_to_equations; lia).
    rewrite Z.add_0_r.
    change (DayFromYear 2007) with 13514.
    change (InLeapYear 2007) with false.
    unfold daysInMonth in Hd. change (InLeapYear 2007) with false in Hd.
    assert (Hc : m = 1 \/ m = 2 \/ m = 3 \/ m = 4 \/ m = 5 \/ m = 6 \/ m = 7 \/
                 m = 8 \/ m = 9 \/ m = 10 \/ m = 11 \/ m = 12) by lia.
    remember (monthStart false (m - 1)) as ms eqn:Ems.
    split_cases; subst m; vm_compute in Ems; cbn in Hd; lia.
  - assert (H1 : DayFromYear 2008 <= DayFromYear y)
      by (apply DayFromYear_mono; lia).
    assert (H2 : DayFromYear 2008 = 13879) by reflexivity.
    split; [lia | intros [H | [H _]]; lia].
Qed.

(** The cutoff is eighteen years before [2025-02-27T00:00Z], shifted by
    the difference between the host's offsets on the two dates. *)
Lemma minBirthDate_shift (zone : TimeZone) :
  - msPerDay < offsetIn2025 zone < msPerDay ->
  minBirthDate zone =
  dateOnlyTime 2007 2 27 + (offsetIn2025 zone - offsetIn2007 zone).
Proof.
  unfold offsetIn2007, offsetIn2025, minBirthDate, Date_setFullYear,
    Date_getFullYear, LocalTime, UTC, YearFromTime, MonthFromTime, DateFromTime,
    TimeWithinDay.
  set (a := offsetAtUTC zone (dateOnlyTime 2025 2 27)).
  change (dateOnlyTime 2025 2 27) with (20146 * msPerDay).
  change (dateOnlyTime 2007 2 27) with (13571 * msPerDay).
  intro Ha.
  assert (Hcases :
            (Day (20146 * msPerDay + a) = 20146 /\
             (20146 * msPerDay + a) mod msPerDay = a) \/
            (Day (20146 * msPerDay + a) = 20145 /\
             (20146 * msPerDay + a) mod msPerDay = a + msPerDay)).
  { unfold Day, msPerDay in *. Z.div_mod_to_equations. lia. }
  destruct Hcases as [[Hd Hm] | [Hd Hm]]; rewrite Hd, Hm.
  - change (civilFromDays 20146) with (2025, 1, 27). cbn [fst snd].
    change (MakeDay (2025 - 18) 1 27) with 13571.
    unfold MakeDate. lia.
  - change (civilFromDays 20145) with (2025, 1, 26). cbn [fst snd].
    change (MakeDay (2025 - 18) 1 26) with 13570.
    unfold MakeDate.
    replace (13570 * msPerDay + (a + msPerDay)) with (13571 * msPerDay + a)
      by (unfold msPerDay; lia).
    lia.
Qed.

Lemma digitValue_digitChar (v : Z) :
  0 <= v <= 9 -> digitValue (digitChar v) = Some v.
Proof.
  intro H.
  assert (Hc : v = 0 \/ v = 1 \/ v = 2 \/ v = 3 \/ v = 4 \/ v = 5 \/ v = 6 \/
               v = 7 \/ v = 8 \/ v = 9) by lia.
  split_cases; subst v; reflexivity.
Qed.

Lemma parseDateOnly_isoDate (y m d : Z) :
  validDate y m d = true ->
  parseDateOnly (isoDate y m d) = Some (dateOnlyTime y m d).
Proof.
  intro Hv. pose proof Hv as Hv'.
  apply validDate_iff in Hv' as (Hy & Hm & Hd).
  assert (Hd31 : d <= 31).
  { assert (Hc : m = 1 \/ m = 2 \/ m = 3 \/ m = 4 \/ m = 5 \/ m = 6 \/ m = 7 \/
                 m = 8 \/ m = 9 \/ m = 10 \/ m = 11 \/ m = 12) by lia.
    unfold daysInMonth in Hd. destruct (InLeapYear y);
      split_cases; subst m; cbn in Hd; lia. }
  unfold parseDateOnly, isoDate.
  change (is_char "-" (N_of_ascii "-")) with true. cbv [andb].
  unfold digitsValue.
  rewrite !digitValue_digitChar by (Z.div_mod_to_equations; lia).
  replace (10 * (10 * (10 * (10 * 0 + y / 1000) + y / 100 mod 10) +
                 y / 10 mod 10) + y mod 10) with y
    by (Z.div_mod_to_equations; lia).
  replace (10 * (10 * 0 + m / 10) + m mod 10) with m
    by (Z.div_mod_to_equations; lia).
  replace (10 * (10 * 0 + d / 10) + d mod 10) with d
    by (Z.div_mod_to_equations; lia).
  rewrite Hv. reflexivity.
Qed.

End CalendarFacts.

Section DateOfBirth.
Local Open Scope Z_scope.

Lemma dateOnlyTime_order_shifted (y m d delta : Z) :
  validDate y m d = true ->
  0 <= delta < msPerDay ->
  (dateOnlyTime y m d <= dateOnlyTime 2007 2 27 + delta <->
   onOrBefore y m d 2007 2 27).
Proof.
  intros Hv Hdelta. rewrite <- (dateOnlyTime_order _ _ _ Hv).
  change (dateOnlyTime 2007 2 27) with (13571 * msPerDay).
  unfold dateOnlyTime, MakeDate. rewrite Z.add_0_r.
  unfold msPerDay in *. nia.
Qed.




End DateOfBirth.

(** ** The aggregate schema *)

Section Aggregate.

Variable isEmail : jsstring -> bool.
Variable zone : TimeZone.
Variable parseOther : jsstring -> option Z.
Variable typeMessage : string -> value -> string.
Variable enumMessage : list string -> value -> string.

Abbreviation personalInfoSchema' :=
  (personalInfoSchema isEmail zone parseOther typeMessage enumMessage).
Abbreviation academicBackgroundSchema' :=
  (academicBackgroundSchema isEmail typeMessage enumMessage).
Abbreviation programSelectionSchema' :=
  (programSelectionSchema isEmail typeMessage enumMessage).
Abbreviation accommodationSchema' :=
  (accommodationSchema isEmail typeMessage enumMessage).
Abbreviation refereeObjectSchema' := (refereeObjectSchema isEmail typeMessage).
Abbreviation applicationObject' :=
  (applicationObject isEmail zone parseOther typeMessage enumMessage).
Abbreviation applicationSchema' :=
  (applicationSchema isEmail zone parseOther typeMessage enumMessage).

Lemma In_zstring (checks : list string_check) (s : jsstring) (m : string) :
  In m (zstring isEmail checks s) -> In m (List.map check_message checks).
Proof.
  unfold zstring. induction checks as [| c checks IH]; simpl; [tauto |].
  rewrite in_app_iff. intros [H | H]; [| right; apply IH; exact H].
  destruct (check_ok isEmail c s); simpl in H; [contradiction |].
  destruct H as [H | []]. left. exact H.
Qed.

Lemma In_nested (k : path_elem) (l : list issue) (i : issue) :
  In i (nested k l) ->
  exists j, In j l /\ issue_path i = k :: issue_path j /\
            issue_message i = issue_message j.
Proof.
  unfold nested. rewrite in_map_iff. intros (j & <- & Hj).
  exists j. repeat split. exact Hj.
Qed.

Lemma In_zString (checks : list string_check) (v : value) (i : issue) :
  aborted (zString isEmail typeMessage checks v) = false ->
  In i (issues (zString isEmail typeMessage checks v)) ->
  In (issue_message i) (List.map check_message checks).
Proof.
  destruct v; simpl; try discriminate. intros _ H.
  apply in_map_iff in H as (m & <- & Hm). simpl. exact (In_zstring _ _ _ Hm).
Qed.

Lemma applicationObject_fields (fields : list (string * value)) :
  applicationObject' (VObject fields) =
  merge (under (Key "personalInfo")
           (personalInfoSchema' (lookup "personalInfo" fields)))
    (merge (under (Key "academicBackground")
              (academicBackgroundSchema' (lookup "academicBackground" fields)))
       (merge (under (Key "programSelection")
                 (programSelectionSchema' (lookup "programSelection" fields)))
          (merge (under (Key "accommodation")
                    (accommodationSchema' (lookup "accommodation" fields)))
             (merge (under (Key "referee")
                       (refereeObjectSchema' (lookup "referee" fields)))
                valid)))).
Proof. reflexivity. Qed.

Lemma refereeObjectSchema_fields (fields : list (string * value)) :
  refereeObjectSchema' (VObject fields) =
  merge (under (Key "name")
           (zString isEmail typeMessage
              [Min 2 "Referee name is required"; Max 100 "Referee name is too long"]
              (lookup "name" fields)))
    (merge (under (Key "email")
              (zString isEmail typeMessage
                 [Email "Invalid email address";
                  Refine (fun email => negb (str_eqb email []))
                    "Referee email is required"]
                 (lookup "email" fields)))
       (merge (under (Key "phone")
                 (zString isEmail typeMessage
                    [Regex phonePattern "Please enter a valid phone number"]
                    (lookup "phone" fields)))
          (merge (under (Key "relationship")
                    (zString isEmail typeMessage
                       [Min 2 "Please specify the relationship"]
                       (lookup "relationship" fields)))
             (merge (under (Key "organization")
                       (zString isEmail typeMessage
                          [Min 2 "Organization name is required"]
                          (lookup "organization" fields)))
                (merge (under (Key "position")
                          (zString isEmail typeMessage
                             [Min 2 "Position is required"]
                             (lookup "position" fields)))
                   valid))))).
Proof. reflexivity. Qed.

Lemma In_merge (r1 r2 : parsed) (i : issue) :
  In i (issues (merge r1 r2)) <-> In i (issues r1) \/ In i (issues r2).
Proof. unfold merge. simpl. apply in_app_iff. Qed.

Lemma In_under (k : path_elem) (r : parsed) (i : issue) :
  In i (issues (under k r)) ->
  exists j, In j (issues r) /\ issue_path i = k :: issue_path j /\
            issue_message i = issue_message j.
Proof. unfold under. simpl. apply In_nested. Qed.

Lemma aborted_merge (r1 r2 : parsed) :
  aborted (merge r1 r2) = false <-> aborted r1 = false /\ aborted r2 = false.
Proof. unfold merge. simpl. apply orb_false_iff. Qed.

(** The object of the sections never reports the cross-field violation
    when it is not aborted. *)
Lemma sections_never_report_cross_check (v : value) :
  aborted (applicationObject' v) = false ->
  ~ In refereeEmailIssue (issues (applicationObject' v)).
Proof.
  destruct v as [| | b | s | l | fields | t]; try discriminate.
  rewrite applicationObject_fields, !aborted_merge.
  intros (_ & _ & _ & _ & Hab & _).
  rewrite !In_merge.
  intros [H | [H | [H | [H | [H | []]]]]];
    apply In_under in H as (j & Hj & Hp & Hm); simpl in Hp, Hm;
    try discriminate Hp.
  injection Hp as Hp. unfold under in Hab. simpl in Hab.
  destruct (lookup "referee" fields) as [| | b | s | l | rfields | t];
    try discriminate Hab.
  rewrite refereeObjectSchema_fields in Hab, Hj.
  rewrite !aborted_merge in Hab. destruct Hab as (_ & Hab & _).
  rewrite !In_merge in Hj.
  destruct Hj as [Hj | [Hj | [Hj | [Hj | [Hj | [Hj | []]]]]]];
    apply In_under in Hj as (j' & Hj' & Hp' & Hm'); rewrite Hp' in Hp;
    try discriminate Hp.
  unfold under in Hab. simpl in Hab.
  apply (In_zString _ _ _ Hab) in Hj'. rewrite <- Hm', <- Hm in Hj'.
  simpl in Hj'. destruct Hj' as [E | [E | []]]; discriminate E.
Qed.

(** An aborted parse has raised an issue. *)
Lemma aborted_under_issue (k : path_elem) (r : parsed) :
  (aborted r = true -> issues r <> []) ->
  aborted (under k r) = true -> issues (under k r) <> [].
Proof.
  unfold under. simpl. intros H Hab. specialize (H Hab).
  destruct (issues r); [contradiction | discriminate].
Qed.

Lemma aborted_merge_issue (r1 r2 : parsed) :
  (aborted r1 = true -> issues r1 <> []) ->
  (aborted r2 = true -> issues r2 <> []) ->
  aborted (merge r1 r2) = true -> issues (merge r1 r2) <> [].
Proof.
  unfold merge. simpl. intros H1 H2 Hab E.
  apply app_eq_nil in E as [E1 E2].
  apply orb_true_iff in Hab as [Hab | Hab]; [exact (H1 Hab E1) | exact (H2 Hab E2)].
Qed.

Lemma aborted_zString_issue (checks : list string_check) (v : value) :
  aborted (zString isEmail typeMessage checks v) = true ->
  issues (zString isEmail typeMessage checks v) <> [].
Proof. destruct v; simpl; discriminate. Qed.

Lemma aborted_zBoolean_issue (v : value) :
  aborted (zBoolean typeMessage v) = true -> issues (zBoolean typeMessage v) <> [].
Proof. destruct v; simpl; discriminate. Qed.

Lemma aborted_zEnum_issue (options : list string) (m : option string) (v : value) :
  aborted (zEnum enumMessage options m v) = true ->
  issues (zEnum enumMessage options m v) <> [].
Proof.
  destruct v; simpl; try discriminate.
  destruct (existsb _ _); simpl; discriminate.
Qed.

Lemma aborted_zOptional_issue (inner : schema) (v : value) :
  (forall w, aborted (inner w) = true -> issues (inner w) <> []) ->
  aborted (zOptional inner v) = true -> issues (zOptional inner v) <> [].
Proof. intro H. destruct v; simpl; try discriminate; apply H. Qed.

Lemma aborted_elements_issue (elem : schema) (l : list value) :
  (forall w, aborted (elem w) = true -> issues (elem w) <> []) ->
  forall i, aborted (elements elem i l) = true -> issues (elements elem i l) <> [].
Proof.
  intro H. induction l as [| x l IH]; intro i; cbn [elements]; [discriminate |].
  apply aborted_merge_issue; [apply aborted_under_issue, H | apply IH].
Qed.

Lemma aborted_zArray_issue (elem : schema) (v : value) :
  (forall w, aborted (elem w) = true -> issues (elem w) <> []) ->
  aborted (zArray typeMessage elem v) = true ->
  issues (zArray typeMessage elem v) <> [].
Proof.
  intro H. destruct v; simpl; try discriminate. apply aborted_elements_issue, H.
Qed.

Lemma aborted_zObject_issue (shape : list (string * schema)) (v : value) :
  Forall (fun ks => forall w, aborted (snd ks w) = true -> issues (snd ks w) <> [])
         shape ->
  aborted (zObject typeMessage shape v) = true ->
  issues (zObject typeMessage shape v) <> [].
Proof.
  intro H. destruct v as [| | b | s | l | fields | t];
    try (simpl; discriminate).
  unfold zObject, merge_all.
  induction H as [| ks shape Hks _ IH]; cbn [List.map fold_right];
    [discriminate |].
  apply aborted_merge_issue; [apply aborted_under_issue, Hks | exact IH].
Qed.

Ltac abort_raises_issue :=
  repeat first
    [ apply Forall_nil
    | apply Forall_cons; [cbn [snd]; intro |]
    | apply aborted_zObject_issue
    | apply aborted_zArray_issue; intro
    | apply aborted_zOptional_issue; intro
    | apply aborted_zString_issue
    | apply aborted_zBoolean_issue
    | apply aborted_zEnum_issue ].

Lemma aborted_applicationObject_issue (v : value) :
  aborted (applicationObject' v) = true -> issues (applicationObject' v) <> [].
Proof.
  unfold applicationObject, personalInfoSchema, academicBackgroundSchema,
    programSelectionSchema, accommodationSchema, sponsorDetailsSchema,
    refereeObjectSchema, certificateSchema.
  abort_raises_issue.
Qed.

(** *** Records of the inferred types *)

Lemma zObject_cons (k : string) (s : schema) (shape : list (string * schema))
    (fields : list (string * value)) :
  zObject typeMessage ((k, s) :: shape) (VObject fields) =
  merge (under (Key k) (s (lookup k fields)))
        (zObject typeMessage shape (VObject fields)).
Proof. reflexivity. Qed.

Lemma zObject_nil (fields : list (string * value)) :
  zObject typeMessage [] (VObject fields) = valid.
Proof. reflexivity. Qed.

Lemma under_zString (k : string) (checks : list string_check) (s : jsstring) :
  under (Key k) (zString isEmail typeMessage checks (VString s)) =
  mkParsed false (field k (zstring isEmail checks s)).
Proof.
  unfold under, zString, nested, field. simpl. rewrite map_map. reflexivity.
Qed.

Lemma under_valid (k : path_elem) : under k valid = valid.
Proof. reflexivity. Qed.

Lemma under_parsed (k : path_elem) (l : list issue) :
  under k (mkParsed false l) = mkParsed false (nested k l).
Proof. reflexivity. Qed.

Lemma merge_valid_l (r : parsed) : merge valid r = r.
Proof. destruct r; reflexivity. Qed.

Lemma merge_valid_r (r : parsed) : merge r valid = r.
Proof.
  destruct r. unfold merge. simpl. rewrite orb_false_r, app_nil_r. reflexivity.
Qed.

Lemma merge_parsed (l1 l2 : list issue) :
  merge (mkParsed false l1) (mkParsed false l2) = mkParsed false (l1 ++ l2).
Proof. reflexivity. Qed.

Lemma parsed_eta (r : parsed) :
  aborted r = false -> r = mkParsed false (issues r).
Proof. destruct r. simpl. intros ->. reflexivity. Qed.

Lemma zBoolean_bool (b : bool) : zBoolean typeMessage (VBool b) = valid.
Proof. reflexivity. Qed.

Lemma zOptional_string (o : option jsstring) :
  zOptional (zString isEmail typeMessage []) (encodeOptional o) = valid.
Proof. destruct o; reflexivity. Qed.

Lemma zEnum_gender (m : option string) (g : Gender) :
  zEnum enumMessage ["male"; "female"; "other"]%string m (encodeGender g) = valid.
Proof. destruct g; reflexivity. Qed.

Lemma zEnum_educationLevel (m : option string) (e : EducationLevel) :
  zEnum enumMessage
    ["none"; "primary"; "js"; "jsse"; "ssce"; "tertiary"]%string m
    (encodeEducationLevel e) = valid.
Proof. destruct e; reflexivity. Qed.

Lemma zEnum_tertiaryEducation (m : option string) (e : option TertiaryEducation) :
  zOptional
    (zEnum enumMessage
       ["none"; "certificate"; "national_diploma"; "degree"; "other"]%string m)
    (encodeTertiaryEducation e) = valid.
Proof. destruct e as [[] |]; reflexivity. Qed.

Lemma zEnum_studyMode (m : option string) (x : StudyMode) :
  zEnum enumMessage ["full-time"; "part-time"; "weekend"]%string m
    (encodeStudyMode x) = valid.
Proof. destruct x; reflexivity. Qed.

Lemma zEnum_sponsorshipType (m : option string) (x : SponsorshipType) :
  zEnum enumMessage ["self"; "organization"; "guardian"]%string m
    (encodeSponsorshipType x) = valid.
Proof. destruct x; reflexivity. Qed.

(** Read the fields of an object that is given field by field. *)
Ltac get_fields :=
  repeat match goal with
  | |- context [lookup ?k ?f] =>
      let v := eval cbv [lookup String.eqb Ascii.eqb Bool.eqb andb] in
                 (lookup k f) in
      progress change (lookup k f) with v
  end.

Ltac parse_object :=
  repeat (rewrite ?zObject_cons, ?zObject_nil; get_fields);
  rewrite ?under_zString, ?zEnum_gender, ?zEnum_educationLevel,
    ?zEnum_tertiaryEducation, ?zEnum_studyMode, ?zEnum_sponsorshipType,
    ?zOptional_string, ?zBoolean_bool;
  repeat (progress rewrite ?under_valid, ?under_parsed, ?merge_valid_l,
            ?merge_valid_r, ?merge_parsed).

Lemma personalInfo_parsed (p : PersonalInfo.t) :
  personalInfoSchema' (encodePersonalInfo p) =
  mkParsed false
    (field "firstName"
       (zstring isEmail firstNameSchema (PersonalInfo.firstName p)) ++
     field "lastName"
       (zstring isEmail lastNameSchema (PersonalInfo.lastName p)) ++
     field "email"
       (zstring isEmail [Email "Invalid email address"] (PersonalInfo.email p)) ++
     field "phone"
       (zstring isEmail
          [Regex phonePattern "Please enter a valid phone number (e.g., +234...)"]
          (PersonalInfo.phone p)) ++
     field "dateOfBirth"
       (zstring isEmail (dateOfBirthSchema zone parseOther)
          (PersonalInfo.dateOfBirth p)) ++
     field "address"
       (zstring isEmail
          [Min 10 "Please provide a complete address"; Max 200 "Address is too long"]
          (PersonalInfo.address p)) ++
     field "nationality"
       (zstring isEmail [Min 2 "Please specify your nationality"]
          (PersonalInfo.nationality p)) ++
     field "stateOfOrigin"
       (zstring isEmail [Min 2 "Please specify your state of origin"]
          (PersonalInfo.stateOfOrigin p))).
Proof.
  unfold personalInfoSchema, encodePersonalInfo. parse_object. reflexivity.
Qed.

Lemma certificate_parsed (c : Certificate.t) :
  certificateSchema isEmail typeMessage (encodeCertificate c) =
  mkParsed false
    (field "type"
       (zstring isEmail [Min 2 "Certificate type is required"]
          (Certificate.type c)) ++
     field "grade"
       (zstring isEmail [Min 1 "Grade is required"] (Certificate.grade c)) ++
     field "year"
       (zstring isEmail [Regex yearRegex "Please enter a valid year"]
          (Certificate.year c))).
Proof.
  unfold certificateSchema, encodeCertificate. parse_object. reflexivity.
Qed.

Lemma elements_not_aborted (elem : schema) (l : list value) :
  (forall x, In x l -> aborted (elem x) = false) ->
  forall i, aborted (elements elem i l) = false.
Proof.
  induction l as [| x l IH]; intros H i; cbn [elements]; [reflexivity |].
  apply aborted_merge. split.
  - unfold under. simpl. apply H. left. reflexivity.
  - apply IH. intros y Hy. apply H. right. exact Hy.
Qed.

Lemma In_elements (elem : schema) (l : list value) :
  forall start i,
    In i (issues (elements elem start l)) <->
    exists n x j,
      nth_error l n = Some x /\ In j (issues (elem x)) /\
      i = at_key (Idx (start + n)) j.
Proof.
  induction l as [| x l IH]; intros start i; cbn [elements].
  - simpl. split; [contradiction |].
    intros (n & c & j & H & _). destruct n; discriminate H.
  - rewrite In_merge, IH. unfold under, nested. cbn [issues].
    rewrite in_map_iff. split.
    + intros [(j & <- & Hj) | (n & c & j & Hn & Hj & ->)].
      * exists 0%nat, x, j. rewrite Nat.add_0_r. repeat split. exact Hj.
      * exists (S n), c, j. rewrite Nat.add_succ_r. repeat split; assumption.
    + intros (n & c & j & Hn & Hj & ->). destruct n as [| n]; simpl in Hn.
      * injection Hn as ->. left. exists j. rewrite Nat.add_0_r.
        split; [reflexivity | exact Hj].
      * right. exists n, c, j. rewrite Nat.add_succ_r.
        repeat split; assumption.
Qed.

Lemma elements_nil_iff (elem : schema) (l : list value) :
  forall start,
    issues (elements elem start l) = [] <->
    forall x, In x l -> issues (elem x) = [].
Proof.
  induction l as [| x l IH]; intro start; cbn [elements].
  - simpl. split; [intros _ c [] | reflexivity].
  - unfold merge, under, nested. cbn [issues]. split.
    + intro H. apply app_eq_nil in H as [Hx Hl].
      intros c [<- | Hc].
      * destruct (issues (elem x)); [reflexivity | discriminate Hx].
      * exact (proj1 (IH (S start)) Hl c Hc).
    + intro H. rewrite (H x (or_introl eq_refl)). simpl.
      apply IH. intros c Hc. apply H. right. exact Hc.
Qed.

Lemma academicBackground_parsed (a : AcademicBackground.t) :
  academicBackgroundSchema' (encodeAcademicBackground a) =
  mkParsed false
    (nested (Key "certificates")
       (issues
          (elements (certificateSchema isEmail typeMessage) 0
             (List.map encodeCertificate (AcademicBackground.certificates a))))).
Proof.
  unfold academicBackgroundSchema, encodeAcademicBackground.
  repeat (rewrite ?zObject_cons, ?zObject_nil; get_fields).
  rewrite zEnum_educationLevel, zEnum_tertiaryEducation. cbn [zArray].
  rewrite (parsed_eta
             (elements (certificateSchema isEmail typeMessage) 0
                (List.map encodeCertificate (AcademicBackground.certificates a)))).
  - rewrite !under_valid, under_parsed, !merge_valid_l, merge_valid_r.
    reflexivity.
  - apply elements_not_aborted. intros x Hx.
    apply in_map_iff in Hx as (c & <- & _). rewrite certificate_parsed.
    reflexivity.
Qed.

Lemma programSelection_parsed (p : ProgramSelection.t) :
  programSelectionSchema' (encodeProgramSelection p) =
  mkParsed false
    (field "program"
       (zstring isEmail [Min 1 "Please select a program"]
          (ProgramSelection.program p)) ++
     field "course"
       (zstring isEmail [Min 1 "Please select a course"]
          (ProgramSelection.course p)) ++
     field "startDate"
       (zstring isEmail [Min 1 "Please select a start date"]
          (ProgramSelection.startDate p)) ++
     field "careerGoals"
       (zstring isEmail
          [Min 10 "Please describe your career goals";
           Max 500 "Career goals must not exceed 500 characters"]
          (ProgramSelection.careerGoals p))).
Proof.
  unfold programSelectionSchema, encodeProgramSelection. parse_object.
  reflexivity.
Qed.

Lemma accommodation_parsed (a : Accommodation.t) :
  accommodationSchema' (encodeAccommodation a) =
  mkParsed false
    (nested (Key "sponsorDetails")
       (field "name"
          (zstring isEmail [Min 2 "Sponsor name is required"]
             (SponsorDetails.name (Accommodation.sponsorDetails a))) ++
        field "relationship"
          (zstring isEmail [Min 2 "Please specify the relationship"]
             (SponsorDetails.relationship (Accommodation.sponsorDetails a))) ++
        field "contact"
          (zstring isEmail [Min 5 "Please provide contact information"]
             (SponsorDetails.contact (Accommodation.sponsorDetails a))))).
Proof.
  unfold accommodationSchema, sponsorDetailsSchema, encodeAccommodation,
    encodeSponsorDetails.
  parse_object. reflexivity.
Qed.

(** On a record of strings the object schema of the referee raises the
    issues of the six field checks. *)
Lemma referee_parsed (r : Referee.t) :
  refereeObjectSchema' (encodeReferee r) = mkParsed false (refereeSchema isEmail r).
Proof.
  unfold refereeObjectSchema, encodeReferee, refereeSchema. parse_object.
  reflexivity.
Qed.

Lemma application_not_aborted (data : ApplicationFormData.t) :
  aborted (applicationObject' (encodeApplication data)) = false.
Proof.
  unfold encodeApplication. rewrite applicationObject_fields. get_fields.
  rewrite personalInfo_parsed, academicBackground_parsed,
    programSelection_parsed, accommodation_parsed, referee_parsed.
  reflexivity.
Qed.

Lemma emailsDiffer_encoded (data : ApplicationFormData.t) :
  emailsDiffer (encodeApplication data) = false <->
  Referee.email (ApplicationFormData.referee data) =
  PersonalInfo.email (ApplicationFormData.personalInfo data).
Proof.
  change (emailsDiffer (encodeApplication data))
    with (negb (str_eqb (Referee.email (ApplicationFormData.referee data))
                  (PersonalInfo.email (ApplicationFormData.personalInfo data)))).
  rewrite negb_false_iff. apply str_eqb_eq.
Qed.

Lemma success_snoc (l : list issue) (i : issue) : success (l ++ [i]) = false.
Proof. destruct l; reflexivity. Qed.

(** C6 (as amended): the refinement of the aggregate schema runs exactly
    when parsing the five sections was not aborted.  Its issue has the
    path [referee.email].  On every record of the inferred type (every
    field of its declared type, every enumerated field one of its
    values) no section aborts, whatever issues the field checks raise:
    the issue at [referee.email] with the cross-field message is raised
    exactly when the two emails are equal, and then validation fails.
    The same holds on every input on which parsing the sections is not
    aborted.  On an input on which it is aborted (a field of the wrong
    type, an enumerated field outside its values) validation fails with
    the issues of the sections alone: the cross-field check is not run.
    When the two emails differ the check adds nothing to the outcome of
    the sections. *)
Theorem referee_email_must_differ :
  issue_path refereeEmailIssue = [Key "referee"; Key "email"] /\
  (forall data : ApplicationFormData.t,
      (In refereeEmailIssue
          (issues (applicationSchema' (encodeApplication data))) <->
       Referee.email (ApplicationFormData.referee data) =
       PersonalInfo.email (ApplicationFormData.personalInfo data)) /\
      (Referee.email (ApplicationFormData.referee data) =
       PersonalInfo.email (ApplicationFormData.personalInfo data) ->
       success (issues (applicationSchema' (encodeApplication data))) = false)) /\
  (forall v : value,
      aborted (applicationObject' v) = false ->
      (In refereeEmailIssue (issues (applicationSchema' v)) <->
       emailsDiffer v = false) /\
      (emailsDiffer v = false ->
       success (issues (applicationSchema' v)) = false)) /\
  (forall v : value,
      aborted (applicationObject' v) = true ->
      applicationSchema' v = applicationObject' v /\
      success (issues (applicationSchema' v)) = false) /\
  (forall v : value,
      emailsDiffer v = true -> applicationSchema' v = applicationObject' v).
Proof.
  assert (Hrun : forall v : value,
             aborted (applicationObject' v) = false ->
             (In refereeEmailIssue (issues (applicationSchema' v)) <->
              emailsDiffer v = false) /\
             (emailsDiffer v = false ->
              success (issues (applicationSchema' v)) = false)).
  { intros v Hab. unfold applicationSchema, zRefine. rewrite Hab.
    destruct (emailsDiffer v); cbn [issues].
    - split; [| discriminate]. split; [| discriminate].
      intro H. exfalso. exact (sections_never_report_cross_check v Hab H).
    - split.
      + split; [reflexivity |]. intros _. apply in_or_app. right. left.
        reflexivity.
      + intros _. apply success_snoc. }
  split; [reflexivity |]. split; [| split; [exact Hrun |]].
  - intro data.
    destruct (Hrun _ (application_not_aborted data)) as [Hin Hfail].
    rewrite <- emailsDiffer_encoded. split; assumption.
  - split.
    + intros v Hab. unfold applicationSchema, zRefine. rewrite Hab.
      split; [reflexivity |].
      pose proof (aborted_applicationObject_issue v Hab) as Hne.
      destruct (issues (applicationObject' v)); [contradiction | reflexivity].
    + intros v Hd. unfold applicationSchema, zRefine. rewrite Hd.
      destruct (aborted (applicationObject' v)); reflexivity.
Qed.

End Aggregate.

(** C6, counterexample: with no gender selected the sample form whose
    two emails are equal is rejected for the gender alone; nothing is
    attached to the referee's email. *)
Lemma equal_emails_without_referee_issue :
  emailsDiffer sampleInputNoGender = false /\
  issues (applicationSchema (fun _ => true) (fixedOffset 0) (fun _ => None)
            (fun _ _ => "Invalid input"%string)
            (fun _ _ => "Invalid enum value"%string) sampleInputNoGender) =
    [mkIssue [Key "personalInfo"; Key "gender"] "Please select your gender"] /\
  ~ In refereeEmailIssue
      (issues (applicationSchema (fun _ => true) (fixedOffset 0) (fun _ => None)
                 (fun _ _ => "Invalid input"%string)
                 (fun _ _ => "Invalid enum value"%string) sampleInputNoGender)).
Proof.
  assert (E : issues (applicationSchema (fun _ => true) (fixedOffset 0)
                        (fun _ => None) (fun _ _ => "Invalid input"%string)
                        (fun _ _ => "Invalid enum value"%string)
                        sampleInputNoGender) =
              [mkIssue [Key "personalInfo"; Key "gender"]
                 "Please select your gender"]).
  { vm_compute. reflexivity. }
  split; [vm_compute; reflexivity |]. split; [exact E |].
  rewrite E. intros [H | []]. discriminate H.
Qed.

Lemma referee_email_must_differ_witness :
  Referee.email (ApplicationFormData.referee sampleFormSameEmail) =
  PersonalInfo.email (ApplicationFormData.personalInfo sampleFormSameEmail) /\
  In refereeEmailIssue
    (issues (applicationSchema (fun _ => true) (fixedOffset 0) (fun _ => None)
               (fun _ _ => "Invalid input"%string)
               (fun _ _ => "Invalid enum value"%string)
               (encodeApplication sampleFormSameEmail))) /\
  success
    (issues (applicationSchema (fun _ => true) (fixedOffset 0) (fun _ => None)
               (fun _ _ => "Invalid input"%string)
               (fun _ _ => "Invalid enum value"%string)
               (encodeApplication sampleFormSameEmail))) = false.
Proof.
  split; [reflexivity |].
  destruct (proj1 (proj2 (referee_email_must_differ (fun _ => true)
                            (fixedOffset 0) (fun _ => None)
                            (fun _ _ => "Invalid input"%string)
                            (fun _ _ => "Invalid enum value"%string)))
              sampleFormSameEmail) as [Hin Hfail].
  split; [apply Hin; reflexivity | apply Hfail; reflexivity].
Defined.

(** ** Submission without an identity *)

(** C1, the Firebase path: with no user, [handleSubmit] makes no call at
    all and its promise is rejected with the not-signed-in error; no
    result value is returned. *)
Theorem handleSubmit_without_user_rejects (S : Type) (h : handler S) (s : S)
    (formData : ApplicationFormData.t) :
  run h (handleSubmit None formData) s =
  ([], Rejected (ErrorObj notSignedInSubmit), s).
Proof. reflexivity. Qed.

(** The Supabase path: with no user, [submitApplication] makes no store
    call and returns the failure result with the not-signed-in message. *)
Lemma submitApplication_without_user (S : Type) (h : handler S) (s : S)
    (formData : ApplicationFormData.t) :
  fst (h _ GetUser s) = None ->
  List.filter is_store_call (trace_of h (submitApplication formData) s) = [] /\
  outcome_of h (submitApplication formData) s =
  Returned (SubmissionResult.mk false notSignedInSubmit None).
Proof.
  intro Hu. unfold trace_of, outcome_of, submitApplication. simpl.
  destruct (h _ GetUser s) as [u s1]. simpl in Hu. subst u. simpl.
  destruct (h _ (ConsoleError (js "Error submitting application:")
                   (AnyThrown (ErrorObj notSignedInSubmit))) s1) as [[] s2].
  simpl.
  destruct (h _ (ToastError notSignedInSubmit) s2) as [[] s3].
  simpl. split; reflexivity.
Qed.

(** ** One submission, its remote calls and its result *)

(** C3, counterexample: against a store that accepts every write, one
    call of [handleSubmit] makes two remote inserts. *)
Lemma handleSubmit_makes_two_inserts :
  List.map (fun c => match c with
                     | Call (AddDoc path _) _ => path
                     | _ => []
                     end)
    (List.filter is_insert
       (trace_of (scripted accepting)
          (handleSubmit (Some sampleFirebaseUser) sampleForm) tt)) =
  [js "applications"; js "users/u1/applications"] /\
  outcome_of (scripted accepting)
    (handleSubmit (Some sampleFirebaseUser) sampleForm) tt =
  Returned (SubmissionResult.mk true (js "Application submitted successfully")
              (Some (js "new-id"))).
Proof. split; reflexivity. Qed.

(** C3 (as amended): with an identity present, [submitApplication]
    makes exactly one store call, an insert into [applications], and
    when that insert yields an id the result is the success carrying
    that id.  [handleSubmit] makes one insert into [applications] and,
    when it succeeds, a second insert of the link document into
    [users/<uid>/applications]; the result is a success, carrying the id
    of the first insert, exactly when both succeed. *)
Theorem one_insert_into_applications (formData : ApplicationFormData.t) :
  (forall (S : Type) (h : handler S) (s : S) (user : SupabaseUser.t),
      fst (h _ GetUser s) = Some user ->
      exists doc answer,
        List.filter is_store_call (trace_of h (submitApplication formData) s) =
          [Call (Insert applications (ColumnsDoc doc)) answer] /\
        Columns.user_id doc = SupabaseUser.id user /\
        Columns.status doc = js "pending" /\
        forall r, outcome_of h (submitApplication formData) s = Returned r <->
                  match answer with
                  | inr (Data id) =>
                      r = SubmissionResult.mk true
                            (js "Application submitted successfully") (Some id)
                  | inr (Error e) =>
                      r = SubmissionResult.mk false (PostgrestError.message e) None
                  | inl err =>
                      r = SubmissionResult.mk false
                            (messageOr (js "Failed to submit application") err) None
                  end) /\
  (forall (S : Type) (h : handler S) (s : S) (user : FirebaseUser.t),
      exists doc answer,
        ApplicationData.formData doc = formData /\
        ApplicationData.userId doc = FirebaseUser.uid user /\
        ApplicationData.status doc = js "pending" /\
        match answer with
        | inl err =>
            List.filter is_store_call
              (trace_of h (handleSubmit (Some user) formData) s) =
              [Call (AddDoc applications (ApplicationDoc doc)) (inl err)] /\
            outcome_of h (handleSubmit (Some user) formData) s =
              Returned (SubmissionResult.mk false
                          (messageOr (js "Failed to submit application") err) None)
        | inr id =>
            exists link answer2,
              List.filter is_store_call
                (trace_of h (handleSubmit (Some user) formData) s) =
                [Call (AddDoc applications (ApplicationDoc doc)) (inr id);
                 Call (AddDoc (userApplicationsPath (FirebaseUser.uid user))
                         (LinkDoc link)) answer2] /\
              UserApplicationLink.applicationId link = id /\
              outcome_of h (handleSubmit (Some user) formData) s =
                Returned
                  match answer2 with
                  | inr _ =>
                      SubmissionResult.mk true
                        (js "Application submitted successfully") (Some id)
                  | inl err =>
                      SubmissionResult.mk false
                        (messageOr (js "Failed to submit application") err) None
                  end
        end).
Proof.
  split.
  - intros S h s user Hu.
    unfold trace_of, outcome_of, submitApplication. simpl.
    destruct (h _ GetUser s) as [u s1]. simpl in Hu. subst u. simpl.
    ask h. ask h. ask_as h answer.
    eexists _, answer.
    destruct answer as [err | [id | e]]; simpl.
    + ask h. ask h. simpl.
      repeat split; try reflexivity; intro H; congruence.
    + ask h. simpl.
      repeat split; try reflexivity; intro H; congruence.
    + ask h. ask h. ask h. simpl.
      repeat split; try reflexivity; intro H; congruence.
  - intros S h s user.
    unfold trace_of, outcome_of, handleSubmit. simpl.
    ask h. ask h. ask h. ask h. ask_as h answer.
    eexists _, answer.
    destruct answer as [err | id]; simpl.
    + ask h. ask h. ask h. ask h. simpl. repeat split; reflexivity.
    + ask_as h answer2. do 3 (split; [reflexivity |]). eexists _, answer2.
      destruct answer2 as [err | id2]; simpl.
      * ask h. ask h. ask h. ask h. simpl. repeat split; reflexivity.
      * ask h. ask h. simpl. repeat split; reflexivity.
Qed.

Lemma one_insert_into_applications_witness :
  fst ((scripted accepting : handler unit) _ GetUser tt) = Some sampleUser /\
  exists doc answer,
    List.filter is_store_call
      (trace_of (scripted accepting) (submitApplication sampleForm) tt) =
      [Call (Insert applications (ColumnsDoc doc)) answer] /\
    Columns.user_id doc = SupabaseUser.id sampleUser /\
    Columns.status doc = js "pending" /\
    forall r, outcome_of (scripted accepting) (submitApplication sampleForm) tt =
              Returned r <->
              match answer with
              | inr (Data id) =>
                  r = SubmissionResult.mk true
                        (js "Application submitted successfully") (Some id)
              | inr (Error e) =>
                  r = SubmissionResult.mk false (PostgrestError.message e) None
              | inl err =>
                  r = SubmissionResult.mk false
                        (messageOr (js "Failed to submit application") err) None
              end.
Proof.
  split; [reflexivity |].
  apply (proj1 (one_insert_into_applications sampleForm) unit (scripted accepting)
           tt sampleUser).
  reflexivity.
Defined.

(** ** [submitApplicationForm] *)

Lemma trimStart_spec (s : jsstring) :
  exists pre, s = pre ++ trimStart s /\
              forallb is_js_whitespace pre = true /\ starts_clean (trimStart s).
Proof.
  induction s as [| c s (pre & E & Hpre & Hc)]; simpl.
  - exists []. repeat split.
  - destruct (is_js_whitespace c) eqn:Hw.
    + exists (c :: pre). simpl. rewrite Hw, Hpre. repeat split; [| exact Hc].
      f_equal. exact E.
    + exists []. simpl. repeat split. exact Hw.
Qed.

Lemma trimStart_snoc (l : jsstring) (c : codeunit) :
  is_js_whitespace c = false -> trimStart (l ++ [c]) = trimStart l ++ [c].
Proof.
  intro Hc. induction l as [| x l IH]; simpl.
  - rewrite Hc. reflexivity.
  - destruct (is_js_whitespace x); [exact IH | reflexivity].
Qed.

Lemma forallb_rev {A : Type} (f : A -> bool) (l : list A) :
  forallb f (rev l) = forallb f l.
Proof.
  induction l as [| x l IH]; simpl; [reflexivity |].
  rewrite forallb_app, IH. simpl. rewrite andb_true_r. apply andb_comm.
Qed.

Lemma trimEnd_spec (s : jsstring) :
  exists post, s = trimEnd s ++ post /\
               forallb is_js_whitespace post = true /\
               starts_clean (rev (trimEnd s)) /\
               (starts_clean s -> starts_clean (trimEnd s)).
Proof.
  unfold trimEnd.
  destruct (trimStart_spec (rev s)) as (pre & E & Hpre & Hc).
  exists (rev pre). repeat split.
  - rewrite <- rev_app_distr, <- E, rev_involutive. reflexivity.
  - rewrite forallb_rev. exact Hpre.
  - rewrite rev_involutive. exact Hc.
  - destruct s as [| c s']; simpl; [intros _; exact I |].
    intro Hs. rewrite trimStart_snoc by exact Hs.
    rewrite rev_app_distr. simpl. exact Hs.
Qed.

Lemma trim_spec (s : jsstring) : trimmed_of s (trim s).
Proof.
  unfold trim, trimmed_of.
  destruct (trimStart_spec s) as (pre & E1 & Hpre & Hc1).
  destruct (trimEnd_spec (trimStart s)) as (post & E2 & Hpost & Hc2 & Hkeep).
  exists pre, post. repeat split; try assumption.
  - rewrite <- E2. exact E1.
  - apply Hkeep. exact Hc1.
Qed.

Section SubmitApplicationForm.

Variable toLowerCase : jsstring -> jsstring.

Lemma submitApplicationForm_passes (formData : ApplicationFormData.t) :
  passesChecks formData ->
  submitApplicationForm toLowerCase formData =
  Vis (Insert applications
         (FormDoc (FormInsert.mk formData
                     (sanitize toLowerCase
                        (ApplicationFormData.personalInfo formData))
                     (js "pending"))))
      (fun x => try_catch
         (r <- (match x with inl err => Throw err | inr v => Ret v end) ;;
          match r with
          | Error error =>
              perform (ConsoleError (js "Supabase error:")
                         (AnyPostgrestError error)) ;;
              if str_eqb (PostgrestError.code error) (js "23505") then
                Ret (ApplicationResponse.mk false
                       (js "Duplicate submission detected.") None
                       (Some (AnyString (PostgrestError.message error))))
              else
                Ret (ApplicationResponse.mk false
                       (js "Supabase error: " ++ PostgrestError.message error)
                       None
                       (Some (AnyString (PostgrestError.message error))))
          | Data id =>
              Ret (ApplicationResponse.mk true
                     (js "Application submitted successfully!") (Some id) None)
          end)
         (fun error =>
            perform (ConsoleError (js "Unexpected error submitting application:")
                       (AnyThrown error)) ;;
            Ret (ApplicationResponse.mk false
                   (js "Unexpected error: " ++
                    messageOr (js "An unknown error occurred.") error)
                   None (Some (AnyThrown error))))).
Proof.
  intros (H1 & H2 & H3). unfold submitApplicationForm.
  rewrite H1, H2, H3. reflexivity.
Qed.

(** C10: for an input that passes the checks of
    [submitApplicationForm], the first call made is the insert, and the
    [personal_info] of the inserted document holds the first and last
    names and the phone trimmed and the email trimmed, then converted to
    lower case; no other store call follows. *)
Theorem inserted_personal_info_is_sanitized (formData : ApplicationFormData.t)
    (S : Type) (h : handler S) (s : S) :
  passesChecks formData ->
  let p := ApplicationFormData.personalInfo formData in
  exists doc answer rest,
    trace_of h (submitApplicationForm toLowerCase formData) s =
      Call (Insert applications (FormDoc doc)) answer :: rest /\
    List.filter is_store_call rest = [] /\
    FormInsert.personal_info doc =
      SanitizedPersonalInfo.mk
        (trim (PersonalInfo.firstName p)) (trim (PersonalInfo.lastName p))
        (toLowerCase (trim (PersonalInfo.email p)))
        (trim (PersonalInfo.phone p)) /\
    trimmed_of (PersonalInfo.firstName p) (trim (PersonalInfo.firstName p)) /\
    trimmed_of (PersonalInfo.lastName p) (trim (PersonalInfo.lastName p)) /\
    trimmed_of (PersonalInfo.email p) (trim (PersonalInfo.email p)) /\
    trimmed_of (PersonalInfo.phone p) (trim (PersonalInfo.phone p)).
Proof.
  intros Hp p. rewrite (submitApplicationForm_passes Hp).
  unfold trace_of. simpl.
  ask_as h answer.
  destruct answer as [err | [id | e]]; simpl;
    [ ask h | | ask h; destruct (str_eqb (PostgrestError.code e) (js "23505")) ];
    simpl; eexists _, _, _;
    (split; [reflexivity |]); (split; [reflexivity |]);
    (split; [reflexivity |]); repeat split; apply trim_spec.
Qed.

(** C7: when the insert of [submitApplicationForm] fails with the
    unique-violation code 23505 the result is the failure with the
    duplicate-submission message; every other failure of the insert, an
    error reply with another code or a rejected promise, yields a
    failure whose message is a different one. *)
Theorem duplicate_submission_is_distinguished (formData : ApplicationFormData.t)
    (S : Type) (h : handler S) (s : S) :
  passesChecks formData ->
  exists doc answer,
    hd_error (trace_of h (submitApplicationForm toLowerCase formData) s) =
      Some (Call (Insert applications doc) answer) /\
    match answer with
    | inr (Error e) =>
        if str_eqb (PostgrestError.code e) (js "23505") then
          outcome_of h (submitApplicationForm toLowerCase formData) s =
          Returned (ApplicationResponse.mk false
                      (js "Duplicate submission detected.") None
                      (Some (AnyString (PostgrestError.message e))))
        else
          exists r,
            outcome_of h (submitApplicationForm toLowerCase formData) s =
              Returned r /\
            ApplicationResponse.success r = false /\
            ApplicationResponse.message r =
              js "Supabase error: " ++ PostgrestError.message e /\
            ApplicationResponse.message r <> js "Duplicate submission detected."
    | inl err =>
        exists r,
          outcome_of h (submitApplicationForm toLowerCase formData) s =
            Returned r /\
          ApplicationResponse.success r = false /\
          ApplicationResponse.message r =
            js "Unexpected error: " ++
            messageOr (js "An unknown error occurred.") err /\
          ApplicationResponse.message r <> js "Duplicate submission detected."
    | inr (Data id) =>
        outcome_of h (submitApplicationForm toLowerCase formData) s =
        Returned (ApplicationResponse.mk true
                    (js "Application submitted successfully!") (Some id) None)
    end.
Proof.
  intro Hp. rewrite (submitApplicationForm_passes Hp).
  unfold trace_of, outcome_of. simpl.
  ask_as h answer.
  destruct answer as [err | [id | e]]; simpl.
  - ask h. eexists _, (inl err). split; [reflexivity |].
    eexists. repeat split. unfold js. simpl. discriminate.
  - eexists _, (inr (Data id)). split; reflexivity.
  - ask h.
    destruct (str_eqb (PostgrestError.code e) (js "23505")) eqn:Hcode; simpl;
      eexists _, (inr (Error e)); (split; [reflexivity |]); rewrite Hcode.
    + reflexivity.
    + eexists. repeat split. unfold js. simpl. discriminate.
Qed.

End SubmitApplicationForm.

Lemma sampleForm_passesChecks : passesChecks sampleForm.
Proof. repeat split; vm_compute; reflexivity. Qed.

Lemma inserted_personal_info_is_sanitized_witness :
  passesChecks sampleForm /\
  let p := ApplicationFormData.personalInfo sampleForm in
  exists doc answer rest,
    trace_of (scripted accepting) (submitApplicationForm asciiLower sampleForm) tt =
      Call (Insert applications (FormDoc doc)) answer :: rest /\
    List.filter is_store_call rest = [] /\
    FormInsert.personal_info doc =
      SanitizedPersonalInfo.mk
        (trim (PersonalInfo.firstName p)) (trim (PersonalInfo.lastName p))
        (asciiLower (trim (PersonalInfo.email p)))
        (trim (PersonalInfo.phone p)) /\
    trimmed_of (PersonalInfo.firstName p) (trim (PersonalInfo.firstName p)) /\
    trimmed_of (PersonalInfo.lastName p) (trim (PersonalInfo.lastName p)) /\
    trimmed_of (PersonalInfo.email p) (trim (PersonalInfo.email p)) /\
    trimmed_of (PersonalInfo.phone p) (trim (PersonalInfo.phone p)).
Proof.
  split; [exact sampleForm_passesChecks |].
  apply (inserted_personal_info_is_sanitized asciiLower (formData := sampleForm)
           (scripted accepting) tt).
  exact sampleForm_passesChecks.
Defined.

Lemma duplicate_submission_is_distinguished_witness :
  passesChecks sampleForm /\
  exists doc answer,
    hd_error (trace_of (scripted rejecting)
                (submitApplicationForm asciiLower sampleForm) tt) =
      Some (Call (Insert applications doc) answer) /\
    match answer with
    | inr (Error e) =>
        if str_eqb (PostgrestError.code e) (js "23505") then
          outcome_of (scripted rejecting)
            (submitApplicationForm asciiLower sampleForm) tt =
          Returned (ApplicationResponse.mk false
                      (js "Duplicate submission detected.") None
                      (Some (AnyString (PostgrestError.message e))))
        else
          exists r,
            outcome_of (scripted rejecting)
              (submitApplicationForm asciiLower sampleForm) tt = Returned r /\
            ApplicationResponse.success r = false /\
            ApplicationResponse.message r =
              js "Supabase error: " ++ PostgrestError.message e /\
            ApplicationResponse.message r <> js "Duplicate submission detected."
    | inl err =>
        exists r,
          outcome_of (scripted rejecting)
            (submitApplicationForm asciiLower sampleForm) tt = Returned r /\
          ApplicationResponse.success r = false /\
          ApplicationResponse.message r =
            js "Unexpected error: " ++
            messageOr (js "An unknown error occurred.") err /\
          ApplicationResponse.message r <> js "Duplicate submission detected."
    | inr (Data id) =>
        outcome_of (scripted rejecting)
          (submitApplicationForm asciiLower sampleForm) tt =
        Returned (ApplicationResponse.mk true
                    (js "Application submitted successfully!") (Some id) None)
    end.
Proof.
  split; [exact sampleForm_passesChecks |].
  apply (duplicate_submission_is_distinguished asciiLower (formData := sampleForm)
           (scripted rejecting) tt).
  exact sampleForm_passesChecks.
Defined.

(** Against a store whose unique constraint rejects the insert, the
    sample form gets the duplicate-submission result. *)
Example duplicate_submission_example :
  outcome_of (scripted rejecting) (submitApplicationForm asciiLower sampleForm) tt =
  Returned (ApplicationResponse.mk false (js "Duplicate submission detected.")
              None (Some (AnyString (PostgrestError.message duplicateKey)))) /\
  List.map (fun c => match c with
                     | Call (Insert _ (FormDoc d)) _ =>
                         Some (FormInsert.personal_info d)
                     | _ => None
                     end)
    (List.filter is_insert
       (trace_of (scripted rejecting)
          (submitApplicationForm asciiLower sampleForm) tt)) =
  [Some (SanitizedPersonalInfo.mk (js "Ada") (js "Lovelace")
           (js "ada@example.org") (js "+234802"))].
Proof. split; vm_compute; reflexivity. Qed.

(** ** Drafts *)

(** C8, counterexample: called with the empty string as draft id,
    [saveDraft] makes an insert and no update. *)
Lemma saveDraft_empty_id_inserts :
  exists doc answer,
    List.filter is_store_call
      (trace_of (scripted accepting) (saveDraft samplePartial (Some (js ""))) tt) =
    [Call (Insert applications (ColumnsDoc doc)) answer].
Proof. eexists _, _. reflexivity. Qed.

(** C8 (as amended): with an identity present, [saveDraft] makes exactly
    one store call.  The document has the caller's id as [user_id],
    status [draft] and, for each section, the section of the partial
    record or the empty object when it is missing.  With no draft id, or
    with the empty string as draft id, the call is an insert and the
    document carries a creation timestamp; with a non-empty draft id it
    is an update filtered by that id and by the caller's user id. *)
Theorem saveDraft_inserts_or_updates (formData : PartialFormData.t)
    (draftId : option jsstring) (S : Type) (h : handler S) (s : S)
    (user : SupabaseUser.t) :
  fst (h _ GetUser s) = Some user ->
  exists updated_at answer,
    let draftData :=
      Columns.mk (SupabaseUser.id user)
        (or_empty (PartialFormData.personalInfo formData))
        (or_empty (PartialFormData.academicBackground formData))
        (or_empty (PartialFormData.programSelection formData))
        (or_empty (PartialFormData.accommodation formData))
        (or_empty (PartialFormData.referee formData))
        (js "draft") None updated_at in
    match draftId with
    | Some (c :: d) =>
        List.filter is_store_call (trace_of h (saveDraft formData draftId) s) =
          [Call (Update applications draftData
                   [(js "id", c :: d); (js "user_id", SupabaseUser.id user)])
                answer]
    | Some [] | None =>
        exists created_at,
          List.filter is_store_call (trace_of h (saveDraft formData draftId) s) =
            [Call (Insert applications
                     (ColumnsDoc (with_created_at draftData created_at)))
                  answer]
    end.
Proof.
  intro Hu. unfold trace_of, saveDraft. simpl.
  destruct (h _ GetUser s) as [u s1]. simpl in Hu. subst u. simpl.
  ask h.
  destruct draftId as [[| c d] |]; simpl.
  - ask h. ask_as h answer.
    destruct answer as [err | [id | e]]; simpl; [ask h | | ask h]; simpl;
      eexists _, _, _; reflexivity.
  - ask_as h answer.
    destruct answer as [err | [id | e]]; simpl; [ask h | | ask h]; simpl;
      eexists _, _; reflexivity.
  - ask h. ask_as h answer.
    destruct answer as [err | [id | e]]; simpl; [ask h | | ask h]; simpl;
      eexists _, _, _; reflexivity.
Qed.

Lemma saveDraft_inserts_or_updates_witness :
  fst ((scripted accepting : handler unit) _ GetUser tt) = Some sampleUser /\
  exists updated_at answer,
    List.filter is_store_call
      (trace_of (scripted accepting)
         (saveDraft samplePartial (Some (js "row-1"))) tt) =
      [Call (Update applications
               (Columns.mk (js "u1") (Obj samplePersonalInfo) EmptyObject
                  EmptyObject EmptyObject EmptyObject (js "draft") None
                  updated_at)
               [(js "id", js "row-1"); (js "user_id", js "u1")])
            answer].
Proof.
  split; [reflexivity |].
  apply (saveDraft_inserts_or_updates samplePartial (Some (js "row-1"))
           (scripted accepting) tt (user := sampleUser)).
  reflexivity.
Defined.

(** ** Owner scoping *)

Lemma In_insert_sorted (x r : Row.t) (l : list Row.t) :
  In r (insert_sorted x l) <-> r = x \/ In r l.
Proof.
  induction l as [| y l IH]; simpl.
  - intuition congruence.
  - destruct (newer_or_equal x y); simpl; rewrite ?IH; intuition congruence.
Qed.

Lemma In_newest_first (r : Row.t) (l : list Row.t) :
  In r (newest_first l) <-> In r l.
Proof.
  unfold newest_first. induction l as [| x l IH]; simpl; [tauto |].
  rewrite In_insert_sorted, IH. intuition congruence.
Qed.

Lemma satisfies_id (r : Row.t) (v : jsstring) :
  satisfies r (js "id", v) = str_eqb (Row.id r) v.
Proof. reflexivity. Qed.

Lemma satisfies_user_id (r : Row.t) (v : jsstring) :
  satisfies r (js "user_id", v) = owned_by v r.
Proof. reflexivity. Qed.

Lemma selected_owner (owner : jsstring) (r : Row.t) :
  selected [(js "user_id", owner)] r = owned_by owner r.
Proof.
  unfold selected, forallb. rewrite satisfies_user_id. apply andb_true_r.
Qed.

Lemma selected_id_owner (id owner : jsstring) (r : Row.t) :
  selected [(js "id", id); (js "user_id", owner)] r =
  str_eqb (Row.id r) id && owned_by owner r.
Proof.
  unfold selected, forallb. rewrite satisfies_id, satisfies_user_id.
  rewrite andb_true_r. reflexivity.
Qed.

Lemma filter_singleton {A : Type} (f : A -> bool) (l : list A) (x : A) :
  List.filter f l = [x] -> In x l /\ f x = true.
Proof.
  intro H. apply filter_In. rewrite H. left. reflexivity.
Qed.

Lemma update_row_foreign (doc : Columns.t) (id owner : jsstring) (r : Row.t) :
  foreign_to owner r = true ->
  update_row doc [(js "id", id); (js "user_id", owner)] r = r.
Proof.
  unfold foreign_to, update_row. rewrite selected_id_owner. intro H.
  apply negb_true_iff in H. rewrite H, andb_false_r. reflexivity.
Qed.

Lemma update_row_owner (doc : Columns.t) (id owner : jsstring) (r : Row.t) :
  Columns.user_id doc = owner ->
  foreign_to owner (update_row doc [(js "id", id); (js "user_id", owner)] r) =
  foreign_to owner r.
Proof.
  intro Hdoc. unfold update_row. rewrite selected_id_owner.
  destruct (str_eqb (Row.id r) id); simpl; [| reflexivity].
  destruct (owned_by owner r) eqn:Ho; [| reflexivity].
  unfold foreign_to. rewrite Ho. unfold owned_by. simpl.
  rewrite Hdoc, str_eqb_refl. reflexivity.
Qed.

(** An update scoped to the owner leaves the rows of the others as they
    are. *)
Lemma update_keeps_foreign_rows (doc : Columns.t) (id owner : jsstring)
    (rows : list Row.t) :
  Columns.user_id doc = owner ->
  List.filter (foreign_to owner)
    (List.map (update_row doc [(js "id", id); (js "user_id", owner)]) rows) =
  List.filter (foreign_to owner) rows.
Proof.
  intro Hdoc. induction rows as [| r rows IH]; simpl; [reflexivity |].
  rewrite update_row_owner by exact Hdoc.
  destruct (foreign_to owner r) eqn:Hf; [| exact IH].
  rewrite update_row_foreign by exact Hf. rewrite IH. reflexivity.
Qed.

(** C9: every read and every update made by [getUserApplications],
    [getApplicationById] and the update branch of [saveDraft] is
    filtered by the user id of the authenticated caller, and the
    single-record ones by the record id as well; on a table that answers
    the filters as documented the reads return only rows of the caller,
    and the update leaves the rows of every other user as they were. *)
Theorem reads_and_updates_are_owner_scoped :
  (forall (S : Type) (h : handler S) (s : S) (user : SupabaseUser.t),
      fst (h _ GetUser s) = Some user ->
      (exists answer,
          List.filter is_store_call (trace_of h getUserApplications s) =
          [Call (SelectOrdered applications
                   [(js "user_id", SupabaseUser.id user)] (js "created_at") false)
                answer]) /\
      (forall applicationId, exists answer,
          List.filter is_store_call
            (trace_of h (getApplicationById applicationId) s) =
          [Call (SelectSingle applications
                   [(js "id", applicationId);
                    (js "user_id", SupabaseUser.id user)])
                answer]) /\
      (forall formData c d, exists doc answer,
          List.filter is_store_call
            (trace_of h (saveDraft formData (Some (c :: d))) s) =
          [Call (Update applications doc
                   [(js "id", c :: d); (js "user_id", SupabaseUser.id user)])
                answer])) /\
  (forall (w : World.t) (user : SupabaseUser.t),
      World.user w = Some user ->
      (forall rows r,
          outcome_of world getUserApplications w = Returned rows ->
          In r rows ->
          In r (World.rows w) /\
          Columns.user_id (Row.columns r) = SupabaseUser.id user) /\
      (forall applicationId r,
          outcome_of world (getApplicationById applicationId) w = Returned r ->
          In r (World.rows w) /\ Row.id r = applicationId /\
          Columns.user_id (Row.columns r) = SupabaseUser.id user) /\
      (forall formData c d,
          List.filter (foreign_to (SupabaseUser.id user))
            (World.rows (snd (run world (saveDraft formData (Some (c :: d))) w))) =
          List.filter (foreign_to (SupabaseUser.id user)) (World.rows w))).
Proof.
  split.
  - intros S h s user Hu.
    assert (Hget : exists s1, h _ GetUser s = (Some user, s1)).
    { destruct (h _ GetUser s) as [u s1]. simpl in Hu. subst u. exists s1. reflexivity. }
    destruct Hget as [s1 Hget].
    repeat split.
    + unfold trace_of, getUserApplications. simpl. rewrite Hget. simpl.
      ask_as h answer.
      destruct answer as [err | [rows | e]]; simpl; [ask h | | ask h]; simpl;
        eexists; reflexivity.
    + intro applicationId.
      unfold trace_of, getApplicationById. simpl. rewrite Hget. simpl.
      ask_as h answer.
      destruct answer as [err | [rows | e]]; simpl; [ask h | | ask h]; simpl;
        eexists; reflexivity.
    + intros formData c d.
      unfold trace_of, saveDraft. simpl. rewrite Hget. simpl.
      ask h. ask_as h answer.
      destruct answer as [err | [rows | e]]; simpl; [ask h | | ask h]; simpl;
        eexists _, _; reflexivity.
  - intros w user Hu. split; [| split].
    + intros rows r. unfold outcome_of, getUserApplications. simpl.
      rewrite Hu. simpl.
      intros H Hin. injection H as <-.
      apply In_newest_first, filter_In in Hin as [Hin Hsel].
      split; [exact Hin |].
      rewrite selected_owner in Hsel. apply str_eqb_eq. exact Hsel.
    + intros applicationId r. unfold outcome_of, getApplicationById. simpl.
      rewrite Hu. simpl.
      destruct (List.filter (selected _) (World.rows w)) as [| x [| y l]] eqn:Hf;
        simpl; intro H; try discriminate H.
      injection H as <-. apply filter_singleton in Hf as [Hin Hsel].
      rewrite selected_id_owner in Hsel. apply andb_true_iff in Hsel as [Hid Ho].
      split; [exact Hin |]. split; apply str_eqb_eq; assumption.
    + intros formData c d. unfold saveDraft. simpl. rewrite Hu. simpl.
      destruct (List.filter (selected _) (World.rows w)) as [| x [| y l]] eqn:Hf;
        simpl; try reflexivity.
      apply update_keeps_foreign_rows. reflexivity.
Qed.

(** ** The hook in the event loop *)

Section EventLoopFacts.

Variable clock : nat -> jsstring.

Lemma immediate_pending (X : Type) (e : eff X) (h h' : Hook.t) (x : X) :
  immediate clock e h = Some (x, h') -> Hook.pending h' = Hook.pending h.
Proof.
  destruct e; simpl; intro H; try discriminate H; injection H as <- <-;
    reflexivity.
Qed.

Lemma advance_pending (A : Type) (p : Async A) :
  forall h, Hook.pending (fst (advance clock p h)) = Hook.pending h.
Proof.
  induction p as [a | e | X e k IH]; intro h; simpl; try reflexivity.
  destruct (immediate clock e h) as [[x h'] |] eqn:Hi.
  - rewrite IH. eapply immediate_pending. exact Hi.
  - destruct (as_remote e k); reflexivity.
Qed.

(** C2, counterexample: a second submit request made while the first is
    submitting starts a second insert; the two are in flight together. *)
Lemma second_submit_starts_second_insert :
  let clock := fun _ : nat => js "2025-02-27T00:00:00.000Z" in
  let h1 := submit clock (Some sampleFirebaseUser) sampleForm initialHook in
  let h2 := submit clock (Some sampleFirebaseUser) sampleForm h1 in
  Hook.isSubmitting h1 = true /\
  reachable (step clock) h2 /\
  inserts_in_flight h2 = 2%nat.
Proof.
  intros clock0 h1 h2. split; [reflexivity |]. split; [| reflexivity].
  apply reach_step with (h := h1); [| apply step_submit].
  apply reach_step with (h := initialHook); [apply reach_init | apply step_submit].
Qed.

Lemma submit_one_in_flight (user : option FirebaseUser.t)
    (formData : ApplicationFormData.t) (h : Hook.t) :
  Hook.pending h = [] -> one_in_flight clock (submit clock user formData h).
Proof.
  intro Hp. unfold submit. destruct user as [user |]; simpl.
  - right. rewrite Hp. simpl. split; [reflexivity |].
    eexists _, 1%nat. split; [reflexivity |].
    simpl. intros [err | id] h0; simpl; [reflexivity |].
    split; [reflexivity |].
    intros [err | id2] h1; reflexivity.
  - left. exact Hp.
Qed.

Lemma guarded_step_one_in_flight (h h' : Hook.t) :
  one_in_flight clock h -> guarded_step clock h h' -> one_in_flight clock h'.
Proof.
  intros Hinv Hstep.
  destruct Hstep as [user formData h Hidle | h Hp
                    | h before X e k after answer Hp].
  - apply submit_one_in_flight.
    destruct Hinv as [Hp | [Hs _]]; [exact Hp | congruence].
  - left. unfold reset. rewrite advance_pending. exact Hp.
  - destruct Hinv as [Hnil | (Hs & s & n & Hone & Hsettles)].
    + rewrite Hnil in Hp. destruct before; discriminate Hp.
    + rewrite Hone in Hp.
      destruct before as [| b before]; simpl in Hp;
        [| injection Hp as _ Hp; destruct before; discriminate Hp].
      injection Hp as -> <-.
      destruct n as [| n']; simpl in Hsettles;
        specialize (Hsettles answer h);
        destruct (advance clock (k answer) h) as [h1 [s' | o |]]; simpl;
        try contradiction; try (left; reflexivity).
      destruct Hsettles as [Hflag Hrest].
      right. unfold resume, with_pending. simpl.
      split; [congruence |]. exists s', n'. split; [reflexivity | exact Hrest].
Qed.

Lemma guarded_reachable_one_in_flight (h : Hook.t) :
  reachable (guarded_step clock) h -> one_in_flight clock h.
Proof.
  induction 1 as [| h h' _ IH Hstep].
  - left. reflexivity.
  - exact (guarded_step_one_in_flight IH Hstep).
Qed.

(** C2 (as amended): [handleSubmit] does not look at [isSubmitting]; for
    a caller that issues a submit request only while [isSubmitting] is
    false and does not reset a submission in flight, at most one remote
    insert is in flight in every reachable state, and [isSubmitting] is
    true whenever one is. *)
Theorem guarded_submissions_do_not_overlap (h : Hook.t) :
  reachable (guarded_step clock) h ->
  (inserts_in_flight h <= 1)%nat /\
  (Hook.pending h <> [] -> Hook.isSubmitting h = true).
Proof.
  intro Hr. apply guarded_reachable_one_in_flight in Hr.
  unfold inserts_in_flight.
  destruct Hr as [Hnil | (Hs & s & n & Hone & _)].
  - rewrite Hnil. simpl. split; [lia | intro H; contradiction].
  - rewrite Hone. simpl. split; [| intros _; exact Hs].
    destruct (awaits_insert s); simpl; lia.
Qed.

End EventLoopFacts.

Lemma guarded_submissions_do_not_overlap_witness :
  let clock := fun _ : nat => js "2025-02-27T00:00:00.000Z" in
  let h1 := submit clock (Some sampleFirebaseUser) sampleForm initialHook in
  reachable (guarded_step clock) h1 /\
  (inserts_in_flight h1 <= 1)%nat /\
  (Hook.pending h1 <> [] -> Hook.isSubmitting h1 = true).
Proof.
  intros clock h1.
  assert (Hr : reachable (guarded_step clock) h1).
  { apply reach_step with (h := initialHook);
      [apply reach_init | apply guarded_submit; reflexivity]. }
  split; [exact Hr |].
  exact (guarded_submissions_do_not_overlap Hr).
Defined.

Lemma reads_and_updates_are_owner_scoped_witness :
  World.user sampleWorld = Some sampleUser /\
  List.filter (foreign_to (SupabaseUser.id sampleUser))
    (World.rows
       (snd (run world (saveDraft samplePartial (Some (js "row-2"))) sampleWorld))) =
  List.filter (foreign_to (SupabaseUser.id sampleUser)) (World.rows sampleWorld).
Proof.
  split; [reflexivity |].
  exact (proj2 (proj2 (proj2 reads_and_updates_are_owner_scoped
                         sampleWorld sampleUser eq_refl))
           samplePartial 114%N (js "ow-2")).
Defined.

(** ** Examples *)

(** The phone pattern on the two inputs of the specification. *)
Example phone_examples :
  regex_test phonePattern (js "+234802") = true /\
  regex_test phonePattern (js "1234567") = false /\
  regex_test phonePattern (js "+0234802") = false /\
  regex_test phonePattern (js "+1234567890123456") = false.
Proof. repeat split; vm_compute; reflexivity. Qed.

(** The date-of-birth check around the cutoff: on a host at UTC+1 and on
    one at UTC-5; on a host whose offset moved forward between 2007 and
    2025, where the day after the cutoff day passes; and on one whose
    offset moved back, where the cutoff day fails. *)
Example dateOfBirth_examples :
  dateOfBirthRefine (fixedOffset 60) (fun _ => None) (js "2007-02-27") = true /\
  dateOfBirthRefine (fixedOffset 60) (fun _ => None) (js "2007-02-28") = false /\
  dateOfBirthRefine (fixedOffset (-300)) (fun _ => None) (js "2007-02-27") = true /\
  dateOfBirthRefine (fixedOffset (-300)) (fun _ => None) (js "2007-02-28") = false /\
  dateOfBirthRefine zoneLikeApia (fun _ => None) (js "2007-02-28") = true /\
  dateOfBirthRefine zoneLikeApia (fun _ => None) (js "2007-03-01") = false /\
  dateOfBirthRefine zoneLikeMontevideo (fun _ => None) (js "2007-02-26") = true /\
  dateOfBirthRefine zoneLikeMontevideo (fun _ => None) (js "2007-02-27") = false /\
  dateOfBirthRefine (fixedOffset 0) (fun _ => None) (js "not a date") = false.
Proof. repeat split; vm_compute; reflexivity. Qed.

(** Names: a plain name, the empty string, a digit, fifty-one letters. *)
Example name_examples :
  zstring (fun _ => false) firstNameSchema (js "Mary Ann") = [] /\
  zstring (fun _ => false) firstNameSchema (js "") =
    ["First name must be at least 2 characters"%string] /\
  zstring (fun _ => false) firstNameSchema (js "R2") =
    ["First name can only contain letters and spaces"%string] /\
  zstring (fun _ => false) firstNameSchema (List.repeat 97%N 51) =
    ["First name must not exceed 50 characters"%string].
Proof. repeat split; vm_compute; reflexivity. Qed.

(** The sample user cannot read the row of the other user: the query
    finds no row and the call is rejected. *)
Example getApplicationById_foreign_row :
  outcome_of world (getApplicationById (js "row-2")) sampleWorld =
    Rejected (ErrorObj (PostgrestError.message not_single)) /\
  outcome_of world (getApplicationById (js "row-1")) sampleWorld =
    Returned (Row.mk (js "row-1") (sampleColumns (js "u1"))).
Proof. split; vm_compute; reflexivity. Qed.

(** A draft saved without an id and saved again with the id returned:
    the table gains one row, not two. *)
Example saveDraft_twice :
  let w0 := World.mk (Some sampleUser) [] [] 0 0 in
  let '(_, o1, w1) := run world (saveDraft samplePartial None) w0 in
  match o1 with
  | Returned r1 =>
      let '(_, o2, w2) :=
        run world (saveDraft samplePartial (Some (DraftResult.draftId r1))) w1 in
      o2 = Returned r1 /\
      List.length (World.rows w1) = 1%nat /\
      List.length (World.rows w2) = 1%nat
  | Rejected _ => False
  end.
Proof. vm_compute. repeat split. Qed.

(** [submitApplication] has no branch on the error code: a unique
    violation is reported with the message of the store, like any other
    error reply. *)
Example submitApplication_duplicate_is_generic :
  outcome_of (scripted rejecting) (submitApplication sampleForm) tt =
  Returned (SubmissionResult.mk false (PostgrestError.message duplicateKey) None).
Proof. vm_compute. reflexivity. Qed.

(** * Further properties *)

(** ** Patterns *)

Lemma lang_seq (a b : regex) (s : jsstring) :
  lang (RSeq a b) s <-> exists s1 s2, s = s1 ++ s2 /\ lang a s1 /\ lang b s2.
Proof.
  split.
  - intro H. inv H. eexists _, _. repeat split; assumption.
  - intros (s1 & s2 & -> & H1 & H2). constructor; assumption.
Qed.

Lemma lang_cls (p : codeunit -> bool) (s : jsstring) :
  lang (RCls p) s <-> exists c, s = [c] /\ p c = true.
Proof.
  split.
  - intro H. inv H. eexists. split; [reflexivity | assumption].
  - intros (c & -> & H). constructor. exact H.
Qed.

Lemma lang_eps (s : jsstring) : lang REps s <-> s = [].
Proof.
  split.
  - intro H. inv H. reflexivity.
  - intros ->. constructor.
Qed.

Lemma lang_alt (a b : regex) (s : jsstring) :
  lang (RAlt a b) s <-> lang a s \/ lang b s.
Proof.
  split.
  - intro H. inv H; [left | right]; assumption.
  - intros [H | H]; [apply L_alt_l | apply L_alt_r]; exact H.
Qed.

Lemma lang_times_cls (p : codeunit -> bool) (n : nat) (s : jsstring) :
  lang (RTimes n (RCls p)) s <-> List.length s = n /\ forallb p s = true.
Proof.
  revert s. induction n as [| n IH]; intro s; simpl.
  - rewrite lang_eps. split.
    + intros ->. split; reflexivity.
    + intros [H _]. destruct s; [reflexivity | discriminate H].
  - rewrite lang_seq. split.
    + intros (s1 & s2 & -> & H1 & H2).
      apply lang_cls in H1 as (c & -> & Hc). apply IH in H2 as [Hl Hp].
      simpl. rewrite Hc, Hp, Hl. split; reflexivity.
    + intros [Hl Hp]. destruct s as [| c s]; [discriminate Hl |].
      simpl in Hl, Hp. apply andb_true_iff in Hp as [Hc Hp].
      exists [c], s. repeat split.
      * apply lang_cls. exists c. split; [reflexivity | exact Hc].
      * apply IH. split; [lia | exact Hp].
Qed.

Lemma lang_upto_cls (p : codeunit -> bool) (n : nat) (s : jsstring) :
  lang (RUpTo n (RCls p)) s <-> (List.length s <= n)%nat /\ forallb p s = true.
Proof.
  revert s. induction n as [| n IH]; intro s; simpl.
  - rewrite lang_eps. split.
    + intros ->. split; [simpl; lia | reflexivity].
    + intros [H _]. destruct s; [reflexivity | simpl in H; lia].
  - rewrite lang_alt, lang_eps, lang_seq. split.
    + intros [-> | (s1 & s2 & -> & H1 & H2)].
      * split; [simpl; lia | reflexivity].
      * apply lang_cls in H1 as (c & -> & Hc). apply IH in H2 as [Hl Hp].
        simpl. rewrite Hc, Hp. split; [lia | reflexivity].
    + intros [Hl Hp]. destruct s as [| c s]; [left; reflexivity |].
      right. simpl in Hl, Hp. apply andb_true_iff in Hp as [Hc Hp].
      exists [c], s. repeat split.
      * apply lang_cls. exists c. split; [reflexivity | exact Hc].
      * apply IH. split; [lia | exact Hp].
Qed.

Lemma lang_range_cls (p : codeunit -> bool) (lo hi : nat) (s : jsstring) :
  (lo <= hi)%nat ->
  (lang (RRange lo hi (RCls p)) s <->
   (lo <= List.length s <= hi)%nat /\ forallb p s = true).
Proof.
  intro Hle. unfold RRange. rewrite lang_seq. split.
  - intros (s1 & s2 & -> & H1 & H2).
    apply lang_times_cls in H1 as [Hl1 Hp1].
    apply lang_upto_cls in H2 as [Hl2 Hp2].
    rewrite length_app, forallb_app, Hp1, Hp2. split; [lia | reflexivity].
  - intros [Hl Hp]. exists (firstn lo s), (skipn lo s).
    rewrite <- (firstn_skipn lo s) in Hp. rewrite forallb_app in Hp.
    apply andb_true_iff in Hp as [Hp1 Hp2].
    split; [symmetry; apply firstn_skipn |]. split.
    + apply lang_times_cls. split; [| exact Hp1].
      rewrite length_firstn. lia.
    + apply lang_upto_cls. split; [| exact Hp2].
      rewrite length_skipn. lia.
Qed.

Lemma lang_plus_cls (p : codeunit -> bool) (s : jsstring) :
  lang (RPlus (RCls p)) s <-> s <> [] /\ forallb p s = true.
Proof.
  unfold RPlus. rewrite lang_seq. split.
  - intros (s1 & s2 & -> & H1 & H2).
    apply lang_cls in H1 as (c & -> & Hc). apply lang_star_cls in H2.
    simpl. rewrite Hc, H2. split; [discriminate | reflexivity].
  - intros [Hne Hp]. destruct s as [| c s]; [contradiction |].
    simpl in Hp. apply andb_true_iff in Hp as [Hc Hp].
    exists [c], s. repeat split.
    + apply lang_cls. exists c. split; [reflexivity | exact Hc].
    + apply lang_star_cls. exact Hp.
Qed.

Lemma is_char_eq (a : ascii) (c : codeunit) :
  is_char a c = true <-> c = N_of_ascii a.
Proof. unfold is_char. apply N.eqb_eq. Qed.

Lemma phonePattern_shape (s : jsstring) :
  regex_test phonePattern s = true <-> phone_shape s.
Proof.
  unfold regex_test, phonePattern, phone_shape. rewrite matches_lang, lang_seq.
  split.
  - intros (s1 & s2 & -> & H1 & H2).
    apply lang_cls in H1 as (c & -> & Hc). apply is_char_eq in Hc. subst c.
    apply lang_seq in H2 as (s3 & s4 & -> & H3 & H4).
    apply lang_cls in H3 as (d & -> & Hd).
    apply lang_range_cls in H4 as [Hl Hp]; [| lia].
    exists d, s4. repeat split; try assumption; try reflexivity; apply Hl.
  - intros (d & rest & -> & Hd & Hp & Hl).
    exists [N_of_ascii "+"], (d :: rest). repeat split.
    + apply lang_cls. eexists. split; [reflexivity | reflexivity].
    + apply lang_seq. exists [d], rest. repeat split.
      * apply lang_cls. exists d. split; [reflexivity | exact Hd].
      * apply lang_range_cls; [lia |]. split; assumption.
Qed.

(** X1: the phone pattern of the schemas accepts exactly a plus sign,
    a digit from 1 to 9 and then between one and fourteen digits. *)
Theorem phone_pattern_accepts_iff (s : jsstring) :
  regex_test phonePattern s = true <-> phone_shape s.
Proof. exact (phonePattern_shape s). Qed.

Lemma yearRegex_shape (s : jsstring) :
  regex_test yearRegex s = true <->
  List.length s = 4%nat /\ forallb is_digit s = true.
Proof.
  unfold regex_test, yearRegex. rewrite matches_lang. apply lang_times_cls.
Qed.

(** X2: the certificate-year pattern accepts exactly the strings of four
    digits. *)
Theorem year_pattern_accepts_iff (s : jsstring) :
  regex_test yearRegex s = true <->
  List.length s = 4%nat /\ forallb is_digit s = true.
Proof. exact (yearRegex_shape s). Qed.

Lemma emailRegex_shape (s : jsstring) :
  regex_test emailRegex s = true <->
  exists a b c,
    s = a ++ N_of_ascii "@" :: b ++ N_of_ascii "." :: c /\
    a <> [] /\ b <> [] /\ c <> [] /\
    forallb email_part a = true /\ forallb email_part b = true /\
    forallb email_part c = true.
Proof.
  unfold regex_test, emailRegex. rewrite matches_lang, lang_seq. split.
  - intros (a & s2 & -> & Ha & H2).
    apply lang_plus_cls in Ha as [Hane Ha].
    apply lang_seq in H2 as (x & s3 & -> & Hx & H3).
    apply lang_cls in Hx as (cx & -> & Hx). apply is_char_eq in Hx. subst cx.
    apply lang_seq in H3 as (b & s4 & -> & Hb & H4).
    apply lang_plus_cls in Hb as [Hbne Hb].
    apply lang_seq in H4 as (y & c & -> & Hy & Hc).
    apply lang_cls in Hy as (cy & -> & Hy). apply is_char_eq in Hy. subst cy.
    apply lang_plus_cls in Hc as [Hcne Hc].
    exists a, b, c. repeat split; assumption.
  - intros (a & b & c & -> & Hane & Hbne & Hcne & Ha & Hb & Hc).
    exists a, (N_of_ascii "@" :: b ++ N_of_ascii "." :: c). repeat split.
    + apply lang_plus_cls. split; assumption.
    + apply lang_seq. exists [N_of_ascii "@"], (b ++ N_of_ascii "." :: c).
      repeat split.
      * apply lang_cls. eexists. split; reflexivity.
      * apply lang_seq. exists b, (N_of_ascii "." :: c). repeat split.
        -- apply lang_plus_cls. split; assumption.
        -- apply lang_seq. exists [N_of_ascii "."], c. repeat split.
           ++ apply lang_cls. eexists. split; reflexivity.
           ++ apply lang_plus_cls. split; assumption.
Qed.

(** X3: the email pattern of [submitApplicationForm] accepts exactly
    the strings [local@domain.tail] whose three parts are non-empty and
    hold neither white space nor an at sign. *)
Theorem email_regex_accepts_iff (s : jsstring) :
  regex_test emailRegex s = true <->
  exists a b c,
    s = a ++ N_of_ascii "@" :: b ++ N_of_ascii "." :: c /\
    a <> [] /\ b <> [] /\ c <> [] /\
    forallb email_part a = true /\ forallb email_part b = true /\
    forallb email_part c = true.
Proof. exact (emailRegex_shape s). Qed.

Lemma phoneRegex_shape (s : jsstring) :
  regex_test phoneRegex s = true <-> s <> [] /\ forallb phone_char s = true.
Proof.
  unfold regex_test, phoneRegex. rewrite matches_lang. apply lang_plus_cls.
Qed.

(** X4: the phone pattern of [submitApplicationForm] accepts exactly the
    non-empty strings of digits and plus signs. *)
Theorem simple_phone_accepts_iff (s : jsstring) :
  regex_test phoneRegex s = true <-> s <> [] /\ forallb phone_char s = true.
Proof. exact (phoneRegex_shape s). Qed.

(** ** Sanitization *)

Lemma trimStart_clean (s : jsstring) : starts_clean s -> trimStart s = s.
Proof.
  destruct s as [| c s]; simpl; [reflexivity |]. intros ->. reflexivity.
Qed.

Lemma trim_clean (s : jsstring) :
  starts_clean s -> starts_clean (rev s) -> trim s = s.
Proof.
  intros H1 H2. unfold trim, trimEnd.
  rewrite (trimStart_clean s H1), (trimStart_clean (rev s) H2).
  apply rev_involutive.
Qed.

Lemma trim_idempotent (s : jsstring) : trim (trim s) = trim s.
Proof.
  destruct (trim_spec s) as (pre & post & _ & _ & _ & H1 & H2).
  apply trim_clean; assumption.
Qed.

Lemma starts_clean_forallb (s : jsstring) :
  forallb (fun c => negb (is_js_whitespace c)) s = true -> starts_clean s.
Proof.
  destruct s as [| c s]; simpl; [intros _; exact I |].
  intro H. apply andb_true_iff in H as [H _]. apply negb_true_iff. exact H.
Qed.

Lemma trim_without_whitespace (s : jsstring) :
  forallb (fun c => negb (is_js_whitespace c)) s = true -> trim s = s.
Proof.
  intro H. apply trim_clean; apply starts_clean_forallb;
    [| rewrite forallb_rev]; exact H.
Qed.

Lemma email_part_clean (c : codeunit) :
  email_part c = true -> negb (is_js_whitespace c) = true.
Proof.
  unfold email_part. rewrite !negb_true_iff, orb_false_iff. tauto.
Qed.

Lemma phone_char_clean (c : codeunit) :
  phone_char c = true -> negb (is_js_whitespace c) = true.
Proof.
  unfold phone_char, is_digit, is_char, in_range. intro H.
  assert (Hc : (48 <= c <= 57)%N \/ c = 43%N).
  { apply orb_true_iff in H as [H | H].
    - apply andb_true_iff in H as [H1 H2].
      apply N.leb_le in H1, H2. left. lia.
    - apply N.eqb_eq in H. right. exact H. }
  apply negb_true_iff. unfold is_js_whitespace, existsb, in_range.
  repeat match goal with
         | |- context [N.eqb c ?k] =>
             replace (N.eqb c k) with false by (symmetry; apply N.eqb_neq; lia)
         end.
  replace (N.leb 8192 c) with false by (symmetry; apply N.leb_gt; lia).
  reflexivity.
Qed.

Lemma forallb_impl {A : Type} (f g : A -> bool) (l : list A) :
  (forall x, f x = true -> g x = true) ->
  forallb f l = true -> forallb g l = true.
Proof.
  intros Hfg. rewrite !forallb_forall. intros H x Hx. apply Hfg, H, Hx.
Qed.

Section Sanitization.

Variable toLowerCase : jsstring -> jsstring.

(** X5: an email and a phone that pass the checks of
    [submitApplicationForm] hold no white space, so trimming leaves them
    as they are: the inserted email is the lower-cased input and the
    inserted phone is the input. *)
Theorem checked_email_and_phone_are_not_trimmed
    (formData : ApplicationFormData.t) :
  passesChecks formData ->
  let p := ApplicationFormData.personalInfo formData in
  SanitizedPersonalInfo.email (sanitize toLowerCase p) =
    toLowerCase (PersonalInfo.email p) /\
  SanitizedPersonalInfo.phone (sanitize toLowerCase p) = PersonalInfo.phone p.
Proof.
  intros (_ & He & Hp) p. unfold sanitize. simpl. fold p in He, Hp. split.
  - f_equal. apply trim_without_whitespace.
    apply emailRegex_shape in He
      as (a & b & c & -> & _ & _ & _ & Ha & Hb & Hc).
    rewrite forallb_app. simpl. rewrite forallb_app. simpl.
    rewrite (forallb_impl _ _ a email_part_clean Ha).
    rewrite (forallb_impl _ _ b email_part_clean Hb).
    rewrite (forallb_impl _ _ c email_part_clean Hc).
    reflexivity.
  - apply trim_without_whitespace.
    apply phoneRegex_shape in Hp as [_ Hp].
    exact (forallb_impl _ _ _ phone_char_clean Hp).
Qed.

(** X6: an input that fails one of the three checks of
    [submitApplicationForm] is answered with a validation-error result
    at once: no call is made, whatever the environment. *)
Theorem failed_checks_make_no_call (formData : ApplicationFormData.t)
    (S : Type) (h : handler S) (s : S) :
  ~ passesChecks formData ->
  exists m,
    run h (submitApplicationForm toLowerCase formData) s =
    ([], Returned (validationError m), s) /\
    ApplicationResponse.success (validationError m) = false.
Proof.
  intro Hn. unfold passesChecks in Hn. unfold submitApplicationForm.
  destruct (missingRequired (ApplicationFormData.personalInfo formData)) eqn:H1;
    [eexists; split; reflexivity |].
  destruct (regex_test emailRegex
              (PersonalInfo.email (ApplicationFormData.personalInfo formData)))
    eqn:H2; [| eexists; split; reflexivity].
  destruct (regex_test phoneRegex
              (PersonalInfo.phone (ApplicationFormData.personalInfo formData)))
    eqn:H3; [| eexists; split; reflexivity].
  exfalso. apply Hn. repeat split.
Qed.

(** X7: [submitApplicationForm] never rejects: every call returns a
    result, and the result is a success only when the one call made was
    the insert and the store answered it with an id, which the result
    carries. *)
Theorem submitApplicationForm_always_returns (formData : ApplicationFormData.t)
    (S : Type) (h : handler S) (s : S) :
  exists r,
    outcome_of h (submitApplicationForm toLowerCase formData) s = Returned r /\
    (ApplicationResponse.success r = true ->
     exists doc id,
       trace_of h (submitApplicationForm toLowerCase formData) s =
         [Call (Insert applications (FormDoc doc)) (inr (Data id))] /\
       ApplicationResponse.applicationId r = Some id).
Proof.
  unfold outcome_of, trace_of, submitApplicationForm.
  destruct (missingRequired (ApplicationFormData.personalInfo formData));
    [eexists; split; [reflexivity | discriminate] |].
  destruct (regex_test emailRegex _);
    [| eexists; split; [reflexivity | discriminate]].
  destruct (regex_test phoneRegex _);
    [| eexists; split; [reflexivity | discriminate]].
  simpl. ask_as h answer.
  destruct answer as [err | [id | e]]; simpl.
  - ask h. eexists. split; [reflexivity | discriminate].
  - eexists. split; [reflexivity |]. intros _. eexists _, _. split; reflexivity.
  - ask h. destruct (str_eqb (PostgrestError.code e) (js "23505")); simpl;
      eexists; (split; [reflexivity | discriminate]).
Qed.

End Sanitization.

Lemma checked_email_and_phone_are_not_trimmed_witness :
  passesChecks sampleForm /\
  SanitizedPersonalInfo.email
    (sanitize asciiLower (ApplicationFormData.personalInfo sampleForm)) =
    asciiLower (PersonalInfo.email (ApplicationFormData.personalInfo sampleForm)) /\
  SanitizedPersonalInfo.phone
    (sanitize asciiLower (ApplicationFormData.personalInfo sampleForm)) =
    PersonalInfo.phone (ApplicationFormData.personalInfo sampleForm).
Proof.
  split; [exact sampleForm_passesChecks |].
  exact (checked_email_and_phone_are_not_trimmed asciiLower
           sampleForm_passesChecks).
Defined.

Lemma sampleFormBadEmail_fails : ~ passesChecks sampleFormBadEmail.
Proof. intros (_ & H & _). vm_compute in H. discriminate H. Qed.

Lemma failed_checks_make_no_call_witness :
  ~ passesChecks sampleFormBadEmail /\
  exists m,
    run (scripted accepting) (submitApplicationForm asciiLower sampleFormBadEmail)
      tt =
    ([], Returned (validationError m), tt) /\
    ApplicationResponse.success (validationError m) = false.
Proof.
  split; [exact sampleFormBadEmail_fails |].
  exact (failed_checks_make_no_call asciiLower (scripted accepting) tt
           sampleFormBadEmail_fails).
Defined.

(** ** Results, notifications and the flag *)

(** X8: [submitApplication] never rejects and shows exactly one toast
    per call: the success toast when the result is a success, otherwise
    the error toast with the message of the result. *)
Theorem submitApplication_returns_with_one_toast
    (formData : ApplicationFormData.t) (S : Type) (h : handler S) (s : S) :
  exists r,
    outcome_of h (submitApplication formData) s = Returned r /\
    List.filter is_toast (trace_of h (submitApplication formData) s) =
      [if SubmissionResult.success r
       then Call (ToastSuccess (js "Application submitted successfully!")) tt
       else Call (ToastError (SubmissionResult.message r)) tt].
Proof.
  unfold outcome_of, trace_of, submitApplication. simpl.
  ask_as h user. destruct user as [user |]; simpl.
  - ask h. ask h. ask_as h answer.
    destruct answer as [err | [id | e]]; simpl.
    + ask h. ask_as h u. destruct u. eexists. split; reflexivity.
    + ask_as h u. destruct u. eexists. split; reflexivity.
    + ask h. ask h. ask_as h u. destruct u. eexists. split; reflexivity.
  - ask h. ask_as h u. destruct u. eexists. split; reflexivity.
Qed.

(** X9: with a user present, [handleSubmit] never rejects.  The call
    first sets [isSubmitting] and clears the error, last of all clears
    [isSubmitting], and in between shows exactly one toast; when the
    result is a failure the error state is set to an [Error] with the
    message of the result. *)
Theorem handleSubmit_with_user_always_returns (user : FirebaseUser.t)
    (formData : ApplicationFormData.t) (S : Type) (h : handler S) (s : S) :
  exists r middle,
    outcome_of h (handleSubmit (Some user) formData) s = Returned r /\
    trace_of h (handleSubmit (Some user) formData) s =
      Call (SetIsSubmitting true) tt :: Call (SetError None) tt ::
      middle ++ [Call (SetIsSubmitting false) tt] /\
    List.filter is_toast middle =
      [if SubmissionResult.success r
       then Call (ToastSuccess (js "Application submitted successfully!")) tt
       else Call (ToastError (SubmissionResult.message r)) tt] /\
    (SubmissionResult.success r = false ->
     In (Call (SetError (Some (ErrorObj (SubmissionResult.message r)))) tt)
        middle).
Proof.
  unfold outcome_of, trace_of, handleSubmit. simpl.
  ask_as h u1. destruct u1. ask_as h u2. destruct u2. ask h. ask h.
  ask_as h answer. destruct answer as [err | id]; simpl.
  - ask h. ask_as h u3. destruct u3. ask_as h u4. destruct u4.
    ask_as h u5. destruct u5. simpl.
    eexists _, [_; _; _; _; _; _]. simpl.
    split; [reflexivity |]. split; [reflexivity |]. split; [reflexivity |].
    intros _. do 5 right. left. reflexivity.
  - ask_as h answer2. destruct answer2 as [err | id2]; simpl.
    + ask h. ask_as h u3. destruct u3. ask_as h u4. destruct u4.
      ask_as h u5. destruct u5. simpl.
      eexists _, [_; _; _; _; _; _; _]. simpl.
      split; [reflexivity |]. split; [reflexivity |]. split; [reflexivity |].
      intros _. do 6 right. left. reflexivity.
    + ask_as h u3. destruct u3. ask_as h u4. destruct u4. simpl.
      eexists _, [_; _; _; _; _]. simpl.
      split; [reflexivity |]. split; [reflexivity |]. split; [reflexivity |].
      discriminate.
Qed.

(** X10: with nobody signed in, [saveDraft], [getUserApplications] and
    [getApplicationById] make no store call and reject with their
    not-signed-in errors. *)
Theorem reads_and_drafts_without_user_reject (S : Type) (h : handler S) (s : S) :
  fst (h _ GetUser s) = None ->
  (forall formData draftId,
      List.filter is_store_call (trace_of h (saveDraft formData draftId) s) = [] /\
      outcome_of h (saveDraft formData draftId) s =
        Rejected (ErrorObj (js "You must be signed in to save a draft"))) /\
  (List.filter is_store_call (trace_of h getUserApplications s) = [] /\
   outcome_of h getUserApplications s =
     Rejected (ErrorObj (js "You must be signed in to view applications"))) /\
  (forall applicationId,
      List.filter is_store_call
        (trace_of h (getApplicationById applicationId) s) = [] /\
      outcome_of h (getApplicationById applicationId) s =
        Rejected (ErrorObj (js "You must be signed in to view applications"))).
Proof.
  intro Hu.
  assert (Hget : exists s1, h _ GetUser s = (None, s1)).
  { destruct (h _ GetUser s) as [u s1]. simpl in Hu. subst u. exists s1. reflexivity. }
  destruct Hget as [s1 Hget].
  split; [| split].
  - intros formData draftId.
    unfold trace_of, outcome_of, saveDraft. simpl. rewrite Hget. simpl.
    ask h. split; reflexivity.
  - unfold trace_of, outcome_of, getUserApplications. simpl. rewrite Hget. simpl.
    ask h. split; reflexivity.
  - intro applicationId.
    unfold trace_of, outcome_of, getApplicationById. simpl. rewrite Hget. simpl.
    ask h. split; reflexivity.
Qed.

Lemma reads_and_drafts_without_user_reject_witness :
  fst ((scripted signedOut : handler unit) _ GetUser tt) = None /\
  List.filter is_store_call
    (trace_of (scripted signedOut) (saveDraft samplePartial None) tt) = [] /\
  outcome_of (scripted signedOut) (saveDraft samplePartial None) tt =
    Rejected (ErrorObj (js "You must be signed in to save a draft")).
Proof.
  split; [reflexivity |].
  exact (proj1 (reads_and_drafts_without_user_reject (scripted signedOut) tt
                  eq_refl) samplePartial None).
Defined.

(** X11: with a user present, [saveDraft] makes one store call and its
    outcome follows the answer: an id gives the result with [success]
    true and that id, an error reply is rejected as an [Error] with the
    message of the reply, and a rejected call is rethrown as it is.  A
    result with [success] false is never returned. *)
Theorem saveDraft_outcome_follows_the_store (formData : PartialFormData.t)
    (draftId : option jsstring) (S : Type) (h : handler S) (s : S)
    (user : SupabaseUser.t) :
  fst (h _ GetUser s) = Some user ->
  (exists (e : eff (thrown + reply jsstring)) answer,
      List.filter is_store_call (trace_of h (saveDraft formData draftId) s) =
        [Call e answer] /\
      outcome_of h (saveDraft formData draftId) s =
        match answer with
        | inr (Data id) => Returned (DraftResult.mk true id)
        | inr (Error error) => Rejected (ErrorObj (PostgrestError.message error))
        | inl err => Rejected err
        end) /\
  (forall r, outcome_of h (saveDraft formData draftId) s = Returned r ->
             DraftResult.success r = true).
Proof.
  intro Hu.
  assert (Hget : exists s1, h _ GetUser s = (Some user, s1)).
  { destruct (h _ GetUser s) as [u s1]. simpl in Hu. subst u. exists s1. reflexivity. }
  destruct Hget as [s1 Hget].
  unfold trace_of, outcome_of, saveDraft. simpl. rewrite Hget. simpl.
  ask h.
  destruct draftId as [[| c d] |]; simpl; [ask h | | ask h];
    ask_as h answer; destruct answer as [err | [id | e]]; simpl;
    try ask h; simpl;
    (split; [eexists _, _; split; reflexivity |]);
    intros r Hr; try discriminate Hr; injection Hr as <-; reflexivity.
Qed.

Lemma saveDraft_outcome_follows_the_store_witness :
  fst ((scripted rejecting : handler unit) _ GetUser tt) = Some sampleUser /\
  forall r,
    outcome_of (scripted rejecting) (saveDraft samplePartial None) tt = Returned r ->
    DraftResult.success r = true.
Proof.
  split; [reflexivity |].
  exact (proj2 (saveDraft_outcome_follows_the_store samplePartial None
                  (scripted rejecting) tt (user := sampleUser) eq_refl)).
Defined.

(** X12: with a user present, the two reads make one store call and
    their outcome follows the answer: the rows or the row answered are
    returned as they are, an error reply is rejected as an [Error] with
    the message of the reply, and a rejected call is rethrown. *)
Theorem reads_outcome_follows_the_store (S : Type) (h : handler S) (s : S)
    (user : SupabaseUser.t) :
  fst (h _ GetUser s) = Some user ->
  (exists (e : eff (thrown + reply (list Row.t))) answer,
      List.filter is_store_call (trace_of h getUserApplications s) =
        [Call e answer] /\
      outcome_of h getUserApplications s =
        match answer with
        | inr (Data rows) => Returned rows
        | inr (Error error) => Rejected (ErrorObj (PostgrestError.message error))
        | inl err => Rejected err
        end) /\
  (forall applicationId,
      exists (e : eff (thrown + reply Row.t)) answer,
        List.filter is_store_call
          (trace_of h (getApplicationById applicationId) s) = [Call e answer] /\
        outcome_of h (getApplicationById applicationId) s =
          match answer with
          | inr (Data row) => Returned row
          | inr (Error error) => Rejected (ErrorObj (PostgrestError.message error))
          | inl err => Rejected err
          end).
Proof.
  intro Hu.
  assert (Hget : exists s1, h _ GetUser s = (Some user, s1)).
  { destruct (h _ GetUser s) as [u s1]. simpl in Hu. subst u. exists s1. reflexivity. }
  destruct Hget as [s1 Hget].
  split.
  - unfold trace_of, outcome_of, getUserApplications. simpl. rewrite Hget. simpl.
    ask_as h answer. destruct answer as [err | [rows | e]]; simpl;
      try ask h; simpl; eexists _, _; split; reflexivity.
  - intro applicationId.
    unfold trace_of, outcome_of, getApplicationById. simpl. rewrite Hget. simpl.
    ask_as h answer. destruct answer as [err | [row | e]]; simpl;
      try ask h; simpl; eexists _, _; split; reflexivity.
Qed.

Lemma reads_outcome_follows_the_store_witness :
  fst ((world : handler World.t) _ GetUser sampleWorld) = Some sampleUser /\
  exists (e : eff (thrown + reply Row.t)) answer,
    List.filter is_store_call
      (trace_of world (getApplicationById (js "row-1")) sampleWorld) =
      [Call e answer] /\
    outcome_of world (getApplicationById (js "row-1")) sampleWorld =
      match answer with
      | inr (Data row) => Returned row
      | inr (Error error) => Rejected (ErrorObj (PostgrestError.message error))
      | inl err => Rejected err
      end.
Proof.
  split; [reflexivity |].
  exact (proj2 (reads_outcome_follows_the_store world sampleWorld
                  (user := sampleUser) eq_refl) (js "row-1")).
Defined.

(** ** More on the hook in the event loop *)

Section MoreEventLoopFacts.

Variable clock : nat -> jsstring.

Lemma inserts_in_flight_snoc (h : Hook.t) (l : list (suspended SubmissionResult.t))
    (s : suspended SubmissionResult.t) :
  awaits_insert s = true ->
  inserts_in_flight (with_pending h (l ++ [s])) =
  S (List.length (List.filter awaits_insert l)).
Proof.
  intro Hs. unfold inserts_in_flight, with_pending. simpl.
  rewrite filter_app, length_app. simpl. rewrite Hs. simpl. lia.
Qed.

(** X13: whatever the state of the hook, a submit request with a user
    present sets [isSubmitting], clears the error and puts one more
    remote insert in flight, beside those already pending; with no user
    it changes neither the flag, the error nor the pending calls and the
    caller gets a rejection. *)
Theorem submit_starts_one_more_insert (formData : ApplicationFormData.t)
    (h : Hook.t) :
  (forall user,
      let h' := submit clock (Some user) formData h in
      Hook.isSubmitting h' = true /\
      Hook.error h' = None /\
      inserts_in_flight h' = S (inserts_in_flight h) /\
      Hook.settled h' = Hook.settled h) /\
  (let h' := submit clock None formData h in
   Hook.isSubmitting h' = Hook.isSubmitting h /\
   Hook.error h' = Hook.error h /\
   Hook.pending h' = Hook.pending h /\
   Hook.settled h' =
     Hook.settled h ++ [Rejected (ErrorObj notSignedInSubmit)]).
Proof.
  split.
  - intros user h'. subst h'. unfold submit. simpl.
    repeat split.
    apply (inserts_in_flight_snoc _ (Hook.pending h)). reflexivity.
  - simpl. repeat split.
Qed.

(** X14: [resetForm] clears the flag and the error but cancels nothing:
    the calls pending stay pending, so a submit made after a reset in
    mid-flight puts a second insert in flight although the flag read
    false. *)
Theorem reset_does_not_cancel (h : Hook.t) :
  Hook.isSubmitting (reset clock h) = false /\
  Hook.error (reset clock h) = None /\
  Hook.pending (reset clock h) = Hook.pending h /\
  Hook.settled (reset clock h) = Hook.settled h /\
  forall user1 form1 user2 form2,
    let h1 := reset clock (submit clock (Some user1) form1 h) in
    Hook.isSubmitting h1 = false /\
    inserts_in_flight (submit clock (Some user2) form2 h1) =
      S (S (inserts_in_flight h)).
Proof.
  repeat split.
  unfold submit, reset. simpl.
  rewrite (inserts_in_flight_snoc _ (Hook.pending h ++ [_])) by reflexivity.
  rewrite filter_app, length_app. simpl. unfold inserts_in_flight. lia.
Qed.

Lemma submit_flag_tracks (user : option FirebaseUser.t)
    (formData : ApplicationFormData.t) (h : Hook.t) :
  Hook.pending h = [] -> Hook.isSubmitting h = false ->
  flag_tracks_flight clock (submit clock user formData h).
Proof.
  intros Hp Hf. unfold submit. destruct user as [user |]; simpl.
  - right. rewrite Hp. simpl. split; [reflexivity |].
    eexists _, 1%nat. split; [reflexivity |].
    simpl. intros [err | id] h0; simpl; [reflexivity |].
    split; [reflexivity |].
    intros [err | id2] h1; reflexivity.
  - left. split; assumption.
Qed.

Lemma guarded_step_flag_tracks (h h' : Hook.t) :
  flag_tracks_flight clock h -> guarded_step clock h h' ->
  flag_tracks_flight clock h'.
Proof.
  intros Hinv Hstep.
  destruct Hstep as [user formData h Hidle | h Hp
                    | h before X e k after answer Hp].
  - destruct Hinv as [[Hp Hf] | [Hs _]]; [| congruence].
    apply submit_flag_tracks; assumption.
  - left. unfold reset. split.
    + rewrite advance_pending. exact Hp.
    + reflexivity.
  - destruct Hinv as [[Hnil _] | (Hs & s & n & Hone & Hsettles)].
    + rewrite Hnil in Hp. destruct before; discriminate Hp.
    + rewrite Hone in Hp.
      destruct before as [| b before]; simpl in Hp;
        [| injection Hp as _ Hp; destruct before; discriminate Hp].
      injection Hp as -> <-.
      destruct n as [| n']; simpl in Hsettles;
        specialize (Hsettles answer h);
        destruct (advance clock (k answer) h) as [h1 [s' | o |]]; simpl;
        try contradiction; try (left; split; [reflexivity | exact Hsettles]).
      destruct Hsettles as [Hflag Hrest].
      right. unfold resume, with_pending. simpl.
      split; [congruence |]. exists s', n'. split; [reflexivity | exact Hrest].
Qed.

(** X15: for a caller that submits only while [isSubmitting] is false
    and does not reset a submission in flight, the flag is true exactly
    while a call is pending: it is never left set after the submission
    has settled. *)
Theorem flag_is_set_exactly_in_flight (h : Hook.t) :
  reachable (guarded_step clock) h ->
  (Hook.isSubmitting h = true <-> Hook.pending h <> []).
Proof.
  intro Hr.
  assert (Hinv : flag_tracks_flight clock h).
  { induction Hr as [| h h' _ IH Hstep].
    - left. split; reflexivity.
    - exact (guarded_step_flag_tracks IH Hstep). }
  destruct Hinv as [[Hp Hf] | (Hs & s & n & Hone & _)].
  - rewrite Hp, Hf. split; [discriminate | intro H; contradiction].
  - rewrite Hs, Hone. split; [intros _; discriminate | reflexivity].
Qed.

End MoreEventLoopFacts.

Lemma flag_is_set_exactly_in_flight_witness :
  let clock := fun _ : nat => js "2025-02-27T00:00:00.000Z" in
  let h1 := submit clock (Some sampleFirebaseUser) sampleForm initialHook in
  reachable (guarded_step clock) h1 /\
  (Hook.isSubmitting h1 = true <-> Hook.pending h1 <> []).
Proof.
  intros clock h1.
  assert (Hr : reachable (guarded_step clock) h1).
  { apply reach_step with (h := initialHook);
      [apply reach_init | apply guarded_submit; reflexivity]. }
  split; [exact Hr |].
  exact (flag_is_set_exactly_in_flight Hr).
Defined.

(** ** The section schemas *)

Lemma length_nonempty (s : jsstring) : (1 <= List.length s)%nat <-> s <> [].
Proof. destruct s; simpl; split; intro H; try congruence; try lia. Qed.

Lemma zstring_accepts (isEmail : jsstring -> bool) (checks : list string_check)
    (s : jsstring) :
  zstring isEmail checks s = [] <->
  forallb (fun c => check_ok isEmail c s) checks = true.
Proof.
  unfold zstring. induction checks as [| c checks IH]; simpl.
  - split; reflexivity.
  - destruct (check_ok isEmail c s); simpl; [exact IH |].
    split; discriminate.
Qed.

Section SectionSchemas.

Variable isEmail : jsstring -> bool.
Variable zone : TimeZone.
Variable parseOther : jsstring -> option Z.
Variable typeMessage : string -> value -> string.
Variable enumMessage : list string -> value -> string.

Lemma zstring_nil_iff (checks : list string_check) (s : jsstring) :
  zstring isEmail checks s = [] <->
  forallb (fun c => check_ok isEmail c s) checks = true.
Proof.
  unfold zstring. induction checks as [| c checks IH]; simpl; [tauto |].
  destruct (check_ok isEmail c s); simpl; [exact IH |].
  split; discriminate.
Qed.

Lemma field_nil_iff (k : string) (msgs : list string) :
  field k msgs = [] <-> msgs = [].
Proof.
  unfold field. destruct msgs; simpl; split; try reflexivity; discriminate.
Qed.

Lemma nested_nil_iff (k : path_elem) (l : list issue) :
  nested k l = [] <-> l = [].
Proof.
  unfold nested. destruct l; simpl; split; try reflexivity; discriminate.
Qed.

Lemma app_nil_iff {A : Type} (l1 l2 : list A) :
  l1 ++ l2 = [] <-> l1 = [] /\ l2 = [].
Proof.
  split; [apply app_eq_nil |]. intros [-> ->]. reflexivity.
Qed.

(** A field whose parsing is aborted aborts the object, and every issue
    of a field is an issue of the object under the key of the field. *)
Lemma zObject_field_aborts (shape : list (string * schema)) (k : string)
    (s : schema) (fields : list (string * value)) :
  In (k, s) shape ->
  aborted (s (lookup k fields)) = true ->
  aborted (zObject typeMessage shape (VObject fields)) = true.
Proof.
  intros Hin Hab. unfold zObject, merge_all.
  induction shape as [| ks shape IH]; [contradiction |].
  cbn [List.map fold_right merge aborted under].
  destruct Hin as [-> | Hin].
  - cbn [fst snd]. rewrite Hab. reflexivity.
  - rewrite (IH Hin). apply orb_true_r.
Qed.

Lemma zObject_field_issue (shape : list (string * schema)) (k : string)
    (s : schema) (fields : list (string * value)) (j : issue) :
  In (k, s) shape ->
  In j (issues (s (lookup k fields))) ->
  In (at_key (Key k) j) (issues (zObject typeMessage shape (VObject fields))).
Proof.
  intros Hin Hj. unfold zObject, merge_all.
  induction shape as [| ks shape IH]; [contradiction |].
  cbn [List.map fold_right merge issues under]. apply in_or_app.
  destruct Hin as [-> | Hin].
  - left. cbn [fst snd]. unfold nested. apply in_map. exact Hj.
  - right. exact (IH Hin).
Qed.

(** A value outside the options of an enumeration that has an error map
    is rejected with the message of the map. *)
Lemma zEnum_outside (options : list string) (m : string) (v : value) :
  (forall o, In o options -> v <> VString (js o)) ->
  zEnum enumMessage options (Some m) v = invalid m.
Proof.
  intro H. destruct v as [| | b | s | l | fields | t]; try reflexivity.
  unfold zEnum. destruct (existsb (str_eqb s) (List.map js options)) eqn:E;
    [| reflexivity].
  exfalso. apply existsb_exists in E as (x & Hx & Hs).
  apply in_map_iff in Hx as (o & <- & Ho). apply str_eqb_eq in Hs.
  apply (H o Ho). rewrite Hs. reflexivity.
Qed.

Ltac in_shape := cbn [In]; repeat (try (left; reflexivity); right).

Ltac outside_options H :=
  apply zEnum_outside; cbn [In]; intros o Ho; split_cases;
  try contradiction; subst o.

Lemma gender_outside (m : string) (v : value) :
  (forall g, v <> encodeGender g) ->
  zEnum enumMessage ["male"; "female"; "other"]%string (Some m) v = invalid m.
Proof.
  intro H. outside_options H;
    [apply (H male) | apply (H female) | apply (H other)].
Qed.

Lemma educationLevel_outside (m : string) (v : value) :
  (forall e, v <> encodeEducationLevel e) ->
  zEnum enumMessage
    ["none"; "primary"; "js"; "jsse"; "ssce"; "tertiary"]%string (Some m) v =
  invalid m.
Proof.
  intro H. outside_options H;
    [apply (H el_none) | apply (H el_primary) | apply (H el_js)
    | apply (H el_jsse) | apply (H el_ssce) | apply (H el_tertiary)].
Qed.

Lemma studyMode_outside (m : string) (v : value) :
  (forall x, v <> encodeStudyMode x) ->
  zEnum enumMessage ["full-time"; "part-time"; "weekend"]%string (Some m) v =
  invalid m.
Proof.
  intro H. outside_options H;
    [apply (H full_time) | apply (H part_time) | apply (H weekend)].
Qed.

Lemma sponsorshipType_outside (m : string) (v : value) :
  (forall x, v <> encodeSponsorshipType x) ->
  zEnum enumMessage ["self"; "organization"; "guardian"]%string (Some m) v =
  invalid m.
Proof.
  intro H. outside_options H;
    [apply (H self) | apply (H organization) | apply (H guardian)].
Qed.

Lemma zBoolean_outside (v : value) :
  (forall b, v <> VBool b) -> aborted (zBoolean typeMessage v) = true.
Proof.
  intro H. destruct v as [| | b | s | l | fields | t]; try reflexivity.
  exfalso. exact (H b eq_refl).
Qed.

Lemma personalInfoSchema_nil_iff (p : PersonalInfo.t) :
  issues (personalInfoSchema isEmail zone parseOther typeMessage enumMessage
            (encodePersonalInfo p)) = [] <->
  ((2 <= List.length (PersonalInfo.firstName p) <= 50)%nat /\
   forallb name_char (PersonalInfo.firstName p) = true) /\
  ((2 <= List.length (PersonalInfo.lastName p) <= 50)%nat /\
   forallb name_char (PersonalInfo.lastName p) = true) /\
  isEmail (PersonalInfo.email p) = true /\
  phone_shape (PersonalInfo.phone p) /\
  dateOfBirthRefine zone parseOther (PersonalInfo.dateOfBirth p) = true /\
  (10 <= List.length (PersonalInfo.address p) <= 200)%nat /\
  (2 <= List.length (PersonalInfo.nationality p))%nat /\
  (2 <= List.length (PersonalInfo.stateOfOrigin p))%nat.
Proof.
  rewrite personalInfo_parsed. cbn [issues].
  rewrite !app_nil_iff, !field_nil_iff.
  unfold firstNameSchema, lastNameSchema.
  rewrite !name_schema_accepts.
  rewrite !zstring_accepts. unfold dateOfBirthSchema.
  cbn [forallb check_ok andb].
  rewrite ?andb_true_r, ?andb_true_iff, ?Nat.leb_le.
  rewrite phonePattern_shape. tauto.
Qed.

(** X16: parsing a personal-information record of the inferred type
    (gender one of the three values, disability flag a boolean) is never
    aborted, and it raises no issue exactly when both names have 2 to 50
    characters, all letters or white space, the email has the shape zod
    asks for, the phone is a plus sign, a digit from 1 to 9 and 1 to 14
    more digits, the date of birth passes the age check, the address has
    10 to 200 characters and nationality and state of origin have at
    least 2.  On any object whose gender is not one of the three values
    parsing is aborted with the issue [Please select your gender] at
    [gender]; it is aborted as well when the disability flag is not a
    boolean. *)
Theorem personalInfo_valid_iff :
  (forall p : PersonalInfo.t,
      aborted (personalInfoSchema isEmail zone parseOther typeMessage enumMessage
                 (encodePersonalInfo p)) = false /\
      (issues (personalInfoSchema isEmail zone parseOther typeMessage enumMessage
                 (encodePersonalInfo p)) = [] <->
       ((2 <= List.length (PersonalInfo.firstName p) <= 50)%nat /\
        forallb name_char (PersonalInfo.firstName p) = true) /\
       ((2 <= List.length (PersonalInfo.lastName p) <= 50)%nat /\
        forallb name_char (PersonalInfo.lastName p) = true) /\
       isEmail (PersonalInfo.email p) = true /\
       phone_shape (PersonalInfo.phone p) /\
       dateOfBirthRefine zone parseOther (PersonalInfo.dateOfBirth p) = true /\
       (10 <= List.length (PersonalInfo.address p) <= 200)%nat /\
       (2 <= List.length (PersonalInfo.nationality p))%nat /\
       (2 <= List.length (PersonalInfo.stateOfOrigin p))%nat)) /\
  (forall fields : list (string * value),
      (forall g, lookup "gender" fields <> encodeGender g) ->
      aborted (personalInfoSchema isEmail zone parseOther typeMessage enumMessage
                 (VObject fields)) = true /\
      In (mkIssue [Key "gender"] "Please select your gender")
         (issues (personalInfoSchema isEmail zone parseOther typeMessage
                    enumMessage (VObject fields)))) /\
  (forall fields : list (string * value),
      (forall b, member "hasDisability" (lookup "disability" fields) <> VBool b) ->
      aborted (personalInfoSchema isEmail zone parseOther typeMessage enumMessage
                 (VObject fields)) = true).
Proof.
  split; [| split].
  - intro p. split; [| apply personalInfoSchema_nil_iff].
    rewrite personalInfo_parsed. reflexivity.
  - intros fields Hg. unfold personalInfoSchema. split.
    + eapply zObject_field_aborts with (k := "gender"%string); [in_shape |].
      rewrite (gender_outside _ Hg). reflexivity.
    + eapply zObject_field_issue
        with (k := "gender"%string) (j := mkIssue [] "Please select your gender");
        [in_shape |].
      rewrite (gender_outside _ Hg). left. reflexivity.
  - intros fields Hb. unfold personalInfoSchema.
    eapply zObject_field_aborts with (k := "disability"%string); [in_shape |].
    destruct (lookup "disability" fields) as [| | b | s | l | dfields | t] eqn:E;
      try reflexivity.
    eapply zObject_field_aborts with (k := "hasDisability"%string); [in_shape |].
    apply zBoolean_outside. exact Hb.
Qed.

(** X17: a referee section raises no issue exactly when the name has 2
    to 100 characters, the email has the shape zod asks for and is not
    empty, the phone has the shape of the phone pattern, and the
    relationship, organization and position have at least 2
    characters. *)
Theorem referee_valid_iff (r : Referee.t) :
  refereeSchema isEmail r = [] <->
  (2 <= List.length (Referee.name r) <= 100)%nat /\
  (isEmail (Referee.email r) = true /\ Referee.email r <> []) /\
  phone_shape (Referee.phone r) /\
  (2 <= List.length (Referee.relationship r))%nat /\
  (2 <= List.length (Referee.organization r))%nat /\
  (2 <= List.length (Referee.position r))%nat.
Proof.
  unfold refereeSchema.
  rewrite !app_nil_iff, !field_nil_iff, !zstring_nil_iff.
  cbn [forallb check_ok andb].
  rewrite ?andb_true_r, ?andb_true_iff, ?Nat.leb_le.
  rewrite phonePattern_shape, negb_true_iff.
  assert (He : str_eqb (Referee.email r) [] = false <-> Referee.email r <> []).
  { destruct (Referee.email r); simpl; split; congruence. }
  rewrite He. tauto.
Qed.

(** X18: parsing a program selection or an accommodation record of the
    inferred type is never aborted.  The program selection raises no
    issue exactly when program, course and start date are not empty and
    the career goals have 10 to 500 characters; the accommodation record
    exactly when the sponsor's name and relationship have at least 2
    characters and the contact at least 5.  On any object, parsing the
    program selection is aborted with [Please select a study mode] at
    [studyMode] unless the study mode is one of its three values;
    parsing the accommodation is aborted with [Please select a
    sponsorship type] at [sponsorshipType] unless the sponsorship type
    is one of its three values, and is aborted when
    [needsAccommodation] is not a boolean. *)
Theorem program_and_accommodation_valid_iff :
  (forall p : ProgramSelection.t,
      aborted (programSelectionSchema isEmail typeMessage enumMessage
                 (encodeProgramSelection p)) = false /\
      (issues (programSelectionSchema isEmail typeMessage enumMessage
                 (encodeProgramSelection p)) = [] <->
       ProgramSelection.program p <> [] /\
       ProgramSelection.course p <> [] /\
       ProgramSelection.startDate p <> [] /\
       (10 <= List.length (ProgramSelection.careerGoals p) <= 500)%nat)) /\
  (forall a : Accommodation.t,
      aborted (accommodationSchema isEmail typeMessage enumMessage
                 (encodeAccommodation a)) = false /\
      (issues (accommodationSchema isEmail typeMessage enumMessage
                 (encodeAccommodation a)) = [] <->
       (2 <= List.length
               (SponsorDetails.name (Accommodation.sponsorDetails a)))%nat /\
       (2 <= List.length
               (SponsorDetails.relationship (Accommodation.sponsorDetails a)))%nat /\
       (5 <= List.length
               (SponsorDetails.contact (Accommodation.sponsorDetails a)))%nat)) /\
  (forall fields : list (string * value),
      (forall m, lookup "studyMode" fields <> encodeStudyMode m) ->
      aborted (programSelectionSchema isEmail typeMessage enumMessage
                 (VObject fields)) = true /\
      In (mkIssue [Key "studyMode"] "Please select a study mode")
         (issues (programSelectionSchema isEmail typeMessage enumMessage
                    (VObject fields)))) /\
  (forall fields : list (string * value),
      (forall t, lookup "sponsorshipType" fields <> encodeSponsorshipType t) ->
      aborted (accommodationSchema isEmail typeMessage enumMessage
                 (VObject fields)) = true /\
      In (mkIssue [Key "sponsorshipType"] "Please select a sponsorship type")
         (issues (accommodationSchema isEmail typeMessage enumMessage
                    (VObject fields)))) /\
  (forall fields : list (string * value),
      (forall b, lookup "needsAccommodation" fields <> VBool b) ->
      aborted (accommodationSchema isEmail typeMessage enumMessage
                 (VObject fields)) = true).
Proof.
  split; [| split; [| split; [| split]]].
  - intro p. rewrite programSelection_parsed. split; [reflexivity |].
    cbn [issues].
    rewrite !app_nil_iff, !field_nil_iff, !zstring_accepts.
    cbn [forallb check_ok andb].
    rewrite ?andb_true_r, ?andb_true_iff, ?Nat.leb_le, ?length_nonempty. tauto.
  - intro a. rewrite accommodation_parsed. split; [reflexivity |].
    cbn [issues].
    rewrite nested_nil_iff, !app_nil_iff, !field_nil_iff, !zstring_accepts.
    cbn [forallb check_ok andb].
    rewrite ?andb_true_r, ?Nat.leb_le. tauto.
  - intros fields Hm. unfold programSelectionSchema. split.
    + eapply zObject_field_aborts with (k := "studyMode"%string); [in_shape |].
      rewrite (studyMode_outside _ Hm). reflexivity.
    + eapply zObject_field_issue
        with (k := "studyMode"%string) (j := mkIssue [] "Please select a study mode");
        [in_shape |].
      rewrite (studyMode_outside _ Hm). left. reflexivity.
  - intros fields Ht. unfold accommodationSchema. split.
    + eapply zObject_field_aborts with (k := "sponsorshipType"%string);
        [in_shape |].
      rewrite (sponsorshipType_outside _ Ht). reflexivity.
    + eapply zObject_field_issue
        with (k := "sponsorshipType"%string) (j := mkIssue [] "Please select a sponsorship type");
        [in_shape |].
      rewrite (sponsorshipType_outside _ Ht). left. reflexivity.
  - intros fields Hb. unfold accommodationSchema.
    eapply zObject_field_aborts with (k := "needsAccommodation"%string);
      [in_shape |].
    apply zBoolean_outside. exact Hb.
Qed.

Lemma certificate_nil_iff (c : Certificate.t) :
  issues (certificateSchema isEmail typeMessage (encodeCertificate c)) = [] <->
  (2 <= List.length (Certificate.type c))%nat /\
  Certificate.grade c <> [] /\
  List.length (Certificate.year c) = 4%nat /\
  forallb is_digit (Certificate.year c) = true.
Proof.
  rewrite certificate_parsed. cbn [issues].
  rewrite !app_nil_iff, !field_nil_iff, !zstring_accepts.
  cbn [forallb check_ok andb].
  rewrite ?andb_true_r, ?Nat.leb_le, yearRegex_shape, length_nonempty. tauto.
Qed.

(** X19: parsing an academic background of the inferred type is never
    aborted, and its issues are exactly the issues of its certificates,
    each under [certificates], the index of its certificate in the list
    and the field: an issue names the certificate it is about, and a
    list of certificates with a type of at least 2 characters, a
    non-empty grade and a year of four digits, the empty list among
    them, raises none.  On any object whose education level is not one
    of the six values parsing is aborted with the issue [Please select
    your education level] at [educationLevel]. *)
Theorem certificate_issues_are_indexed :
  (forall a : AcademicBackground.t,
      aborted (academicBackgroundSchema isEmail typeMessage enumMessage
                 (encodeAcademicBackground a)) = false) /\
  (forall (a : AcademicBackground.t) (i : issue),
      In i (issues (academicBackgroundSchema isEmail typeMessage enumMessage
                      (encodeAcademicBackground a))) <->
      exists n c j,
        nth_error (AcademicBackground.certificates a) n = Some c /\
        In j (issues (certificateSchema isEmail typeMessage (encodeCertificate c))) /\
        issue_path i = Key "certificates" :: Idx n :: issue_path j /\
        issue_message i = issue_message j) /\
  (forall a : AcademicBackground.t,
      issues (academicBackgroundSchema isEmail typeMessage enumMessage
                (encodeAcademicBackground a)) = [] <->
      forall c, In c (AcademicBackground.certificates a) ->
                (2 <= List.length (Certificate.type c))%nat /\
                Certificate.grade c <> [] /\
                List.length (Certificate.year c) = 4%nat /\
                forallb is_digit (Certificate.year c) = true) /\
  (forall fields : list (string * value),
      (forall e, lookup "educationLevel" fields <> encodeEducationLevel e) ->
      aborted (academicBackgroundSchema isEmail typeMessage enumMessage
                 (VObject fields)) = true /\
      In (mkIssue [Key "educationLevel"] "Please select your education level")
         (issues (academicBackgroundSchema isEmail typeMessage enumMessage
                    (VObject fields)))).
Proof.
  split; [| split; [| split]].
  - intro a. rewrite academicBackground_parsed. reflexivity.
  - intros a i. rewrite academicBackground_parsed. cbn [issues].
    unfold nested. rewrite in_map_iff. split.
    + intros (j0 & <- & Hj0).
      apply In_elements in Hj0 as (n & x & j & Hn & Hj & ->).
      rewrite nth_error_map in Hn.
      destruct (nth_error (AcademicBackground.certificates a) n) as [c |] eqn:Hc;
        [| discriminate Hn].
      simpl in Hn. injection Hn as <-.
      exists n, c, j. repeat split; assumption.
    + intros (n & c & j & Hn & Hj & Hp & Hm).
      exists (at_key (Idx n) j). split.
      * destruct i as [ip im]. simpl in Hp, Hm. subst. reflexivity.
      * apply In_elements. exists n, (encodeCertificate c), j.
        repeat split; [| exact Hj].
        rewrite nth_error_map, Hn. reflexivity.
  - intro a. rewrite academicBackground_parsed. cbn [issues].
    rewrite nested_nil_iff, elements_nil_iff. split.
    + intros H c Hc. apply certificate_nil_iff, H, in_map, Hc.
    + intros H x Hx. apply in_map_iff in Hx as (c & <- & Hc).
      apply certificate_nil_iff, H, Hc.
  - intros fields He. unfold academicBackgroundSchema. split.
    + eapply zObject_field_aborts with (k := "educationLevel"%string);
        [in_shape |].
      rewrite (educationLevel_outside _ He). reflexivity.
    + eapply zObject_field_issue
        with (k := "educationLevel"%string) (j := mkIssue [] "Please select your education level");
        [in_shape |].
      rewrite (educationLevel_outside _ He). left. reflexivity.
Qed.

End SectionSchemas.

Lemma personalInfo_valid_iff_witness :
  (forall g, lookup "gender" [("firstName", VString (js "Ada"));
                              ("gender", VString (js "unknown"))]%string <>
             encodeGender g) /\
  In (mkIssue [Key "gender"] "Please select your gender")
     (issues (personalInfoSchema (fun _ => true) (fixedOffset 0) (fun _ => None)
                (fun _ _ => "Invalid input"%string)
                (fun _ _ => "Invalid enum value"%string)
                (VObject [("firstName", VString (js "Ada"));
                          ("gender", VString (js "unknown"))]%string))).
Proof.
  assert (H : forall g, lookup "gender" [("firstName", VString (js "Ada"));
                                         ("gender", VString (js "unknown"))]%string <>
                        encodeGender g).
  { intros g E. destruct g; vm_compute in E; discriminate E. }
  split; [exact H |].
  exact (proj2 (proj1 (proj2 (personalInfo_valid_iff (fun _ => true)
                                (fixedOffset 0) (fun _ => None)
                                (fun _ _ => "Invalid input"%string)
                                (fun _ _ => "Invalid enum value"%string)))
                  _ H)).
Defined.

Lemma program_and_accommodation_valid_iff_witness :
  (forall m, lookup "studyMode" [("studyMode", VString (js "evening"))]%string <>
             encodeStudyMode m) /\
  In (mkIssue [Key "studyMode"] "Please select a study mode")
     (issues (programSelectionSchema (fun _ => true)
                (fun _ _ => "Invalid input"%string)
                (fun _ _ => "Invalid enum value"%string)
                (VObject [("studyMode", VString (js "evening"))]%string))).
Proof.
  assert (H : forall m,
             lookup "studyMode" [("studyMode", VString (js "evening"))]%string <>
             encodeStudyMode m).
  { intros m E. destruct m; vm_compute in E; discriminate E. }
  split; [exact H |].
  exact (proj2 (proj1 (proj2 (proj2 (program_and_accommodation_valid_iff
                                       (fun _ => true)
                                       (fun _ _ => "Invalid input"%string)
                                       (fun _ _ => "Invalid enum value"%string))))
                  _ H)).
Defined.

Lemma certificate_issues_are_indexed_witness :
  (forall e,
      lookup "educationLevel" [("educationLevel", VString (js "phd"))]%string <>
      encodeEducationLevel e) /\
  In (mkIssue [Key "educationLevel"] "Please select your education level")
     (issues (academicBackgroundSchema (fun _ => true)
                (fun _ _ => "Invalid input"%string)
                (fun _ _ => "Invalid enum value"%string)
                (VObject [("educationLevel", VString (js "phd"))]%string))).
Proof.
  assert (H : forall e,
             lookup "educationLevel"
               [("educationLevel", VString (js "phd"))]%string <>
             encodeEducationLevel e).
  { intros e E. destruct e; vm_compute in E; discriminate E. }
  split; [exact H |].
  exact (proj2 (proj2 (proj2 (proj2 (certificate_issues_are_indexed
                                       (fun _ => true)
                                       (fun _ _ => "Invalid input"%string)
                                       (fun _ _ => "Invalid enum value"%string))))
                  _ H)).
Defined.

(** ** From the schema to [submitApplicationForm] *)

Lemma nonzero_digit_is_digit (c : codeunit) :
  is_nonzero_digit c = true -> is_digit c = true.
Proof.
  unfold is_nonzero_digit, is_digit, in_range. rewrite !andb_true_iff, !N.leb_le.
  lia.
Qed.

Lemma phone_shape_passes_phoneRegex (s : jsstring) :
  phone_shape s -> regex_test phoneRegex s = true.
Proof.
  intros (d & rest & -> & Hd & Hrest & _).
  apply phoneRegex_shape. split; [discriminate |].
  assert (Hdigit : forall c, is_digit c = true -> phone_char c = true).
  { intros c Hc. unfold phone_char. rewrite Hc. reflexivity. }
  cbn [forallb].
  rewrite (Hdigit d (nonzero_digit_is_digit _ Hd)).
  rewrite (forallb_impl is_digit phone_char rest Hdigit Hrest).
  reflexivity.
Qed.

(** X20: a personal-information record that the schema accepts has a
    non-empty first name, last name and phone and passes the phone check
    of [submitApplicationForm]; it passes all three checks of that
    function as soon as its email also matches the function's own email
    pattern. *)
Theorem schema_valid_passes_internal_checks (isEmail : jsstring -> bool)
    (zone : TimeZone) (parseOther : jsstring -> option Z)
    (typeMessage : string -> value -> string)
    (enumMessage : list string -> value -> string)
    (formData : ApplicationFormData.t) :
  issues (personalInfoSchema isEmail zone parseOther typeMessage enumMessage
            (encodePersonalInfo (ApplicationFormData.personalInfo formData))) = [] ->
  (truthy (PersonalInfo.firstName (ApplicationFormData.personalInfo formData)) =
     true /\
   truthy (PersonalInfo.lastName (ApplicationFormData.personalInfo formData)) =
     true /\
   truthy (PersonalInfo.phone (ApplicationFormData.personalInfo formData)) =
     true /\
   regex_test phoneRegex
     (PersonalInfo.phone (ApplicationFormData.personalInfo formData)) = true) /\
  (regex_test emailRegex
     (PersonalInfo.email (ApplicationFormData.personalInfo formData)) = true ->
   passesChecks formData).
Proof.
  intro Hv. apply personalInfoSchema_nil_iff in Hv
    as ([Hfn _] & [Hln _] & _ & Hph & _).
  assert (Hf : truthy (PersonalInfo.firstName
                         (ApplicationFormData.personalInfo formData)) = true).
  { destruct (PersonalInfo.firstName (ApplicationFormData.personalInfo formData));
      [simpl in Hfn; lia | reflexivity]. }
  assert (Hl : truthy (PersonalInfo.lastName
                         (ApplicationFormData.personalInfo formData)) = true).
  { destruct (PersonalInfo.lastName (ApplicationFormData.personalInfo formData));
      [simpl in Hln; lia | reflexivity]. }
  assert (Hp : truthy (PersonalInfo.phone
                         (ApplicationFormData.personalInfo formData)) = true).
  { destruct Hph as (d & rest & -> & _). reflexivity. }
  pose proof (phone_shape_passes_phoneRegex Hph) as Hr.
  split; [repeat split; assumption |].
  intro He. unfold passesChecks, missingRequired. repeat split; try assumption.
  rewrite Hf, Hl, Hp.
  apply emailRegex_shape in He as (a & b & c & -> & Ha & _).
  destruct a; [contradiction | reflexivity].
Qed.

Lemma schema_valid_passes_internal_checks_witness :
  issues (personalInfoSchema (fun _ => true) (fixedOffset 0) (fun _ => None)
            (fun _ _ => "Invalid input"%string)
            (fun _ _ => "Invalid enum value"%string)
            (encodePersonalInfo (ApplicationFormData.personalInfo sampleForm))) =
    [] /\
  regex_test emailRegex
    (PersonalInfo.email (ApplicationFormData.personalInfo sampleForm)) = true /\
  passesChecks sampleForm.
Proof.
  assert (H1 : issues (personalInfoSchema (fun _ => true) (fixedOffset 0)
                         (fun _ => None) (fun _ _ => "Invalid input"%string)
                         (fun _ _ => "Invalid enum value"%string)
                         (encodePersonalInfo
                            (ApplicationFormData.personalInfo sampleForm))) = [])
    by (vm_compute; reflexivity).
  assert (H2 : regex_test emailRegex
                 (PersonalInfo.email (ApplicationFormData.personalInfo sampleForm))
               = true) by (vm_compute; reflexivity).
  split; [exact H1 |]. split; [exact H2 |].
  exact (proj2 (schema_valid_passes_internal_checks (fun _ => true)
                  (fixedOffset 0) (fun _ => None)
                  (fun _ _ => "Invalid input"%string)
                  (fun _ _ => "Invalid enum value"%string) sampleForm H1) H2).
Defined.

(** ** Drafts against the reference table *)

Lemma filter_none {A : Type} (f : A -> bool) (l : list A) :
  (forall x, In x l -> f x = false) -> List.filter f l = [].
Proof.
  induction l as [| x l IH]; simpl; intro H; [reflexivity |].
  rewrite (H x (or_introl eq_refl)). apply IH. intros y Hy. apply H. right. exact Hy.
Qed.

Lemma str_eqb_neq (a b : jsstring) : str_eqb a b = false <-> a <> b.
Proof.
  destruct (str_eqb a b) eqn:E.
  - apply str_eqb_eq in E. split; [discriminate | congruence].
  - split; [| reflexivity]. intros _ H. apply str_eqb_eq in H. congruence.
Qed.

(** X21: on the reference table, a draft saved without an id by a
    signed-in user can be read back by that user under the id returned:
    the row has the user as owner, status [draft], a creation timestamp
    and the sections of the draft, the missing ones as empty objects. *)
Theorem saved_draft_can_be_read_back (w : World.t) (user : SupabaseUser.t)
    (formData : PartialFormData.t) :
  World.user w = Some user ->
  (forall r, In r (World.rows w) -> Row.id r <> fresh_id (World.allocated w)) ->
  let id := fresh_id (World.allocated w) in
  let w1 := snd (run world (saveDraft formData None) w) in
  outcome_of world (saveDraft formData None) w =
    Returned (DraftResult.mk true id) /\
  exists row,
    outcome_of world (getApplicationById id) w1 = Returned row /\
    Row.id row = id /\
    Columns.user_id (Row.columns row) = SupabaseUser.id user /\
    Columns.status (Row.columns row) = js "draft" /\
    Columns.created_at (Row.columns row) <> None /\
    Columns.personal_info (Row.columns row) =
      or_empty (PartialFormData.personalInfo formData) /\
    Columns.academic_background (Row.columns row) =
      or_empty (PartialFormData.academicBackground formData) /\
    Columns.program_selection (Row.columns row) =
      or_empty (PartialFormData.programSelection formData) /\
    Columns.accommodation (Row.columns row) =
      or_empty (PartialFormData.accommodation formData) /\
    Columns.referee (Row.columns row) =
      or_empty (PartialFormData.referee formData).
Proof.
  intros Hu Hfresh id w1. subst w1.
  unfold outcome_of, saveDraft. simpl. rewrite Hu. simpl.
  split; [reflexivity |].
  unfold getApplicationById. simpl. rewrite Hu. simpl.
  rewrite filter_app. rewrite filter_none.
  - simpl. rewrite !str_eqb_refl. simpl.
    eexists. split; [reflexivity |]. simpl. repeat split. discriminate.
  - intros r Hr. rewrite selected_id_owner.
    apply andb_false_iff. left. apply str_eqb_neq. apply Hfresh. exact Hr.
Qed.

Lemma saved_draft_can_be_read_back_witness :
  World.user sampleWorld = Some sampleUser /\
  (forall r, In r (World.rows sampleWorld) ->
             Row.id r <> fresh_id (World.allocated sampleWorld)) /\
  outcome_of world (saveDraft samplePartial None) sampleWorld =
    Returned (DraftResult.mk true (fresh_id (World.allocated sampleWorld))).
Proof.
  assert (Hfresh : forall r, In r (World.rows sampleWorld) ->
                             Row.id r <> fresh_id (World.allocated sampleWorld)).
  { intros r [<- | [<- | []]]; discriminate. }
  split; [reflexivity |]. split; [exact Hfresh |].
  exact (proj1 (saved_draft_can_be_read_back sampleWorld samplePartial
                  eq_refl Hfresh)).
Defined.

(** X22: on the reference table, [saveDraft] with the id of a row that
    the caller does not own, or of no row at all, is rejected with the
    error of the store and leaves the table as it was. *)
Theorem foreign_draft_update_is_rejected (w : World.t) (user : SupabaseUser.t)
    (formData : PartialFormData.t) (c : codeunit) (d : jsstring) :
  World.user w = Some user ->
  (forall r, In r (World.rows w) -> Row.id r = c :: d ->
             Columns.user_id (Row.columns r) <> SupabaseUser.id user) ->
  outcome_of world (saveDraft formData (Some (c :: d))) w =
    Rejected (ErrorObj (PostgrestError.message not_single)) /\
  World.rows (snd (run world (saveDraft formData (Some (c :: d))) w)) =
    World.rows w.
Proof.
  intros Hu Hforeign.
  unfold outcome_of, saveDraft. simpl. rewrite Hu. simpl.
  rewrite filter_none; [split; reflexivity |].
  intros r Hr. rewrite selected_id_owner.
  destruct (str_eqb (Row.id r) (c :: d)) eqn:Hid; [| reflexivity].
  apply str_eqb_eq in Hid. simpl. apply str_eqb_neq.
  exact (Hforeign r Hr Hid).
Qed.

Lemma foreign_draft_update_is_rejected_witness :
  World.user sampleWorld = Some sampleUser /\
  (forall r, In r (World.rows sampleWorld) -> Row.id r = js "row-2" ->
             Columns.user_id (Row.columns r) <> SupabaseUser.id sampleUser) /\
  outcome_of world (saveDraft samplePartial (Some (js "row-2"))) sampleWorld =
    Rejected (ErrorObj (PostgrestError.message not_single)) /\
  World.rows
    (snd (run world (saveDraft samplePartial (Some (js "row-2"))) sampleWorld)) =
    World.rows sampleWorld.
Proof.
  assert (Hforeign :
            forall r, In r (World.rows sampleWorld) -> Row.id r = js "row-2" ->
                      Columns.user_id (Row.columns r) <> SupabaseUser.id sampleUser).
  { intros r [<- | [<- | []]] H; discriminate. }
  split; [reflexivity |]. split; [exact Hforeign |].
  exact (foreign_draft_update_is_rejected sampleWorld samplePartial
           (c := 114%N) (d := js "ow-2") eq_refl Hforeign).
Defined.

Lemma map_unchanged {A : Type} (f : A -> A) (l : list A) :
  (forall x, In x l -> f x = x) -> List.map f l = l.
Proof.
  induction l as [| x l IH]; simpl; intro H; [reflexivity |].
  rewrite (H x (or_introl eq_refl)), IH; [reflexivity |].
  intros y Hy. apply H. right. exact Hy.
Qed.

(** X23: on the reference table, [saveDraft] with the id of a draft the
    caller owns returns that id and replaces the row in place: the table
    keeps its other rows and its length, and the row keeps its id and
    its creation timestamp while its sections, status and modification
    timestamp are those of the new draft. *)
Theorem own_draft_update_replaces_in_place (w : World.t) (user : SupabaseUser.t)
    (formData : PartialFormData.t) (c : codeunit) (d : jsstring)
    (before after : list Row.t) (r : Row.t) :
  World.user w = Some user ->
  World.rows w = before ++ r :: after ->
  Row.id r = c :: d ->
  Columns.user_id (Row.columns r) = SupabaseUser.id user ->
  (forall x, In x (before ++ after) -> Row.id x <> c :: d) ->
  outcome_of world (saveDraft formData (Some (c :: d))) w =
    Returned (DraftResult.mk true (c :: d)) /\
  exists updated_at,
    World.rows (snd (run world (saveDraft formData (Some (c :: d))) w)) =
    before ++
    Row.mk (c :: d)
      (Columns.mk (SupabaseUser.id user)
         (or_empty (PartialFormData.personalInfo formData))
         (or_empty (PartialFormData.academicBackground formData))
         (or_empty (PartialFormData.programSelection formData))
         (or_empty (PartialFormData.accommodation formData))
         (or_empty (PartialFormData.referee formData))
         (js "draft") (Columns.created_at (Row.columns r)) updated_at)
    :: after.
Proof.
  intros Hu Hrows Hid Howner Hothers.
  set (filters := [(js "id", c :: d); (js "user_id", SupabaseUser.id user)]).
  assert (Hsel : selected filters r = true).
  { unfold filters. rewrite selected_id_owner. unfold owned_by.
    rewrite Hid, Howner, !str_eqb_refl. reflexivity. }
  assert (Hnot : forall x, In x (before ++ after) -> selected filters x = false).
  { intros x Hx. unfold filters. rewrite selected_id_owner.
    apply andb_false_iff. left. apply str_eqb_neq. exact (Hothers x Hx). }
  assert (Hfilter : List.filter (selected filters) (World.rows w) = [r]).
  { rewrite Hrows, filter_app. cbn [List.filter]. rewrite Hsel.
    rewrite !filter_none; [reflexivity | |];
      intros x Hx; apply Hnot, in_or_app; [right | left]; exact Hx. }
  assert (Hmap : forall doc,
             List.map (update_row doc filters) (World.rows w) =
             before ++ Row.mk (Row.id r) (patch doc (Row.columns r)) :: after).
  { intro doc. rewrite Hrows, map_app. cbn [List.map].
    unfold update_row at 2. rewrite Hsel.
    rewrite !map_unchanged; [reflexivity | |];
      intros x Hx; unfold update_row; rewrite Hnot; try reflexivity;
      apply in_or_app; [right | left]; exact Hx. }
  unfold outcome_of, saveDraft. simpl. rewrite Hu. simpl.
  match goal with
  | |- context [List.filter (selected ?f) (World.rows w)] =>
      replace (List.filter (selected f) (World.rows w)) with [r]
        by (symmetry; exact Hfilter)
  end.
  simpl. split; [rewrite Hid; reflexivity |].
  match goal with
  | |- context [List.map (update_row ?doc ?f) (World.rows w)] =>
      replace (List.map (update_row doc f) (World.rows w))
        with (before ++ Row.mk (Row.id r) (patch doc (Row.columns r)) :: after)
        by (symmetry; exact (Hmap doc))
  end.
  eexists. rewrite Hid. unfold patch. simpl. reflexivity.
Qed.

Lemma own_draft_update_replaces_in_place_witness :
  World.user sampleWorld = Some sampleUser /\
  outcome_of world (saveDraft samplePartial (Some (js "row-1"))) sampleWorld =
    Returned (DraftResult.mk true (js "row-1")) /\
  exists updated_at,
    World.rows
      (snd (run world (saveDraft samplePartial (Some (js "row-1"))) sampleWorld)) =
    [Row.mk (js "row-1")
       (Columns.mk (js "u1") (Obj samplePersonalInfo) EmptyObject EmptyObject
          EmptyObject EmptyObject (js "draft") (Some (js "T")) updated_at);
     Row.mk (js "row-2") (sampleColumns (js "u2"))].
Proof.
  split; [reflexivity |].
  apply (@own_draft_update_replaces_in_place sampleWorld sampleUser samplePartial
           114%N (js "ow-1") []
           [Row.mk (js "row-2") (sampleColumns (js "u2"))]
           (Row.mk (js "row-1") (sampleColumns (js "u1")))); try reflexivity.
  intros x [<- | []]. discriminate.
Defined.
